(** * TurboGears 2 decoration and configuration-step machinery

    A shallow embedding of

    - [tg/decorators.py]: the [Decoration] registry, template-engine
      lookup, the hook pipeline, [validate], [paginate] and [require];
    - [tg/configuration/configurator/steps/error_pages.py];
    - [tg/configuration/configurator/steps/toscawidgets2.py].

    Python objects are values of [PyVal]; dictionaries are finite maps
    with string keys; a raised exception is the [Raise] case of [Result]. *)

From Stdlib Require Import ZArith String Ascii List Lia.
From Stdlib Require OrderedTypeEx.
From stdpp Require Import base option list gmap strings sorting.

Local Open Scope string_scope.
Local Open Scope list_scope.
Local Open Scope Z_scope.

(** ** Python values

    The values the modelled code handles: [None], booleans, integers,
    strings, lists, dictionaries with string keys, and opaque objects
    (functions, forms, validators), which are only passed around and are
    true in a boolean context. *)

#[warnings="-register-all"]
Inductive PyVal : Type :=
  | PyNone
  | PyBool (b : bool)
  | PyInt (z : Z)
  | PyStr (s : string)
  | PyList (l : list PyVal)
  | PyDict (d : gmap string PyVal)
  | PyObj (name : string).

(** Python truth value testing: [None], [False], [0], the empty string
    and the empty containers are false, every other value is true. *)
Definition truthy (v : PyVal) : bool :=
  match v with
  | PyNone => false
  | PyBool b => b
  | PyInt z => negb (Z.eqb z 0)
  | PyStr s => negb (String.eqb s "")
  | PyList l => match l with [] => false | _ => true end
  | PyDict d => negb (bool_decide (d = ∅))
  | PyObj _ => true
  end.

(** [x == n] for an integer literal [n]: booleans are the integers 0 and 1. *)
Definition py_eq_int (n : Z) (x : PyVal) : bool :=
  match x with
  | PyInt z => Z.eqb z n
  | PyBool b => Z.eqb (if b then 1 else 0) n
  | _ => false
  end.

(** [x == s] for a string literal [s]. *)
Definition py_eq_str (s : string) (x : PyVal) : bool :=
  match x with
  | PyStr t => String.eqb t s
  | _ => false
  end.

(** The exceptions the modelled code raises or catches. *)
Inductive Exn : Type :=
  | KeyError
  | ValueError
  | TypeError
  | AttributeError
  | NotAuthorizedError (msg : string)
  | TGConfigError (msg : string)
  | HTTPError (code : Z) (detail comment : string)
  | OtherError (name : string).

Inductive Result (A : Type) : Type :=
  | Ok (a : A)
  | Raise (e : Exn).
Arguments Ok {A} a.
Arguments Raise {A} e.

Definition is_KeyError (e : Exn) : bool :=
  match e with KeyError => true | _ => false end.

Definition is_ValueError (e : Exn) : bool :=
  match e with ValueError => true | _ => false end.

(** [d[k]] on a dictionary: [KeyError] when the key is missing. *)
Definition getitem {V} (d : gmap string V) (k : string) : Result V :=
  match d !! k with
  | Some v => Ok v
  | None => Raise KeyError
  end.

(** [d.get(k)]: [None] when the key is missing. *)
Definition dict_get (d : gmap string PyVal) (k : string) : PyVal :=
  default PyNone (d !! k).

(** [list(v)], the items [v] yields when iterated: the items of a
    list, the keys of a dictionary, the characters of a string. *)
Definition py_list (v : PyVal) : Result (list PyVal) :=
  match v with
  | PyList l => Ok l
  | PyDict d => Ok (PyStr <$> (map_to_list d).*1)
  | PyStr s => Ok ((fun c => PyStr (String c EmptyString)) <$> list_ascii_of_string s)
  | _ => Raise TypeError
  end.

(** ** Effects

    Stateful, fallible code is a function from a state to a result and
    the state it leaves behind; a raised exception keeps the state
    changes made before it. *)

Definition Eff (S A : Type) : Type := S → Result A * S.

Definition ret {S A} (a : A) : Eff S A := fun s => (Ok a, s).

Definition raise {S A} (e : Exn) : Eff S A := fun s => (Raise e, s).

Definition bind {S A B} (m : Eff S A) (k : A → Eff S B) : Eff S B :=
  fun s =>
    match m s with
    | (Ok a, s') => k a s'
    | (Raise e, s') => (Raise e, s')
    end.

(** [try: m except <caught>: handler] *)
Definition try_except {S A} (m : Eff S A) (caught : Exn → bool)
    (handler : Exn → Eff S A) : Eff S A :=
  fun s =>
    match m s with
    | (Ok a, s') => (Ok a, s')
    | (Raise e, s') => if caught e then handler e s' else (Raise e, s')
    end.

Definition get {S} : Eff S S := fun s => (Ok s, s).

Definition modify {S} (f : S → S) : Eff S unit := fun s => (Ok tt, f s).

(** A pure fallible step inside stateful code. *)
Definition lift {S A} (r : Result A) : Eff S A := fun s => (r, s).

Declare Scope eff_scope.
Delimit Scope eff_scope with eff.
Notation "'let!' x ':=' m 'in' k" := (bind m (fun x => k))
  (at level 10, x pattern, m at level 100, k at level 200) : eff_scope.
Notation "'do!' m 'in' k" := (bind m (fun _ => k))
  (at level 10, m at level 100, k at level 200) : eff_scope.

(** [wp m Q E s]: run from [s], [m] either returns a value and a state
    that satisfy [Q], or raises an exception that, with the state it
    leaves, satisfies [E]. *)
Definition wp {S A} (m : Eff S A) (Q : A → S → Prop) (E : Exn → S → Prop)
    (s : S) : Prop :=
  match m s with
  | (Ok a, s') => Q a s'
  | (Raise e, s') => E e s'
  end.

(** ** The error-pages configuration step *)

Module ErrorPages.

Definition id : string := "error_pages".

Definition get_defaults : gmap string PyVal :=
  <["errorpage.enabled" := PyBool true]>
  (<["errorpage.status_codes" := PyList [PyInt 403; PyInt 404]]> ∅).

(** [401 in codes]: lists compare their items, dictionaries their
    keys (strings, never equal to 401); other values are not
    containers of integers. *)
Definition contains_401 (codes : PyVal) : Result bool :=
  match codes with
  | PyList l => Ok (existsb (py_eq_int 401) l)
  | PyDict _ => Ok false
  | _ => Raise TypeError
  end.

Definition no_auth_backend (conf : gmap string PyVal) : bool :=
  match dict_get conf "auth_backend" with
  | PyNone => true
  | _ => false
  end.

Definition _configure_error_pages (conf : gmap string PyVal)
  : Result (gmap string PyVal) :=
  if no_auth_backend conf then
    match getitem conf "errorpage.status_codes" with
    | Raise e => Raise e
    | Ok codes =>
        match contains_401 codes with
        | Raise e => Raise e
        | Ok true => Ok conf
        | Ok false =>
            match py_list codes with
            | Raise e => Raise e
            | Ok l => Ok (<["errorpage.status_codes" := PyList (l ++ [PyInt 401])]> conf)
            end
        end
    end
  else Ok conf.

(** The status codes of a configuration, when they are a list. *)
Definition status_codes (conf : gmap string PyVal) : option (list PyVal) :=
  match conf !! "errorpage.status_codes" with
  | Some (PyList l) => Some l
  | _ => None
  end.

End ErrorPages.

(** ** The ToscaWidgets2 configuration step *)

Module ToscaWidgets2.

Definition id : string := "tw2".

(** A WSGI application: the application handed to the step, or an
    application wrapped by [TwMiddleware(app, **config)]. *)
Inductive App : Type :=
  | WsgiApp (name : string)
  | TwMiddleware (app : App) (config : gmap string PyVal).

Definition get_defaults : gmap string PyVal :=
  <["tw2.enabled" := PyBool false]> (<["custom_tw2_config" := PyDict ∅]> ∅).

Definition _configure (conf : gmap string PyVal) : gmap string PyVal :=
  let prefer_tw2 := dict_get conf "prefer_toscawidgets2" in
  let use_tw2 := dict_get conf "use_toscawidgets2" in
  if truthy prefer_tw2 || truthy use_tw2
  then <["tw2.enabled" := PyBool true]> conf
  else conf.

Definition hashable (v : PyVal) : bool :=
  match v with
  | PyList _ | PyDict _ => false
  | _ => true
  end.

Definition str_of (v : PyVal) : option string :=
  match v with PyStr s => Some s | _ => None end.

(** The strings of [set(v)].  The set is only ever intersected with a
    set of strings, so its other members are dropped here; an
    unhashable member or a value that cannot be iterated raises. *)
Definition str_set (v : PyVal) : Result (gset string) :=
  match py_list v with
  | Ok l =>
      if forallb hashable l
      then Ok (list_to_set (omap str_of l))
      else Raise TypeError
  | Raise e => Raise e
  end.

(** One item of the sequence given to [dict.update]: it must yield
    two items, a key and a value, and the key must be a string to be
    passed on as a keyword argument. *)
Definition update_item (acc : Result (gmap string PyVal)) (item : PyVal)
  : Result (gmap string PyVal) :=
  match acc with
  | Raise e => Raise e
  | Ok m =>
      match py_list item with
      | Ok [PyStr k; v] => Ok (<[k := v]> m)
      | Ok [_; _] => Raise TypeError
      | Ok _ => Raise ValueError
      | Raise e => Raise e
      end
  end.

(** [d.update(other)]: the entries of a dictionary [other], or the
    pairs a sequence [other] yields, replace those of [d]. *)
Definition dict_update (d : gmap string PyVal) (other : PyVal)
  : Result (gmap string PyVal) :=
  match other with
  | PyDict o => Ok (o ∪ d)
  | _ =>
      match py_list other with
      | Ok items => foldl update_item (Ok d) items
      | Raise e => Raise e
      end
  end.

Definition rendering_extension_lookup : gmap string PyVal :=
  <["mako" := PyList [PyStr "mak"; PyStr "mako"]]>
  (<["genshi" := PyList [PyStr "genshi"; PyStr "html"]]>
  (<["jinja" := PyList [PyStr "jinja"; PyStr "jinja2"]]>
  (<["kajiki" := PyList [PyStr "kajiki"; PyStr "xhtml"; PyStr "xml"]]> ∅))).

Definition no_engine_msg : string :=
  ("None of the configured rendering engines is supported" ++
   "by ToscaWidgets2, unable to configure ToscaWidgets.")%string.

Section step.

(** [tw2.core.middleware.Config.preferred_rendering_engines], a
    class attribute of the ToscaWidgets2 library. *)
Variable preferred_rendering_engines : list string.

(** [list(s)] for a set [s]: Python fixes no iteration order. *)
Variable set_order : gset string → list string.

Definition shared_with (available_renderers : gset string) : list string :=
  set_order (available_renderers ∩ list_to_set preferred_rendering_engines).

Definition _add_middleware (conf : gmap string PyVal) (app : App) : Result App :=
  match str_set (default (PyList []) (conf !! "renderers")) with
  | Raise e => Raise e
  | Ok available_renderers =>
      let shared_engines := shared_with available_renderers in
      match shared_engines with
      | [] => Raise (TGConfigError no_engine_msg)
      | first :: _ =>
          let default_renderer := dict_get conf "default_renderer" in
          let '(tw2_engines, tw2_default_engine) :=
            if existsb (fun s => py_eq_str s default_renderer) shared_engines
            then (default_renderer :: (PyStr <$> shared_engines), default_renderer)
            else (PyStr <$> shared_engines, PyStr first) in
          match getitem conf "debug" with
          | Raise e => Raise e
          | Ok debug =>
              let default_tw2_config : gmap string PyVal :=
                <["default_engine" := tw2_default_engine]>
                (<["preferred_rendering_engines" := PyList tw2_engines]>
                (<["translator" := PyObj "ugettext"]>
                (<["get_lang" := PyObj "lambda: get_lang(all=False)"]>
                (<["auto_reload_templates" :=
                     default (PyBool false) (conf !! "auto_reload_templates")]>
                (<["controller_prefix" := PyStr "/tw2/controllers/"]>
                (<["res_prefix" := PyStr "/tw2/resources/"]>
                (<["debug" := debug]>
                (<["rendering_extension_lookup" :=
                     PyDict rendering_extension_lookup]> ∅)))))))) in
              match dict_update default_tw2_config
                      (default (PyDict ∅) (conf !! "custom_tw2_config")) with
              | Raise e => Raise e
              | Ok config => Ok (TwMiddleware app config)
              end
          end
      end
  end.

End step.

(** The default engine a middleware was configured with. *)
Definition default_engine_of (a : App) : option PyVal :=
  match a with
  | TwMiddleware _ config => config !! "default_engine"
  | WsgiApp _ => None
  end.

(** A concrete setting: a list of preferred engines and a configuration
    whose [custom_tw2_config] names its own default engine. *)
Definition tw2_preferred : list string := ["mako"; "genshi"; "jinja"; "kajiki"].

Definition conf_custom_engine : gmap string PyVal :=
  <["renderers" := PyList [PyStr "json"; PyStr "genshi"; PyStr "mako"]]>
  (<["default_renderer" := PyStr "genshi"]>
  (<["debug" := PyBool false]>
  (<["custom_tw2_config" := PyDict (<["default_engine" := PyStr "mako"]> ∅)]> ∅))).

Definition conf_plain : gmap string PyVal :=
  <["renderers" := PyList [PyStr "json"; PyStr "genshi"; PyStr "mako"]]>
  (<["default_renderer" := PyStr "genshi"]>
  (<["debug" := PyBool false]>
  (<["custom_tw2_config" := PyDict ∅]> ∅))).

End ToscaWidgets2.

(** ** Strings *)

(** [s.split(';')[0]] *)
Fixpoint before_semicolon (s : string) : string :=
  match s with
  | EmptyString => EmptyString
  | String c s' =>
      if Ascii.eqb c ";" then EmptyString else String c (before_semicolon s')
  end.

(** [sub in s] *)
Definition contains (sub s : string) : bool :=
  match String.index 0 sub s with
  | Some _ => true
  | None => String.eqb sub ""
  end.

(** [s.startswith(p)] *)
Definition startswith (p s : string) : bool := String.prefix p s.

(** Whitespace as [int()] and [str.strip] see it. *)
Definition is_space (c : ascii) : bool :=
  let n := N_of_ascii c in
  (N.eqb n 32 || (N.leb 9 n && N.leb n 13))%bool.

Fixpoint lstrip (l : list ascii) : list ascii :=
  match l with
  | c :: l' => if is_space c then lstrip l' else l
  | [] => []
  end.

Definition strip (l : list ascii) : list ascii :=
  rev (lstrip (rev (lstrip l))).

Definition digit_val (c : ascii) : option Z :=
  let n := Z.of_N (N_of_ascii c) in
  if Z.leb 48 n && Z.leb n 57 then Some (n - 48) else None.

Fixpoint digits_val (acc : Z) (l : list ascii) : option Z :=
  match l with
  | [] => Some acc
  | c :: l' =>
      match digit_val c with
      | Some d => digits_val (10 * acc + d) l'
      | None => None
      end
  end.

(** The integer a decimal literal denotes: optional surrounding
    whitespace, an optional sign, and at least one digit. *)
Definition parse_int (s : string) : option Z :=
  match strip (list_ascii_of_string s) with
  | [] => None
  | c :: ds =>
      if Ascii.eqb c "-" then
        match ds with [] => None | _ => Z.opp <$> digits_val 0 ds end
      else if Ascii.eqb c "+" then
        match ds with [] => None | _ => digits_val 0 ds end
      else digits_val 0 (c :: ds)
  end.

(** [int(v)]: [ValueError] for a string that is no integer literal,
    [TypeError] for a value that is neither a number nor a string. *)
Definition py_int (v : PyVal) : Result Z :=
  match v with
  | PyInt z => Ok z
  | PyBool b => Ok (if b then 1 else 0)
  | PyStr s => match parse_int s with Some z => Ok z | None => Raise ValueError end
  | _ => Raise TypeError
  end.

(** Letter case, for ASCII letters. *)
Definition ascii_lower (c : ascii) : ascii :=
  let n := N_of_ascii c in
  if (N.leb 65 n && N.leb n 90)%bool then ascii_of_N (n + 32) else c.

Definition ascii_upper (c : ascii) : ascii :=
  let n := N_of_ascii c in
  if (N.leb 97 n && N.leb n 122)%bool then ascii_of_N (n - 32) else c.

Fixpoint string_map (f : ascii → ascii) (s : string) : string :=
  match s with
  | EmptyString => EmptyString
  | String c s' => String (f c) (string_map f s')
  end.

(** [s.lower()] and [s.upper()] *)
Definition lower (s : string) : string := string_map ascii_lower s.
Definition upper (s : string) : string := string_map ascii_upper s.

(** Descending order on strings, the order of [sorted(..., reverse=True)]. *)
Definition str_ge (a b : string) : Prop := String.leb b a = true.

#[global] Instance str_ge_dec (a b : string) : Decision (str_ge a b) :=
  decide (String.leb b a = true).

Definition sorted_reverse (keys : list string) : list string :=
  merge_sort str_ge keys.

(** ** The decorators *)

Module Decorators.

(** *** The request-scoped globals *)

Record Request : Type := {
  response_type : option string;
  headers : gmap string string;
  environ : gmap string PyVal;
  paginators : option (gmap string PyVal);
  _render_custom_format : option (gmap positive string);
  _override_mapping : option (gmap positive (gmap string (list PyVal)))
}.

Record Response : Type := {
  status_int : Z;
  response_headers : gmap string string
}.

(** [request.headers] and [response.headers] are WebOb header
    dictionaries, which ignore the case of header names: [h[name]] and
    [h.get(name)] find the header whatever spelling it was set and is
    asked under. *)
Definition header_get (h : gmap string string) (name : string) : option string :=
  snd <$> List.find (fun item => String.eqb (lower item.1) (lower name))
                    (map_to_list h).

(** What a callable of the application can read and change: the
    request, the response, the flashed messages and the other mutable
    objects it reaches. *)
Record World : Type := {
  request : Request;
  response : Response;
  flashed : list (string * string);
  store : gmap string PyVal
}.

(** A Python callable, applied to positional and keyword arguments. *)
Definition Callable : Type := list PyVal → gmap string PyVal → Eff World PyVal.

(** *** Decoration *)

(** A [validate] object; its [validators] attribute may be unset. *)
Record Validate : Type := {
  validators : option PyVal;
  validate_error_handler : PyVal
}.

(** Controller functions are identified by their object identity. *)
Record Decoration : Type := {
  controller : positive;
  engines : gmap string (PyVal * PyVal * PyVal);
  engines_keys : list string;
  default_engine : option string;
  custom_engines : gmap string (string * PyVal * PyVal * PyVal);
  render_custom_format : option string;
  validation : option Validate;
  error_handler : option PyVal;
  hooks : gmap string (list Callable)
}.

Definition __init__ (controller : positive) : Decoration := {|
  controller := controller;
  engines := ∅;
  engines_keys := [];
  default_engine := None;
  custom_engines := ∅;
  render_custom_format := None;
  validation := None;
  error_handler := None;
  hooks := <["before_validate" := []]> (<["before_call" := []]>
           (<["before_render" := []]> (<["after_render" := []]> ∅)))
|}.

(** The function objects and the decorations attached to them:
    [decoration_attr] is the [decoration] attribute of each function, a
    reference into [heap]. *)
Record Registry : Type := {
  decoration_attr : gmap positive positive;
  heap : gmap positive Decoration
}.

Definition empty_registry : Registry :=
  {| decoration_attr := ∅; heap := ∅ |}.

Definition get_decoration (func : positive) : Eff Registry positive :=
  fun r =>
    match decoration_attr r !! func with
    | Some dec => (Ok dec, r)
    | None =>
        let dec := fresh (dom (heap r)) in
        (Ok dec, {| decoration_attr := <[func := dec]> (decoration_attr r);
                    heap := <[dec := __init__ func]> (heap r) |})
    end.

(** A method call on the decoration object a reference points to. *)
Definition on_decoration (dec : positive) (method : Decoration → Result Decoration)
  : Eff Registry unit :=
  fun r =>
    match heap r !! dec with
    | None => (Raise AttributeError, r)
    | Some d =>
        match method d with
        | Ok d' => (Ok tt, {| decoration_attr := decoration_attr r;
                              heap := <[dec := d']> (heap r) |})
        | Raise e => (Raise e, r)
        end
    end.

(** Every [decoration] attribute refers to a decoration object, and no
    two functions share one: what [get_decoration] and the methods of
    [Decoration] maintain. *)
Definition registry_wf (r : Registry) : Prop :=
  (∀ func dec, decoration_attr r !! func = Some dec → is_Some (heap r !! dec)) ∧
  (∀ f g dec, decoration_attr r !! f = Some dec →
              decoration_attr r !! g = Some dec → f = g).

(** What the decorators do to the registry: they look up or create the
    decoration of a function, and call a method on a decoration. *)
Inductive RegistryOp : Type :=
  | GetDecoration (func : positive)
  | CallMethod (dec : positive) (method : Decoration → Result Decoration).

Definition apply_op (r : Registry) (op : RegistryOp) : Registry :=
  match op with
  | GetDecoration func => (get_decoration func r).2
  | CallMethod dec method => (on_decoration dec method r).2
  end.

(** The registry after a sequence of such operations on a program
    whose functions carry no decoration yet. *)
Definition run_ops (ops : list RegistryOp) : Registry :=
  foldl apply_op empty_registry ops.


Definition register_template_engine (self : Decoration) (content_type : option string)
    (engine template exclude_names : PyVal) : Decoration :=
  let content_type := default "*/*" content_type in
  let engines' := <[content_type := (engine, template, exclude_names)]> (engines self) in
  {| controller := controller self;
     engines := engines';
     engines_keys := sorted_reverse (map_to_list engines').*1;
     default_engine :=
       if bool_decide (size engines' = 1%nat) then Some content_type else None;
     custom_engines := custom_engines self;
     render_custom_format := render_custom_format self;
     validation := validation self;
     error_handler := error_handler self;
     hooks := hooks self |}.

Definition register_custom_template_engine (self : Decoration) (custom_format : string)
    (content_type : option string) (engine template exclude_names : PyVal) : Decoration :=
  let content_type := default "*/*" content_type in
  {| controller := controller self;
     engines := engines self;
     engines_keys := engines_keys self;
     default_engine := default_engine self;
     custom_engines :=
       <[custom_format := (content_type, engine, template, exclude_names)]>
         (custom_engines self);
     render_custom_format := render_custom_format self;
     validation := validation self;
     error_handler := error_handler self;
     hooks := hooks self |}.

Definition set_hooks (self : Decoration) (h : gmap string (list Callable)) : Decoration :=
  {| controller := controller self;
     engines := engines self;
     engines_keys := engines_keys self;
     default_engine := default_engine self;
     custom_engines := custom_engines self;
     render_custom_format := render_custom_format self;
     validation := validation self;
     error_handler := error_handler self;
     hooks := h |}.

Definition set_validation (self : Decoration) (v : Validate) : Decoration :=
  {| controller := controller self;
     engines := engines self;
     engines_keys := engines_keys self;
     default_engine := default_engine self;
     custom_engines := custom_engines self;
     render_custom_format := render_custom_format self;
     validation := Some v;
     error_handler := error_handler self;
     hooks := hooks self |}.

(** [self.hooks[hook_name].append(func)] *)
Definition register_hook (self : Decoration) (hook_name : string) (func : Callable)
  : Result Decoration :=
  match getitem (hooks self) hook_name with
  | Raise e => Raise e
  | Ok fs => Ok (set_hooks self (<[hook_name := (fs ++ [func])%list]> (hooks self)))
  end.

(** A sequence of [register_template_engine] calls. *)
Definition register_all (self : Decoration)
    (calls : list (option string * PyVal * PyVal * PyVal)) : Decoration :=
  foldl (fun d '(content_type, engine, template, exclude_names) =>
           register_template_engine d content_type engine template exclude_names)
        self calls.

(** The content types with a registered engine. *)
Definition registered (self : Decoration) : list string :=
  (map_to_list (engines self)).*1.

(** What [register_template_engine] maintains between [engines],
    [default_engine] and [engines_keys]. *)
Definition engines_invariant (self : Decoration) : Prop :=
  default_engine self = match registered self with [ct] => Some ct | _ => None end ∧
  engines_keys self = sorted_reverse (registered self).

(** The dictionary entry a [register_template_engine] call writes. *)
Definition entry_of (call : option string * PyVal * PyVal * PyVal)
  : string * (PyVal * PyVal * PyVal) :=
  let '(content_type, engine, template, exclude_names) := call in
  (default "*/*" content_type, (engine, template, exclude_names)).

(** *** The hook pipeline *)

(** One call made by [run_hooks]: the function and what it received. *)
Definition HookCall : Type := Callable * list PyVal * gmap string PyVal.

(** The loop [for func in funcs] calling [func] on [l] and [kw],
    recording the calls made. *)
Fixpoint call_each (funcs : list Callable) (l : list PyVal) (kw : gmap string PyVal)
    (w : World) : list HookCall * (Result unit * World) :=
  match funcs with
  | [] => ([], (Ok tt, w))
  | func :: rest =>
      match func l kw w with
      | (Ok _, w') =>
          let '(calls, out) := call_each rest l kw w' in
          ((func, l, kw) :: calls, out)
      | (Raise e, w') => ([(func, l, kw)], (Raise e, w'))
      end
  end.

(** The words of the hook properties, apart from [call_each]: the
    functions are called in list order with the given arguments, each in
    the world the one before it left, and every one of them returns. *)
Inductive all_return (l : list PyVal) (kw : gmap string PyVal)
  : list Callable → World → World → Prop :=
  | all_return_nil (w : World) : all_return l kw [] w w
  | all_return_cons (func : Callable) (rest : list Callable) (v : PyVal)
      (w w1 w2 : World) :
      func l kw w = (Ok v, w1) →
      all_return l kw rest w1 w2 →
      all_return l kw (func :: rest) w w2.

(** [tgl.config['hooks'][hook]]: both lookups can raise [KeyError]. *)
Definition syswide_hooks (config_hooks : option (gmap string (list Callable)))
    (hook : string) : Result (list Callable) :=
  match config_hooks with
  | None => Raise KeyError
  | Some hs => getitem hs hook
  end.

(** [config_hooks] is the ['hooks'] entry of [tgl.config], if any.  The
    [try] covers the lookups and the calls of the system-wide hooks. *)
Definition run_hooks (self : Decoration)
    (config_hooks : option (gmap string (list Callable)))
    (hook : string) (l : list PyVal) (kw : gmap string PyVal) (w : World)
  : list HookCall * (Result unit * World) :=
  let '(calls1, (r1, w1)) :=
    match syswide_hooks config_hooks hook with
    | Ok funcs => call_each funcs l kw w
    | Raise e => ([], (Raise e, w))
    end in
  match r1 with
  | Raise e =>
      if is_KeyError e then
        match getitem (hooks self) hook with
        | Raise e' => (calls1, (Raise e', w1))
        | Ok funcs =>
            let '(calls2, out) := call_each funcs l kw w1 in
            ((calls1 ++ calls2)%list, out)
        end
      else (calls1, (Raise e, w1))
  | Ok _ =>
      match getitem (hooks self) hook with
      | Raise e' => (calls1, (Raise e', w1))
      | Ok funcs =>
          let '(calls2, out) := call_each funcs l kw w1 in
          ((calls1 ++ calls2)%list, out)
      end
  end.

(** Two hooks: one that ends the request the way [https] does for a
    method other than GET, and one that does nothing. *)
Definition hook_not_allowed : Callable :=
  fun _ _ => raise (HTTPError 405 "" "").

Definition hook_pass : Callable := fun _ _ => ret PyNone.

(** A hook that fails on a missing key of its own. *)
Definition hook_key_error : Callable := fun _ _ => raise KeyError.

Definition example_world : World :=
  {| request := {| response_type := None;
                   headers := ∅;
                   environ := ∅;
                   paginators := None;
                   _render_custom_format := None;
                   _override_mapping := None |};
     response := {| status_int := 200; response_headers := ∅ |};
     flashed := [];
     store := ∅ |}.

(** [_hook_decorator.__call__] *)
Definition hook_decorator_call (hook_name : string) (hook_func : Callable)
    (func : positive) : Eff Registry positive :=
  (let! deco := get_decoration func in
   do! on_decoration deco (fun d => register_hook d hook_name hook_func) in
   ret func)%eff.

(** *** Template engine lookup *)

Definition unpack3 (entry : list PyVal) : Result (PyVal * PyVal * PyVal) :=
  match entry with
  | [engine; template; exclude_names] => Ok (engine, template, exclude_names)
  | _ => Raise ValueError
  end.

Definition with_charset (content_type : string) : string :=
  if negb (contains "charset" content_type)
     && (startswith "text" content_type
         || bool_decide (content_type ∈ ["application/xhtml+xml";
                                         "application/xml";
                                         "application/json"]))
  then (content_type ++ "; charset=utf-8")%string
  else content_type.

(** Truth value of an attribute that is [None] or a string. *)
Definition nonempty (s : option string) : bool :=
  match s with
  | Some s => negb (String.eqb s "")
  | None => false
  end.

Definition accept_types_of (self : Decoration) (req : Request) : string :=
  if nonempty (response_type req)
     && bool_decide (is_Some (engines self !! default "" (response_type req)))
  then default "" (response_type req)
  else default "*/*" (header_get (headers req) "accept").

(** The custom format in force: the one chosen for this request with
    [use_custom_format], else the decoration's own. *)
Definition render_custom_format_of (self : Decoration) (req : Request) : option string :=
  match _render_custom_format req with
  | Some chosen =>
      match chosen !! controller self with
      | Some custom_format => Some custom_format
      | None => render_custom_format self
      end
  | None => render_custom_format self
  end.

(** [engines.get(content_type, (None, None, None))] *)
Definition engines_get (self : Decoration) (content_type : string)
  : PyVal * PyVal * PyVal :=
  default (PyNone, PyNone, PyNone) (engines self !! content_type).

Section lookup.

(** [paste.util.mimeparse.best_match(supported, header)], a function
    of the Paste library. *)
Variable best_match : list string → string → Result string.

Definition select_content_type (self : Decoration) (accept_types : string)
  : Result string :=
  if nonempty (default_engine self) then Ok (default "" (default_engine self))
  else if negb (bool_decide (engines self = ∅))
  then best_match (engines_keys self) accept_types
  else Ok "text/html".

Definition lookup_template_engine (self : Decoration) (req : Request)
    (resp : Response) : Result (string * PyVal * PyVal * PyVal) :=
  let accept_types := accept_types_of self req in
  let render_custom_format := render_custom_format_of self req in
  let found : Result (string * PyVal * PyVal * PyVal) :=
    if nonempty render_custom_format then
      getitem (custom_engines self) (default "" render_custom_format)
    else
      match select_content_type self accept_types with
      | Raise e => Raise e
      | Ok content_type =>
          let content_type :=
            match header_get (response_headers resp) "Content-Type" with
            | Some controller_content_type =>
                before_semicolon controller_content_type
            | None => content_type
            end in
          let overridden :=
            match _override_mapping req with
            | None => None
            | Some mapping =>
                match mapping !! controller self with
                | None => None
                | Some cnt_override_mapping =>
                    cnt_override_mapping !! before_semicolon content_type
                end
            end in
          match overridden with
          | Some entry =>
              match unpack3 entry with
              | Ok (engine, template, exclude_names) =>
                  Ok (content_type, engine, template, exclude_names)
              | Raise e => Raise e
              end
          | None =>
              let '(engine, template, exclude_names) :=
                engines_get self content_type in
              Ok (content_type, engine, template, exclude_names)
          end
      end in
  match found with
  | Raise e => Raise e
  | Ok (content_type, engine, template, exclude_names) =>
      Ok (with_charset content_type, engine, template, exclude_names)
  end.

End lookup.

(** A controller exposed as HTML, and the response of an action that
    set its own [Content-Type]. *)
Definition html_controller : Decoration :=
  register_all (__init__ 1%positive)
    [(Some "text/html", PyStr "genshi", PyStr "pkg.templates.index", PyList [])].

Definition html_json_controller : Decoration :=
  register_all (__init__ 1%positive)
    [(Some "text/html", PyStr "genshi", PyStr "pkg.templates.index", PyList []);
     (Some "application/json", PyStr "json", PyStr "", PyList [PyStr "tmpl_context"])].

Definition plain_request : Request :=
  {| response_type := None;
     headers := <["accept" := "application/json"]> ∅;
     environ := ∅;
     paginators := None;
     _render_custom_format := None;
     _override_mapping := None |}.

Definition plain_response : Response :=
  {| status_int := 200; response_headers := ∅ |}.

Definition json_response : Response :=
  {| status_int := 200;
     response_headers := <["Content-Type" := "application/json"]> ∅ |}.

(** *** validate *)

Definition validate_init (validators error_handler form : PyVal) : Validate :=
  let attr := if truthy form then Some form else None in
  let attr := if truthy validators then Some validators else attr in
  {| validators := attr; validate_error_handler := error_handler |}.

Definition validate_call (self : Validate) (func : positive) : Eff Registry positive :=
  (let! deco := get_decoration func in
   do! on_decoration deco (fun d => Ok (set_validation d self)) in
   ret func)%eff.

(** *** paginate *)

Record Paginate : Type := {
  name : string;
  page_param : string;
  items_per_page_param : string;
  items_per_page : Z;
  max_items_per_page : Z
}.

Definition paginate_init (name : string) (use_prefix : bool)
    (items_per_page max_items_per_page : Z) : Paginate :=
  let prefix := if use_prefix then (name ++ "_")%string else "" in
  {| name := name;
     page_param := (prefix ++ "page")%string;
     items_per_page_param := (prefix ++ "items_per_page")%string;
     items_per_page := items_per_page;
     max_items_per_page := max_items_per_page |}.

(** The two objects [before_validate] changes in place: the [params]
    dictionary it is given and [request.paginators]. *)
Record PagState : Type := {
  params : gmap string PyVal;
  request_paginators : option (gmap string PyVal)
}.

(** [params.pop(key, None)] *)
Definition params_pop (key : string) : Eff PagState PyVal :=
  fun s =>
    (Ok (dict_get (params s) key),
     {| params := delete key (params s);
        request_paginators := request_paginators s |}).

Definition put_paginators (pd : gmap string PyVal) : Eff PagState unit :=
  fun s => (Ok tt, {| params := params s; request_paginators := Some pd |}).

(** [request.paginators], created with an empty parameter dictionary
    when the request has none yet. *)
Definition paginators_data : Eff PagState (gmap string PyVal) :=
  fun s =>
    match request_paginators s with
    | Some pd => (Ok pd, s)
    | None =>
        let pd : gmap string PyVal := <["_tg_paginators_params" := PyDict ∅]> ∅ in
        (Ok pd, {| params := params s; request_paginators := Some pd |})
    end.

(** [paginators_data[key]], which must be a dictionary. *)
Definition paginators_dict (key : string) : Eff PagState (gmap string PyVal) :=
  (let! pd := paginators_data in
   match pd !! key with
   | None => raise KeyError
   | Some (PyDict d) => ret d
   | Some _ => raise TypeError
   end)%eff.

(** Modelled from the spec: [tg.util.Bunch], which is not among the
    sources, is the framework's record of request-scoped metadata: a
    dictionary whose attributes are its items.  Setting an attribute of
    the paginator is therefore [paginators_data[key][attr] = v]. *)
Definition paginators_setitem (key attr : string) (v : PyVal) : Eff PagState unit :=
  (let! pd := paginators_data in
   let! d := paginators_dict key in
   put_paginators (<[key := PyDict (<[attr := v]> d)]> pd))%eff.

Definition page_of (page_param : PyVal) : Eff PagState Z :=
  if truthy page_param then
    try_except
      (let! page := lift (py_int page_param) in
       if page <? 1 then raise ValueError else ret page)%eff
      is_ValueError (fun _ => ret 1)
  else ret 1.

Definition items_per_page_of (self : Paginate) (items_per_page : PyVal) : Eff PagState Z :=
  if truthy items_per_page then
    try_except
      (let! n := lift (py_int items_per_page) in
       let items_per_page := Z.min n (max_items_per_page self) in
       if items_per_page <? 1 then raise ValueError else ret items_per_page)%eff
      is_ValueError (fun _ => ret (Decorators.items_per_page self))
  else ret (Decorators.items_per_page self).

(** The items that [paginate_params.update(tg_params)] copies.  When
    the paginator is named ["_tg_paginators_params"] its [Bunch] has
    replaced the parameter dictionary, so [tg_params] is the [Bunch]
    itself and its item ["paginate_params"] is the very dictionary being
    updated: the dictionary then holds itself, which a value cannot, and
    the entry is the reference [PyObj "paginate_params"] to it. *)
Definition update_items (self : Paginate) (tg_params : gmap string PyVal)
  : gmap string PyVal :=
  if String.eqb (name self) "_tg_paginators_params"
  then <["paginate_params" := PyObj "paginate_params"]> tg_params
  else tg_params.

Definition before_validate (self : Paginate) : Eff PagState unit :=
  (let! page_param := params_pop (page_param self) in
   let! page := page_of page_param in
   let! pd := paginators_data in
   do! paginators_setitem "_tg_paginators_params" (Decorators.page_param self) page_param in
   let! pd := paginators_data in
   do! put_paginators (<[name self := PyDict ∅]> pd) in
   do! paginators_setitem (name self) "paginate_page"
         (PyInt (if page =? 0 then 1 else page)) in
   let! items_per_page := params_pop (items_per_page_param self) in
   let! items_per_page := items_per_page_of self items_per_page in
   do! paginators_setitem (name self) "paginate_items_per_page" (PyInt items_per_page) in
   let! s := get in
   do! paginators_setitem (name self) "paginate_params" (PyDict (params s)) in
   let! tg_params := paginators_dict "_tg_paginators_params" in
   let paginate_params := update_items self tg_params ∪ params s in
   let paginate_params :=
     if negb (items_per_page =? Decorators.items_per_page self)
     then <[items_per_page_param self := PyInt items_per_page]> paginate_params
     else paginate_params in
   paginators_setitem (name self) "paginate_params" (PyDict paginate_params))%eff.

(** A value [int()] converts or rejects with [ValueError]; request
    parameters are such values, or absent ([None]). *)
Definition scalar (v : PyVal) : bool :=
  match v with
  | PyNone | PyBool _ | PyInt _ | PyStr _ => true
  | _ => false
  end.

(** [request.paginators] is not set yet, or holds its parameter
    dictionary. *)
Definition paginators_ready (s : PagState) : Prop :=
  match request_paginators s with
  | None => True
  | Some pd => ∃ d, pd !! "_tg_paginators_params" = Some (PyDict d)
  end.

(** [request.paginators[name]] is the dictionary [bunch], next to the
    parameter dictionary. *)
Definition bunch_at (s : PagState) (name : string) (bunch : gmap string PyVal) : Prop :=
  ∃ pd, request_paginators s = Some pd ∧
        pd !! name = Some (PyDict bunch) ∧
        ∃ d, pd !! "_tg_paginators_params" = Some (PyDict d).

(** A request for [?page=0&items_per_page=50&q=tg]. *)
Definition example_params : gmap string PyVal :=
  <["page" := PyStr "0"]>
  (<["items_per_page" := PyStr "50"]> (<["q" := PyStr "tg"]> ∅)).

Definition example_state : PagState :=
  {| params := example_params; request_paginators := None |}.

(** A request for [?page=1&page=2]: the repeated parameter is a list. *)
Definition repeated_page_state : PagState :=
  {| params := <["page" := PyList [PyStr "1"; PyStr "2"]]> ∅;
     request_paginators := None |}.


(** A request for [?users_page=2&posts_page=3&q=tg], for an action that
    paginates two collections. *)
Definition two_collections_state : PagState :=
  {| params := <["users_page" := PyStr "2"]>
               (<["posts_page" := PyStr "3"]> (<["q" := PyStr "tg"]> ∅));
     request_paginators := None |}.

(** The attribute [attr] of [request.paginators[name]]. *)
Definition paginator_attr (s : PagState) (name attr : string) : option PyVal :=
  match request_paginators s with
  | Some pd =>
      match pd !! name with
      | Some (PyDict bunch) => bunch !! attr
      | _ => None
      end
  | None => None
  end.

(** *** require *)

Definition set_status (code : Z) : Eff World unit :=
  modify (fun w => {| request := request w;
                      response := {| status_int := code;
                                     response_headers := response_headers (response w) |};
                      flashed := flashed w;
                      store := store w |}).

(** Modelled from the spec: [tg.flash.flash], which is not among the
    sources, records a message and its status for the next page. *)
Definition flash (message status : string) : Eff World unit :=
  modify (fun w => {| request := request w;
                      response := response w;
                      flashed := (flashed w ++ [(message, status)])%list;
                      store := store w |}).

(** Modelled from the spec: [tg.controllers.util.abort], which is not
    among the sources, is the framework's abort primitive: it ends the
    request by raising the HTTP error of the given status code. *)
Definition abort (status_code : Z) (detail comment : string) : Eff World PyVal :=
  raise (HTTPError status_code detail comment).

Record Require : Type := {
  predicate : Eff World unit;
  denial_handler : option (string → Eff World PyVal)
}.

Definition default_denial_handler (reason : string) : Eff World PyVal :=
  (let! w := get in
   let status := if status_int (response w) =? 401 then "warning" else "error" in
   do! flash reason status in
   let! w := get in
   abort (status_int (response w)) reason "")%eff.

(** [_BaseProtectionDecorator.__init__] in the class [require], whose
    [default_denial_handler] is the method above. *)
Definition require_init (predicate : Eff World unit)
    (denial_handler : option (string → Eff World PyVal)) : Require :=
  {| predicate := predicate;
     denial_handler := Some (default default_denial_handler denial_handler) |}.

(** What [wrap_action] itself does, in order. *)
Inductive Event : Type :=
  | CheckAuthorization
  | SetStatus (code : Z)
  | CallDenialHandler (reason : string)
  | CallAbort (code : Z) (comment : string)
  | CallAction (args : list PyVal) (kwargs : gmap string PyVal).

Record Exec : Type := {
  world : World;
  trace : list Event
}.

(** A step on the world, recorded in the trace. *)
Definition step {A} (ev : Event) (m : Eff World A) : Eff Exec A :=
  fun s =>
    let '(r, w) := m (world s) in
    (r, {| world := w; trace := (trace s ++ [ev])%list |}).

Definition authenticated (w : World) : bool :=
  truthy (dict_get (environ (request w)) "repoze.who.identity").

Definition wrap_action (self : Require) (action_ : Callable)
    (args : list PyVal) (kwargs : gmap string PyVal) : Eff Exec PyVal :=
  fun s =>
    match step CheckAuthorization (predicate self) s with
    | (Raise (NotAuthorizedError reason), s1) =>
        let code := if authenticated (world s1) then 403 else 401 in
        match denial_handler self with
        | Some handler =>
            (do! step (SetStatus code) (set_status code) in
             step (CallDenialHandler reason) (handler reason))%eff s1
        | None =>
            (do! step (CallAbort code reason) (abort code "" reason) in
             step (CallAction args kwargs) (action_ args kwargs))%eff s1
        end
    | (Raise e, s1) => (Raise e, s1)
    | (Ok _, s1) => step (CallAction args kwargs) (action_ args kwargs) s1
    end.

Definition start (w : World) : Exec := {| world := w; trace := [] |}.

(** A predicate that is not met, an action, and a request whose
    environ holds the given identity. *)
Definition not_met (reason : string) : Eff World unit :=
  raise (NotAuthorizedError reason).

Definition action_index : Callable := fun _ _ => ret (PyStr "index").

Definition world_with_identity (identity : PyVal) : World :=
  {| request := {| response_type := None;
                   headers := ∅;
                   environ := <["repoze.who.identity" := identity]> ∅;
                   paginators := None;
                   _render_custom_format := None;
                   _override_mapping := None |};
     response := {| status_int := 200; response_headers := ∅ |};
     flashed := [];
     store := ∅ |}.

(** *** wrap_controller *)

(** A controller wrapper of [tgl.config['controller_wrappers']]: called
    with the decoration and the callable wrapped so far. *)
Definition Wrapper : Type := Decoration → Callable → Eff World Callable.

(** The loop over the wrappers; [controller_callable] is the variable
    the loop rebinds, so it keeps the last callable a wrapper returned
    when a later wrapper raises. *)
Fixpoint wrap_each (self : Decoration) (wrappers : list Wrapper)
    (controller_callable : Callable) (w : World)
  : Callable * (Result unit * World) :=
  match wrappers with
  | [] => (controller_callable, (Ok tt, w))
  | wrapper :: rest =>
      match wrapper self controller_callable w with
      | (Ok wrapped, w') => wrap_each self rest wrapped w'
      | (Raise e, w') => (controller_callable, (Raise e, w'))
      end
  end.

(** [controller_wrappers] is the ['controller_wrappers'] entry of
    [tgl.config], if any. *)
Definition wrap_controller (self : Decoration)
    (controller_wrappers : option (list Wrapper)) (controller : Callable)
  : Eff World Callable :=
  fun w =>
    match controller_wrappers with
    | None => (Ok controller, w)
    | Some wrappers =>
        let '(controller_callable, (r, w')) := wrap_each self wrappers controller w in
        match r with
        | Ok _ => (Ok controller_callable, w')
        | Raise e =>
            if is_KeyError e then (Ok controller_callable, w') else (Raise e, w')
        end
    end.

(** The words of the wrapping property, apart from [wrap_each]: the
    wrappers are applied in list order, each to the callable the one
    before it returned and in the world it left, and every one of them
    returns. *)
Inductive wrapped_in_order (self : Decoration)
  : list Wrapper → Callable → World → Callable → World → Prop :=
  | wrapped_nil (c : Callable) (w : World) : wrapped_in_order self [] c w c w
  | wrapped_cons (wrapper : Wrapper) (rest : list Wrapper)
      (c c1 c2 : Callable) (w w1 w2 : World) :
      wrapper self c w = (Ok c1, w1) →
      wrapped_in_order self rest c1 w1 c2 w2 →
      wrapped_in_order self (wrapper :: rest) c w c2 w2.

(** *** use_custom_format and override_template *)

Definition set_render_custom_format (req : Request) (chosen : gmap positive string)
  : Request :=
  {| response_type := response_type req;
     headers := headers req;
     environ := environ req;
     paginators := paginators req;
     _render_custom_format := Some chosen;
     _override_mapping := _override_mapping req |}.

Definition set_override_mapping (req : Request)
    (mapping : gmap positive (gmap string (list PyVal))) : Request :=
  {| response_type := response_type req;
     headers := headers req;
     environ := environ req;
     paginators := paginators req;
     _render_custom_format := _render_custom_format req;
     _override_mapping := Some mapping |}.

(** [controller] is a bound method of the function [func]; [deco] is
    the decoration of that function, if it has one.  A bound method
    accepts no new attribute, so [get_decoration] raises when there is
    none. *)
Definition use_custom_format (deco : option Decoration) (func : positive)
    (custom_format : string) : Eff Request unit :=
  fun req =>
    match deco with
    | None => (Raise AttributeError, req)
    | Some deco =>
        if bool_decide (is_Some (custom_engines deco !! custom_format)) then
          (Ok tt,
           set_render_custom_format req
             (<[func := custom_format]> (default ∅ (_render_custom_format req))))
        else (Raise ValueError, req)
    end.

(** [s.split(sep, 1)]: the part before the first separator and, when
    there is one, the part after it. *)
Fixpoint split_once (sep : ascii) (s : string) : string * option string :=
  match s with
  | EmptyString => (EmptyString, None)
  | String c s' =>
      if Ascii.eqb c sep then (EmptyString, Some s')
      else let '(before, after) := split_once sep s' in (String c before, after)
  end.

(** [template.split(':', 1)] as a list of strings. *)
Definition split_template (template : string) : list PyVal :=
  match split_once ":" template with
  | (engine, Some name) => [PyStr engine; PyStr name]
  | (name, None) => [PyStr name]
  end.

(** One turn of the loop of [override_template] over [engines]. *)
Definition override_one (func : positive) (template : string) (req : Request)
    (item : string * (PyVal * PyVal * PyVal)) : Request :=
  let '(content_type, (_, _, exclude_names)) := item in
  let tmpl := split_template template ++ [exclude_names] in
  let override_mapping := default ∅ (_override_mapping req) in
  let for_controller := default ∅ (override_mapping !! func) in
  set_override_mapping req
    (<[func := <[content_type := tmpl]> for_controller]> override_mapping).

(** [controller] is a bound method of the function [func]; [deco] is
    the decoration of that function, if it has one. *)
Definition override_template (deco : option Decoration) (func : positive)
    (template : string) (req : Request) : Request :=
  match deco with
  | None => req
  | Some deco => foldl (override_one func template) req (map_to_list (engines deco))
  end.

(** *** expose *)

Record Expose : Type := {
  expose_engine : PyVal;
  expose_template : PyVal;
  expose_content_type : string;
  expose_exclude_names : PyVal;
  expose_custom_format : option string
}.

(** [s in container] for a string [s]: an item of a list, a key of a
    dictionary, a substring of a string. *)
Definition py_in (s : string) (container : PyVal) : Result bool :=
  match container with
  | PyList l => Ok (existsb (py_eq_str s) l)
  | PyDict d => Ok (bool_decide (is_Some (d !! s)))
  | PyStr t => Ok (contains s t)
  | _ => Raise TypeError
  end.

(** [names.append(name)] *)
Definition py_append (names : PyVal) (name : PyVal) : Result PyVal :=
  match names with
  | PyList l => Ok (PyList (l ++ [name]))
  | _ => Raise AttributeError
  end.

(** [config['buffet.template_engines'][0]['engine']] *)
Definition legacy_engine (config : gmap string PyVal) : Result PyVal :=
  match getitem config "buffet.template_engines" with
  | Raise e => Raise e
  | Ok (PyList (first :: _)) =>
      match first with
      | PyDict d => getitem d "engine"
      | _ => Raise TypeError
      end
  | Ok (PyList []) => Raise (OtherError "IndexError")
  | Ok (PyStr s) =>
      match s with
      | EmptyString => Raise (OtherError "IndexError")
      | String _ _ => Raise TypeError
      end
  | Ok (PyDict _) => Raise KeyError
  | Ok _ => Raise TypeError
  end.

(** [expose.__init__]; [config] is [tg.config]. *)
Definition expose_init (config : gmap string PyVal) (template : string)
    (content_type : option string) (exclude_names : PyVal)
    (custom_format : option string) : Result Expose :=
  let exclude_names :=
    match exclude_names with PyNone => PyList [] | _ => exclude_names end in
  match py_in template (default (PyList []) (config !! "renderers")) with
  | Raise e => Raise e
  | Ok is_renderer =>
      let chosen : Result (PyVal * PyVal) :=
        if is_renderer then Ok (PyStr template, PyStr "")
        else
          match split_once ":" template with
          | (engine, Some name) => Ok (PyStr engine, PyStr name)
          | (_, None) =>
              if negb (String.eqb template "") then
                if truthy (dict_get config "use_legacy_renderer") then
                  match legacy_engine config with
                  | Ok engine => Ok (engine, PyStr template)
                  | Raise e => Raise e
                  end
                else Ok (dict_get config "default_renderer", PyStr template)
              else Ok (PyNone, PyNone)
          end in
      match chosen with
      | Raise e => Raise e
      | Ok (engine, template) =>
          let content_type :=
            match content_type with
            | Some given => given
            | None =>
                if py_eq_str "json" engine then "application/json" else "text/html"
            end in
          let excluded : Result PyVal :=
            if py_eq_str "json" engine || py_eq_str "amf" engine then
              match py_in "tmpl_context" exclude_names with
              | Raise e => Raise e
              | Ok true => Ok exclude_names
              | Ok false => py_append exclude_names (PyStr "tmpl_context")
              end
            else Ok exclude_names in
          match excluded with
          | Raise e => Raise e
          | Ok exclude_names =>
              Ok {| expose_engine := engine;
                    expose_template := template;
                    expose_content_type := content_type;
                    expose_exclude_names := exclude_names;
                    expose_custom_format := custom_format |}
          end
      end
  end.

(** [expose.__call__] *)
Definition expose_call (self : Expose) (func : positive) : Eff Registry positive :=
  (let! deco := get_decoration func in
   do! on_decoration deco
         (fun d =>
            Ok (if nonempty (expose_custom_format self)
                then register_custom_template_engine d
                       (default "" (expose_custom_format self))
                       (Some (expose_content_type self)) (expose_engine self)
                       (expose_template self) (expose_exclude_names self)
                else register_template_engine d
                       (Some (expose_content_type self)) (expose_engine self)
                       (expose_template self) (expose_exclude_names self))) in
   ret func)%eff.

(** *** postpone_commits *)

(** [session] holds the attributes of the object [config.get('DBSession')],
    or is [None] when the configuration has none; [func] is the decorated
    function applied to its arguments, acting on those attributes. *)
Definition postpone_commits (func : Eff (gmap string PyVal) PyVal)
  : Eff (option (gmap string PyVal)) PyVal :=
  fun session =>
    match session with
    | None => (Raise (OtherError "AssertionError"), session)
    | Some s =>
        match s !! "commit" with
        | None => (Raise (OtherError "AssertionError"), session)
        | Some old_commit =>
            match s !! "flush" with
            | None => (Raise AttributeError, session)
            | Some flush =>
                match func (<["commit" := flush]> s) with
                | (Ok retval, s') => (Ok retval, Some (<["commit" := old_commit]> s'))
                | (Raise e, s') => (Raise e, Some s')
                end
            end
        end
    end.

(** *** cached_property *)

(** [cached_property.__get__] on an instance whose [__dict__] is the
    state; [func] computes the value from the instance, which it may
    change. *)
Definition cached_property_get (name : string)
    (func : Eff (gmap string PyVal) PyVal) : Eff (gmap string PyVal) PyVal :=
  fun obj =>
    match obj !! name with
    | Some value => (Ok value, obj)
    | None =>
        match func obj with
        | (Ok value, obj1) => (Ok value, <[name := value]> obj1)
        | (Raise e, obj1) => (Raise e, obj1)
        end
    end.

(** *** The hooks https, without_trailing_slash and with_trailing_slash *)

(** What these hooks read of the request. *)
Record RequestLine : Type := {
  scheme : string;
  method : string;
  path : string;
  url : string;
  request_params : gmap string PyVal;
  line_response_type : option string
}.

(** [s[n:]] *)
Fixpoint string_drop (n : nat) (s : string) : string :=
  match n, s with
  | O, _ => s
  | S n', String _ s' => string_drop n' s'
  | S _, EmptyString => EmptyString
  end.

(** [s[:-1]] *)
Fixpoint drop_last (s : string) : string :=
  match s with
  | EmptyString => EmptyString
  | String c EmptyString => EmptyString
  | String c s' => String c (drop_last s')
  end.

(** [s.endswith('/')] *)
Fixpoint ends_with_slash (s : string) : bool :=
  match s with
  | EmptyString => false
  | String c EmptyString => Ascii.eqb c "/"
  | String _ s' => ends_with_slash s'
  end.

Section redirecting_hooks.

(** [tg.controllers.redirect], which is not among the sources. *)
Variable redirect : string → Eff World PyVal.

(** [HTTPMethodNotAllowed(headers=dict(Allow='GET')).exception] *)
Definition method_not_allowed : Exn := HTTPError 405 "" "Allow: GET".

Definition https (req : RequestLine) : Eff World PyVal :=
  if String.eqb (lower (scheme req)) "https" then ret PyNone
  else
    (do! (if String.eqb (upper (method req)) "GET"
          then redirect ("https" ++ string_drop (String.length (scheme req)) (url req))%string
          else ret PyNone) in
     raise method_not_allowed)%eff.

Definition without_trailing_slash (req : RequestLine) : Eff World PyVal :=
  if String.eqb (method req) "GET" && ends_with_slash (path req)
     && negb (nonempty (line_response_type req))
     && bool_decide (size (request_params req) = 0%nat)
  then (do! redirect (drop_last (url req)) in ret PyNone)%eff
  else ret PyNone.

Definition with_trailing_slash (req : RequestLine) : Eff World PyVal :=
  if String.eqb (method req) "GET" && negb (ends_with_slash (path req))
     && negb (nonempty (line_response_type req))
     && bool_decide (size (request_params req) = 0%nat)
  then (do! redirect (url req ++ "/")%string in ret PyNone)%eff
  else ret PyNone.

End redirecting_hooks.

(** A [redirect] that raises the HTTP redirection to the given URL. *)
Definition redirect_found (location : string) : Eff World PyVal :=
  raise (HTTPError 302 location "").

End Decorators.

(** * Properties *)

(** ** Python values *)

Lemma py_eq_int_401 (x : PyVal) : py_eq_int 401 x = true ↔ x = PyInt 401.
Proof.
  destruct x as [| [] | z | | | |]; simpl; split; try discriminate; try congruence.
  - intros H%Z.eqb_eq. by subst.
  - intros [= ->]. reflexivity.
Qed.

Lemma existsb_401 (l : list PyVal) :
  existsb (py_eq_int 401) l = false ↔ PyInt 401 ∉ l.
Proof.
  rewrite <- not_true_iff_false, existsb_exists. split.
  - intros H Hin. apply H. exists (PyInt 401). split; [by apply list_elem_of_In|done].
  - intros H (x & Hin & Hx). apply py_eq_int_401 in Hx. subst.
    by apply H, list_elem_of_In.
Qed.

(** ** The error-pages step *)

Lemma configure_error_pages_auth (conf : gmap string PyVal) :
  dict_get conf "auth_backend" ≠ PyNone →
  ErrorPages._configure_error_pages conf = Ok conf.
Proof.
  intros H. unfold ErrorPages._configure_error_pages, ErrorPages.no_auth_backend.
  by destruct (dict_get conf "auth_backend").
Qed.

Lemma configure_error_pages_no_auth (conf : gmap string PyVal) (l : list PyVal) :
  dict_get conf "auth_backend" = PyNone →
  conf !! "errorpage.status_codes" = Some (PyList l) →
  ErrorPages._configure_error_pages conf =
    Ok (if existsb (py_eq_int 401) l then conf
        else <["errorpage.status_codes" := PyList (l ++ [PyInt 401])]> conf).
Proof.
  intros Hauth Hcodes.
  unfold ErrorPages._configure_error_pages, ErrorPages.no_auth_backend, getitem.
  rewrite Hauth, Hcodes. simpl. by destruct (existsb _ l).
Qed.

(** C6: the step defaults [errorpage.enabled] to [True] and
    [errorpage.status_codes] to [[403, 404]]; on a configuration whose
    status codes are the list [l], the before-config action returns
    normally, the resulting list is [l] with 401 appended exactly when no
    [auth_backend] is configured and 401 is not in [l], in every other
    case the configuration is unchanged, and every code of [l] is still
    in the resulting list. *)
Theorem error_pages_status_codes (conf : gmap string PyVal) (l : list PyVal) :
  conf !! "errorpage.status_codes" = Some (PyList l) →
  ErrorPages.get_defaults !! "errorpage.enabled" = Some (PyBool true) ∧
  ErrorPages.get_defaults !! "errorpage.status_codes"
    = Some (PyList [PyInt 403; PyInt 404]) ∧
  ∃ conf' l',
    ErrorPages._configure_error_pages conf = Ok conf' ∧
    ErrorPages.status_codes conf' = Some l' ∧
    (l' = l ++ [PyInt 401] ↔ dict_get conf "auth_backend" = PyNone ∧ PyInt 401 ∉ l) ∧
    (¬ (dict_get conf "auth_backend" = PyNone ∧ PyInt 401 ∉ l) → conf' = conf) ∧
    (∀ code, code ∈ l → code ∈ l').
Proof.
  intros Hcodes. split; [reflexivity|]. split; [reflexivity|].
  assert (Hne : l ++ [PyInt 401] ≠ l).
  { intros H. apply (f_equal length) in H. rewrite length_app in H. simpl in H. lia. }
  destruct (dict_get conf "auth_backend") eqn:Hauth.
  2-7: (exists conf, l; split; [by apply configure_error_pages_auth; rewrite Hauth|];
        split; [by unfold ErrorPages.status_codes; rewrite Hcodes|];
        split; [split; [done|by intros [? _]]|]; done).
  destruct (existsb (py_eq_int 401) l) eqn:Hin.
  - exists conf, l. rewrite (configure_error_pages_no_auth conf l Hauth Hcodes), Hin.
    split; [done|]. split; [by unfold ErrorPages.status_codes; rewrite Hcodes|].
    assert (¬ (PyInt 401 ∉ l)) by (rewrite <- existsb_401; congruence).
    split; [split; [done|by intros [_ ?]]|]. done.
  - exists (<["errorpage.status_codes" := PyList (l ++ [PyInt 401])]> conf), (l ++ [PyInt 401]).
    rewrite (configure_error_pages_no_auth conf l Hauth Hcodes), Hin.
    split; [done|].
    split; [by unfold ErrorPages.status_codes; rewrite lookup_insert_eq|].
    apply existsb_401 in Hin.
    split; [done|]. split; [by intros []|].
    intros code ?. apply elem_of_app. by left.
Qed.

Lemma error_pages_status_codes_witness :
  ErrorPages.get_defaults !! "errorpage.status_codes"
    = Some (PyList [PyInt 403; PyInt 404]) ∧
  ∃ conf' l',
    ErrorPages._configure_error_pages ErrorPages.get_defaults = Ok conf' ∧
    ErrorPages.status_codes conf' = Some l' ∧
    (l' = [PyInt 403; PyInt 404] ++ [PyInt 401]
       ↔ dict_get ErrorPages.get_defaults "auth_backend" = PyNone
         ∧ PyInt 401 ∉ [PyInt 403; PyInt 404]) ∧
    (¬ (dict_get ErrorPages.get_defaults "auth_backend" = PyNone
        ∧ PyInt 401 ∉ [PyInt 403; PyInt 404]) → conf' = ErrorPages.get_defaults) ∧
    (∀ code, code ∈ [PyInt 403; PyInt 404] → code ∈ l').
Proof.
  split; [reflexivity|].
  apply (error_pages_status_codes ErrorPages.get_defaults [PyInt 403; PyInt 404]).
  reflexivity.
Defined.

(** ** The ToscaWidgets2 step *)

Section tw2_facts.
Import ToscaWidgets2.

Variable preferred_rendering_engines : list string.
Variable set_order : gset string → list string.
Hypothesis set_order_elem_of : ∀ (s : gset string) x, x ∈ set_order s ↔ x ∈ s.

Local Abbreviation shared_with := (shared_with preferred_rendering_engines set_order).
Local Abbreviation _add_middleware := (_add_middleware preferred_rendering_engines set_order).

Lemma shared_with_nil (available : gset string) :
  shared_with available = [] ↔ available ∩ list_to_set preferred_rendering_engines = ∅.
Proof using set_order_elem_of.
  unfold ToscaWidgets2.shared_with. split.
  - intros H. apply set_eq. intros x. rewrite <- set_order_elem_of, H.
    rewrite elem_of_nil, elem_of_empty. done.
  - intros ->. destruct (set_order ∅) as [|x l] eqn:H; [done|].
    assert (x ∈ (∅ : gset string)) as Hx; [|by apply elem_of_empty in Hx].
    apply set_order_elem_of. rewrite H. by left.
Qed.

Lemma existsb_py_eq_str (v : PyVal) (l : list string) :
  existsb (fun s => py_eq_str s v) l = true ↔ ∃ s, v = PyStr s ∧ s ∈ l.
Proof.
  rewrite existsb_exists. split.
  - intros (s & Hin & Heq). destruct v; try discriminate.
    apply String.eqb_eq in Heq. subst. exists s. by rewrite list_elem_of_In.
  - intros (s & -> & Hin). exists s. rewrite <- list_elem_of_In. split; [done|].
    simpl. apply String.eqb_refl.
Qed.

Lemma wrapped_ne (app : App) (config : gmap string PyVal) :
  TwMiddleware app config ≠ app.
Proof.
  revert config. induction app as [|app IH c]; intros config; [done|].
  intros [= H _]. by apply (IH c).
Qed.

Lemma py_list_raise v e : py_list v = Raise e → e = TypeError.
Proof. destruct v; simpl; congruence. Qed.

Lemma update_item_config_error acc item msg :
  update_item acc item = Raise (TGConfigError msg) → acc = Raise (TGConfigError msg).
Proof.
  unfold update_item. destruct acc as [m|e]; [|done].
  destruct (py_list item) as [items|e] eqn:Hitem.
  - repeat case_match; congruence.
  - apply py_list_raise in Hitem. congruence.
Qed.

Lemma foldl_update_item_config_error items acc msg :
  foldl update_item acc items = Raise (TGConfigError msg) →
  acc = Raise (TGConfigError msg).
Proof.
  revert acc. induction items as [|x items IH]; intros acc; simpl; [done|].
  intros Hf%IH. by apply update_item_config_error in Hf.
Qed.

Lemma dict_update_config_error d other msg :
  dict_update d other ≠ Raise (TGConfigError msg).
Proof.
  unfold dict_update. intros H.
  destruct (py_list other) as [items|e] eqn:Hother.
  - destruct other; try done.
    all: by apply foldl_update_item_config_error in H.
  - apply py_list_raise in Hother. destruct other; congruence.
Qed.

Lemma add_middleware_wraps (conf : gmap string PyVal) (app r : App) :
  _add_middleware conf app = Ok r → ∃ config, r = TwMiddleware app config.
Proof.
  unfold ToscaWidgets2._add_middleware.
  destruct (str_set _); [|done].
  destruct (shared_with a); [done|].
  destruct (existsb _ _); simpl.
  all: destruct (getitem conf "debug"); [|done].
  all: destruct (dict_update _ _); [|done].
  all: intros [= <-]; eauto.
Qed.

(** C7, amended: provided [set(renderers)] can be built,
    [_add_middleware] raises [TGConfigError] exactly when the configured
    renderers and the preferred engines of ToscaWidgets2 share no
    engine.  When they share one, the configuration has a [debug] entry
    and [custom_tw2_config] is a dictionary, the application is wrapped
    in [TwMiddleware], whose [default_engine] is the one
    [custom_tw2_config] gives if it gives one, else the configured
    [default_renderer] when it is a shared engine, else the first shared
    engine.  Whenever an application is returned it is the wrapped one,
    never the application that was passed in. *)
Theorem add_middleware_default_engine (conf : gmap string PyVal) (app : App)
    (available : gset string) :
  str_set (default (PyList []) (conf !! "renderers")) = Ok available →
  let shared := available ∩ list_to_set preferred_rendering_engines in
  ((∃ msg, _add_middleware conf app = Raise (TGConfigError msg)) ↔ shared = ∅) ∧
  (shared ≠ ∅ →
   ∀ debug custom,
     conf !! "debug" = Some debug →
     default (PyDict ∅) (conf !! "custom_tw2_config") = PyDict custom →
     ∃ config first,
       _add_middleware conf app = Ok (TwMiddleware app config) ∧
       head (set_order shared) = Some first ∧ first ∈ shared ∧
       config !! "default_engine" =
         Some (match custom !! "default_engine" with
               | Some engine => engine
               | None =>
                   match dict_get conf "default_renderer" with
                   | PyStr renderer =>
                       if decide (renderer ∈ shared) then PyStr renderer
                       else PyStr first
                   | _ => PyStr first
                   end
               end)) ∧
  (∀ r, _add_middleware conf app = Ok r →
        r ≠ app ∧ ∃ config, r = TwMiddleware app config).
Proof using set_order_elem_of.
  intros Hren shared. subst shared.
  set (shared := available ∩ list_to_set preferred_rendering_engines).
  assert (Hfold : set_order shared = shared_with available) by done.
  split; [|split].
  - unfold ToscaWidgets2._add_middleware. rewrite Hren.
    unfold shared. rewrite <- shared_with_nil.
    destruct (shared_with available) as [|first rest] eqn:Hsh.
    { split; [done|]. intros _. by eexists. }
    split; [|done]. intros [msg H]. exfalso. revert H.
    unfold getitem.
    destruct (existsb _ _); simpl.
    all: destruct (conf !! "debug"); [|done].
    all: destruct (dict_update _ _) eqn:Hup; [done|].
    all: intros [= ->]; by apply dict_update_config_error in Hup.
  - intros Hne debug custom Hdebug Hcustom.
    unfold ToscaWidgets2._add_middleware. rewrite Hren.
    destruct (shared_with available) as [|first rest] eqn:Hsh.
    { by apply shared_with_nil in Hsh. }
    unfold getitem. rewrite Hdebug, Hcustom.
    assert (Hfirst : first ∈ shared).
    { apply set_order_elem_of. rewrite Hfold. by left. }
    assert (Hhead : head (set_order shared) = Some first).
    { by rewrite Hfold. }
    destruct (existsb _ _) eqn:Hex; simpl.
    + apply existsb_py_eq_str in Hex as (s & Hs & Hin).
      eexists _, first. split; [reflexivity|]. split; [done|]. split; [done|].
      rewrite lookup_union. rewrite lookup_insert_eq.
      destruct (custom !! "default_engine"); simpl; [done|].
      rewrite Hs. rewrite decide_True; [done|].
      apply set_order_elem_of. by rewrite Hfold.
    + eexists _, first. split; [reflexivity|]. split; [done|]. split; [done|].
      rewrite lookup_union. rewrite lookup_insert_eq.
      destruct (custom !! "default_engine"); simpl; [done|].
      destruct (dict_get conf "default_renderer") eqn:Hr; try done.
      rewrite decide_False; [done|]. intros Hin.
      apply not_true_iff_false in Hex. apply Hex, existsb_py_eq_str.
      exists s. split; [done|]. rewrite <- Hfold.
      by apply set_order_elem_of.
  - intros r Hr. destruct (add_middleware_wraps conf app r Hr) as [config ->].
    split; [apply wrapped_ne|by eexists].
Qed.

End tw2_facts.

Lemma add_middleware_default_engine_witness :
  (∀ (s : gset string) x, x ∈ elements s ↔ x ∈ s) ∧
  ToscaWidgets2.str_set (default (PyList []) (ToscaWidgets2.conf_plain !! "renderers"))
    = Ok (list_to_set ["json"; "genshi"; "mako"]) ∧
  ∀ r, ToscaWidgets2._add_middleware ToscaWidgets2.tw2_preferred elements
         ToscaWidgets2.conf_plain (ToscaWidgets2.WsgiApp "app") = Ok r →
       r ≠ ToscaWidgets2.WsgiApp "app" ∧
       ∃ config, r = ToscaWidgets2.TwMiddleware (ToscaWidgets2.WsgiApp "app") config.
Proof.
  split; [intros s x; apply elem_of_elements|].
  split; [reflexivity|].
  apply (add_middleware_default_engine ToscaWidgets2.tw2_preferred elements
           (fun s x => elem_of_elements s x) ToscaWidgets2.conf_plain
           (ToscaWidgets2.WsgiApp "app") (list_to_set ["json"; "genshi"; "mako"])).
  reflexivity.
Defined.

(** C7 as stated fails: with [default_renderer = 'genshi'], a shared
    engine, and [custom_tw2_config = {'default_engine': 'mako'}], the
    middleware's default engine is ['mako'], not the default renderer. *)
Lemma add_middleware_custom_default_engine :
  dict_get ToscaWidgets2.conf_custom_engine "default_renderer" = PyStr "genshi" ∧
  "genshi" ∈ (list_to_set ["json"; "genshi"; "mako"]
              ∩ list_to_set ToscaWidgets2.tw2_preferred : gset string) ∧
  match ToscaWidgets2._add_middleware ToscaWidgets2.tw2_preferred elements
          ToscaWidgets2.conf_custom_engine (ToscaWidgets2.WsgiApp "app") with
  | Ok r => ToscaWidgets2.default_engine_of r = Some (PyStr "mako")
  | Raise _ => False
  end.
Proof.
  split; [reflexivity|]. split; [set_solver|]. vm_compute. reflexivity.
Qed.

(** ** The order of [engines_keys] *)

Lemma leb_iff (a b : string) : String.leb a b = true ↔ OrderedTypeEx.String_as_OT.lt a b ∨ a = b.
Proof.
  unfold String.leb. rewrite <- OrderedTypeEx.String_as_OT.cmp_lt.
  unfold OrderedTypeEx.String_as_OT.cmp.
  destruct (String.compare a b) eqn:Hc.
  - apply OrderedTypeEx.String_as_OT.cmp_eq in Hc. naive_solver.
  - naive_solver.
  - split; [done|]. intros [?| ->]; [done|].
    assert (String.compare b b = Eq) by by apply OrderedTypeEx.String_as_OT.cmp_eq.
    congruence.
Qed.

#[global] Instance str_ge_total : Total str_ge.
Proof. intros a b. unfold str_ge. destruct (String.leb_total a b); auto. Qed.

#[global] Instance str_ge_trans : Transitive str_ge.
Proof.
  intros a b c. unfold str_ge. rewrite !leb_iff.
  intros [H1| ->] [H2| ->]; eauto using OrderedTypeEx.String_as_OT.lt_trans.
Qed.

#[global] Instance str_ge_antisym : AntiSymm (=) str_ge.
Proof. intros a b H1 H2. by apply String.leb_antisym. Qed.

Lemma sorted_reverse_sorted (keys : list string) :
  StronglySorted str_ge (sorted_reverse keys).
Proof. apply StronglySorted_merge_sort; apply _. Qed.

Lemma sorted_reverse_perm (keys : list string) : sorted_reverse keys ≡ₚ keys.
Proof. apply merge_sort_Permutation. Qed.


(** ** The template engines of a decoration *)

Section engines_facts.
Import Decorators.

Lemma registered_elem_of (d : Decoration) (ct : string) :
  ct ∈ registered d ↔ is_Some (engines d !! ct).
Proof.
  unfold registered. rewrite list_elem_of_fmap. split.
  - intros ([k v] & -> & Hin). apply elem_of_map_to_list in Hin. by eexists.
  - intros [v Hv]. exists (ct, v). split; [done|]. by apply elem_of_map_to_list.
Qed.

Lemma registered_NoDup (d : Decoration) : NoDup (registered d).
Proof. apply NoDup_fst_map_to_list. Qed.

Lemma registered_length (d : Decoration) : length (registered d) = size (engines d).
Proof. unfold registered. by rewrite length_fmap, length_map_to_list. Qed.

Lemma register_template_engine_invariant d ct engine template exclude_names :
  engines_invariant (register_template_engine d ct engine template exclude_names).
Proof.
  split; [|done]. simpl.
  set (d' := register_template_engine d ct engine template exclude_names).
  change (<[default "*/*" ct:=(engine, template, exclude_names)]> (engines d))
    with (engines d').
  assert (Hin : default "*/*" ct ∈ registered d').
  { apply registered_elem_of. simpl. rewrite lookup_insert_eq. by eexists. }
  rewrite <- registered_length.
  destruct (registered d') as [|k [|k' l]] eqn:Hreg; simpl.
  - by apply elem_of_nil in Hin.
  - apply list_elem_of_singleton in Hin. by rewrite Hin.
  - done.
Qed.

Lemma init_invariant func : engines_invariant (__init__ func).
Proof. by split. Qed.

Lemma register_all_snoc d calls call :
  register_all d (calls ++ [call]) =
    register_template_engine (register_all d calls)
      call.1.1.1 call.1.1.2 call.1.2 call.2.
Proof.
  unfold register_all. rewrite foldl_snoc. by destruct call as [[[? ?] ?] ?].
Qed.

Lemma register_all_invariant func calls :
  engines_invariant (register_all (__init__ func) calls).
Proof.
  destruct calls as [|call calls _] using rev_ind; [apply init_invariant|].
  rewrite register_all_snoc. apply register_template_engine_invariant.
Qed.

Lemma register_all_engines d calls :
  engines (register_all d calls) =
    list_to_map (reverse (entry_of <$> calls)) ∪ engines d.
Proof.
  induction calls as [|call calls IH] using rev_ind.
  - simpl. by rewrite (left_id_L ∅ (∪)).
  - rewrite register_all_snoc, fmap_app, reverse_app. simpl.
    rewrite IH. destruct call as [[[ct e] t] x]. simpl.
    by rewrite insert_union_l.
Qed.

(** C10: after any sequence of [register_template_engine] calls on a
    fresh decoration, the engines are those of the calls, a [None]
    content type counting as ["*/*"] and the last call for a content type
    winning; [default_engine] is the registered content type when exactly
    one is registered and [None] when more than one is; [engines_keys]
    lists exactly the registered content types, each once, in descending
    order. *)
Theorem register_template_engine_keys (func : positive)
    (calls : list (option string * PyVal * PyVal * PyVal)) :
  let d := register_all (__init__ func) calls in
  engines d = list_to_map (reverse (entry_of <$> calls)) ∧
  (∀ engine template exclude_names,
     engines (register_template_engine d None engine template exclude_names)
       !! "*/*" = Some (engine, template, exclude_names)) ∧
  (∀ ct e1 t1 x1 e2 t2 x2,
     engines (register_template_engine
                (register_template_engine d ct e1 t1 x1) ct e2 t2 x2)
     = engines (register_template_engine d ct e2 t2 x2)) ∧
  (∀ ct, dom (engines d) = {[ct]} → default_engine d = Some ct) ∧
  ((1 < size (engines d))%nat → default_engine d = None) ∧
  StronglySorted str_ge (engines_keys d) ∧
  NoDup (engines_keys d) ∧
  (∀ ct, ct ∈ engines_keys d ↔ is_Some (engines d !! ct)).
Proof.
  intros d.
  destruct (register_all_invariant func calls) as [Hdef Hkeys]. fold d in Hdef, Hkeys.
  split; [|split; [|split; [|split; [|split; [|split; [|split]]]]]].
  - unfold d. rewrite register_all_engines. simpl. by rewrite (right_id_L ∅ (∪)).
  - intros. simpl. by rewrite lookup_insert_eq.
  - intros. simpl. by rewrite insert_insert_eq.
  - intros ct Hdom. rewrite Hdef.
    assert (Hlen : length (registered d) = 1%nat).
    { by rewrite registered_length, <- size_dom, Hdom, size_singleton. }
    destruct (registered d) as [|k [|]] eqn:Hreg; try done.
    assert (k ∈ dom (engines d)) as Hk.
    { apply elem_of_dom, registered_elem_of. rewrite Hreg. by left. }
    rewrite Hdom in Hk. apply elem_of_singleton in Hk. by subst.
  - intros Hsize. rewrite Hdef. rewrite <- registered_length in Hsize.
    destruct (registered d) as [|k [|]]; simpl in Hsize; try done; lia.
  - rewrite Hkeys. apply sorted_reverse_sorted.
  - rewrite Hkeys, sorted_reverse_perm. apply registered_NoDup.
  - intros ct. rewrite Hkeys, sorted_reverse_perm. apply registered_elem_of.
Qed.

End engines_facts.

(** ** Reasoning about effects *)

Lemma wp_bind {S A B} (m : Eff S A) (k : A → Eff S B) Q E s :
  wp m (fun a s' => wp (k a) Q E s') E s → wp (bind m k) Q E s.
Proof. unfold wp, bind. by destruct (m s) as [[a|e] s']. Qed.

Lemma wp_ret {S A} (a : A) (Q : A → S → Prop) E s : Q a s → wp (ret a) Q E s.
Proof. done. Qed.

Lemma wp_raise {S A} e (Q : A → S → Prop) (E : Exn → S → Prop) s :
  E e s → wp (raise e) Q E s.
Proof. done. Qed.

Lemma wp_get {S} (Q : S → S → Prop) E s : Q s s → wp get Q E s.
Proof. done. Qed.


Lemma wp_result {S A} (m : Eff S A) (Q : A → S → Prop) E s a s' :
  wp m Q E s → m s = (Ok a, s') → Q a s'.
Proof. unfold wp. intros H Heq. by rewrite Heq in H. Qed.


(** ** paginate *)

Section paginate_facts.
Import Decorators.

Lemma py_int_scalar (v : PyVal) :
  py_int v = Raise TypeError ∧ scalar v = false ∨
  py_int v = Raise TypeError ∧ v = PyNone ∨
  py_int v = Raise ValueError ∨ ∃ z, py_int v = Ok z.
Proof.
  destruct v; simpl; eauto. destruct (parse_int s); eauto.
Qed.

Lemma page_of_cases (v : PyVal) :
  (∃ page, (∀ s, page_of v s = (Ok page, s)) ∧ 1 ≤ page ∧
           (truthy v = false → page = 1) ∧
           (py_int v = Raise ValueError → page = 1) ∧
           (∀ z, py_int v = Ok z → page = Z.max 1 z)) ∨
  ((∀ s, page_of v s = (Raise TypeError, s)) ∧ scalar v = false).
Proof.
  unfold page_of, try_except, bind, lift, ret, raise.
  destruct (truthy v) eqn:Htruthy.
  2: { left. exists 1. repeat split; try done.
       intros z Hz. destruct v as [|b|n|str|l|d|o]; simplify_eq/=; try done.
       - apply negb_false_iff, Z.eqb_eq in Htruthy. lia.
       - apply negb_false_iff, String.eqb_eq in Htruthy. by subst. }
  destruct (py_int_scalar v) as [[Hv Hs]|[[Hv ->]|[Hv|[z Hv]]]]; try done.
  - right. by rewrite Hv.
  - left. exists 1. rewrite Hv. simpl. repeat split; try done.
  - left. rewrite Hv. destruct (z <? 1) eqn:Hz; simpl.
    + exists 1. apply Z.ltb_lt in Hz. repeat split; try done.
      intros z' [= <-]. lia.
    + exists z. apply Z.ltb_ge in Hz. repeat split; try done.
      intros z' [= <-]. lia.
Qed.

Lemma items_per_page_of_cases (self : Paginate) (v : PyVal) :
  (∃ items, (∀ s, items_per_page_of self v s = (Ok items, s)) ∧
            (items = items_per_page self ∨
             ∃ n, py_int v = Ok n ∧ items = Z.min n (max_items_per_page self) ∧
                  1 ≤ items)) ∨
  ((∀ s, items_per_page_of self v s = (Raise TypeError, s)) ∧ scalar v = false).
Proof.
  unfold items_per_page_of, try_except, bind, lift, ret, raise.
  destruct (truthy v) eqn:Htruthy; [|left; eexists; eauto].
  destruct (py_int_scalar v) as [[Hv Hs]|[[Hv ->]|[Hv|[z Hv]]]]; try done.
  - right. by rewrite Hv.
  - left. rewrite Hv. simpl. eexists; eauto.
  - left. rewrite Hv.
    destruct (Z.min z (max_items_per_page self) <? 1) eqn:Hz; simpl.
    + eexists; eauto.
    + eexists. split; [done|]. apply Z.ltb_ge in Hz. right. by exists z.
Qed.

Lemma wp_paginators_data Q E (s : PagState) :
  match request_paginators s with
  | Some pd => Q pd s
  | None =>
      let pd : gmap string PyVal := <["_tg_paginators_params" := PyDict ∅]> ∅ in
      Q pd {| params := params s; request_paginators := Some pd |}
  end →
  wp paginators_data Q E s.
Proof. unfold wp, paginators_data. by destruct (request_paginators s). Qed.

Lemma wp_paginators_dict key Q E (s : PagState) pd d :
  request_paginators s = Some pd → pd !! key = Some (PyDict d) →
  Q d s → wp (paginators_dict key) Q E s.
Proof.
  intros Hpd Hkey HQ. unfold paginators_dict. apply wp_bind, wp_paginators_data.
  rewrite Hpd, Hkey. by apply wp_ret.
Qed.

Lemma wp_paginators_setitem key attr v Q E (s : PagState) pd d :
  request_paginators s = Some pd → pd !! key = Some (PyDict d) →
  Q tt {| params := params s;
          request_paginators := Some (<[key := PyDict (<[attr := v]> d)]> pd) |} →
  wp (paginators_setitem key attr v) Q E s.
Proof.
  intros Hpd Hkey HQ. unfold paginators_setitem.
  apply wp_bind, wp_paginators_data. rewrite Hpd.
  apply wp_bind. by eapply wp_paginators_dict.
Qed.

Lemma wp_bunch_setattr name attr v Q E (s : PagState) bunch :
  bunch_at s name bunch →
  (∀ s', params s' = params s → bunch_at s' name (<[attr := v]> bunch) → Q tt s') →
  wp (paginators_setitem name attr v) Q E s.
Proof.
  intros (pd & Hpd & Hname & d & Htg) HQ.
  eapply wp_paginators_setitem; [done..|].
  apply HQ; [done|]. eexists. split; [done|]. rewrite lookup_insert_eq.
  split; [done|]. rewrite lookup_insert. case_decide; eauto.
Qed.

Lemma wp_paginators_setitem_fail key attr v Q (E : Exn → PagState → Prop)
    (s : PagState) pd :
  request_paginators s = Some pd → (∀ d, pd !! key ≠ Some (PyDict d)) →
  (∀ e, E e s) → wp (paginators_setitem key attr v) Q E s.
Proof.
  intros Hpd Hkey HE. unfold paginators_setitem.
  apply wp_bind, wp_paginators_data. rewrite Hpd.
  apply wp_bind. unfold paginators_dict. apply wp_bind, wp_paginators_data.
  rewrite Hpd. destruct (pd !! key) as [[]|]; try by apply wp_raise.
  by edestruct Hkey.
Qed.

Lemma wp_params_pop key Q E (s : PagState) :
  Q (dict_get (params s) key)
    {| params := delete key (params s); request_paginators := request_paginators s |} →
  wp (params_pop key) Q E s.
Proof. done. Qed.

Lemma wp_put_paginators pd Q E (s : PagState) :
  Q tt {| params := params s; request_paginators := Some pd |} →
  wp (put_paginators pd) Q E s.
Proof. done. Qed.

Lemma bunch_at_attr (s : PagState) name bunch attr :
  bunch_at s name bunch → paginator_attr s name attr = bunch !! attr.
Proof.
  intros (pd & Hpd & Hname & _). unfold paginator_attr. by rewrite Hpd, Hname.
Qed.

(** The statements of [before_validate] from the creation of the
    [Bunch] on. *)
Lemma before_validate_bunch_wp (self : Paginate) (page : Z) (s : PagState) Q E :
  bunch_at s (name self) ∅ →
  (∀ s' items bunch,
     params s' = delete (items_per_page_param self) (params s) →
     (∀ s0, items_per_page_of self
              (dict_get (params s) (items_per_page_param self)) s0 = (Ok items, s0)) →
     bunch_at s' (name self) bunch →
     bunch !! "paginate_page" = Some (PyInt page) →
     bunch !! "paginate_items_per_page" = Some (PyInt items) →
     Q tt s') →
  (scalar (dict_get (params s) (items_per_page_param self)) = false → ∀ s', E TypeError s') →
  wp (do! paginators_setitem (name self) "paginate_page" (PyInt page) in
      let! items_per_page := params_pop (items_per_page_param self) in
      let! items_per_page := items_per_page_of self items_per_page in
      do! paginators_setitem (name self) "paginate_items_per_page" (PyInt items_per_page) in
      let! s := get in
      do! paginators_setitem (name self) "paginate_params" (PyDict (params s)) in
      let! tg_params := paginators_dict "_tg_paginators_params" in
      let paginate_params := update_items self tg_params ∪ params s in
      let paginate_params :=
        if negb (items_per_page =? Decorators.items_per_page self)
        then <[items_per_page_param self := PyInt items_per_page]> paginate_params
        else paginate_params in
      paginators_setitem (name self) "paginate_params" (PyDict paginate_params))%eff
     Q E s.
Proof.
  intros Hbunch HQ HE.
  apply wp_bind. eapply wp_bunch_setattr; [done|]. intros s2 Hp2 Hb2.
  apply wp_bind, wp_params_pop. rewrite Hp2.
  apply wp_bind. unfold wp at 1.
  destruct (items_per_page_of_cases self
              (dict_get (params s) (items_per_page_param self)))
    as [(items & Hitems & _)|[Hitems Hs]]; rewrite Hitems; [|by apply HE].
  apply wp_bind. eapply wp_bunch_setattr; [done|]. intros s3 Hp3 Hb3. simpl in Hp3.
  apply wp_bind, wp_get.
  apply wp_bind. eapply wp_bunch_setattr; [done|]. intros s4 Hp4 Hb4.
  destruct Hb4 as (pd4 & Hpd4 & Hname4 & d4 & Htg4).
  apply wp_bind. eapply wp_paginators_dict; [done..|].
  eapply wp_bunch_setattr; [by eexists; eauto|]. intros s5 Hp5 Hb5.
  eapply HQ; [congruence|done|done|..].
  - repeat (rewrite lookup_insert_ne by done). by rewrite lookup_insert_eq.
  - repeat (rewrite lookup_insert_ne by done). by rewrite lookup_insert_eq.
Qed.

Lemma before_validate_wp (self : Paginate) (s : PagState) :
  let v_page := dict_get (params s) (page_param self) in
  let params1 := delete (page_param self) (params s) in
  let v_items := dict_get params1 (items_per_page_param self) in
  wp (before_validate self)
     (fun _ s' =>
        params s' = delete (items_per_page_param self) params1 ∧
        ∃ page items,
          (∀ s0, page_of v_page s0 = (Ok page, s0)) ∧
          (∀ s0, items_per_page_of self v_items s0 = (Ok items, s0)) ∧
          paginator_attr s' (name self) "paginate_page" = Some (PyInt page) ∧
          paginator_attr s' (name self) "paginate_items_per_page"
            = Some (PyInt items))
     (fun _ _ => ¬ (scalar v_page = true ∧ scalar v_items = true ∧ paginators_ready s))
     s.
Proof.
  intros v_page params1 v_items. unfold before_validate.
  apply wp_bind, wp_params_pop. fold v_page params1.
  set (s1 := {| params := params1; request_paginators := request_paginators s |}).
  apply wp_bind. unfold wp at 1.
  destruct (page_of_cases v_page) as [(page & Hpage & Hge & _)|[Hpage Hs]];
    rewrite Hpage; [|intros (? & _); congruence].
  assert (Hor : (if page =? 0 then 1 else page) = page).
  { destruct (page =? 0) eqn:H0; [|done]. apply Z.eqb_eq in H0. lia. }
  rewrite Hor.
  apply wp_bind, wp_paginators_data.
  match goal with
  | |- context [wp ?m ?Q ?E] =>
      assert (Htail : ∀ pd d (s2 : PagState),
        params s2 = params1 → request_paginators s2 = Some pd →
        pd !! "_tg_paginators_params" = Some (PyDict d) → wp m Q E s2)
  end.
  { intros pd d s2 Hp2 Hpd2 Htg.
    apply wp_bind. eapply wp_paginators_setitem; [done..|].
    apply wp_bind, wp_paginators_data. simpl.
    apply wp_bind, wp_put_paginators. simpl.
    apply before_validate_bunch_wp.
    - eexists. split; [done|]. rewrite lookup_insert_eq. split; [done|].
      rewrite lookup_insert. case_decide; [by eexists|].
      rewrite lookup_insert_eq. by eexists.
    - simpl. rewrite Hp2. intros s' items bunch Hp' Hitems Hb Hpg Hit.
      split; [done|]. exists page, items.
      by rewrite !(bunch_at_attr _ _ _ _ Hb).
    - simpl. rewrite Hp2. intros Hs s' (_ & ? & _). fold v_items in Hs. congruence. }
  simpl. destruct (request_paginators s) as [pd|] eqn:Hrp; simpl.
  - destruct (pd !! "_tg_paginators_params") as [tg|] eqn:Htg.
    2: { apply wp_bind. eapply wp_paginators_setitem_fail; [done|congruence|].
         intros e (_ & _ & Hready). unfold paginators_ready in Hready.
         rewrite Hrp in Hready. destruct Hready. congruence. }
    destruct tg as [| | | | |d|].
    6: by eapply Htail.
    all: apply wp_bind; eapply wp_paginators_setitem_fail; [done|congruence|].
    all: intros e (_ & _ & Hready); unfold paginators_ready in Hready.
    all: rewrite Hrp in Hready; destruct Hready; congruence.
  - eapply Htail; [done|done|]. by rewrite lookup_insert_eq.
Qed.




End paginate_facts.





Example before_validate_example :
  Decorators.before_validate (Decorators.paginate_init "movies" false 10 0)
    Decorators.example_state =
  (Ok tt,
   {| Decorators.params := <["q" := PyStr "tg"]> ∅;
      Decorators.request_paginators :=
        Some (<["_tg_paginators_params" := PyDict (<["page" := PyStr "0"]> ∅)]>
              (<["movies" :=
                   PyDict (<["paginate_page" := PyInt 1]>
                           (<["paginate_items_per_page" := PyInt 10]>
                           (<["paginate_params" :=
                                PyDict (<["page" := PyStr "0"]>
                                        (<["q" := PyStr "tg"]> ∅))]> ∅)))]> ∅)) |}).
Proof. vm_compute. reflexivity. Qed.

(** ** The registry of decorations *)

Section registry_facts.
Import Decorators.

Lemma empty_registry_wf : registry_wf empty_registry.
Proof. split; intros *; simpl; by rewrite lookup_empty. Qed.

Lemma get_decoration_known (r : Registry) func dec :
  decoration_attr r !! func = Some dec → get_decoration func r = (Ok dec, r).
Proof. intros H. unfold get_decoration. by rewrite H. Qed.

Lemma get_decoration_new (r : Registry) func :
  decoration_attr r !! func = None →
  get_decoration func r =
    (Ok (fresh (dom (heap r))),
     {| decoration_attr := <[func := fresh (dom (heap r))]> (decoration_attr r);
        heap := <[fresh (dom (heap r)) := __init__ func]> (heap r) |}).
Proof. intros H. unfold get_decoration. by rewrite H. Qed.

Lemma fresh_not_allocated (r : Registry) : heap r !! fresh (dom (heap r)) = None.
Proof. apply not_elem_of_dom, is_fresh. Qed.

Lemma get_decoration_spec (r : Registry) func :
  registry_wf r →
  ∃ dec r1,
    get_decoration func r = (Ok dec, r1) ∧ registry_wf r1 ∧
    decoration_attr r1 !! func = Some dec ∧
    (∀ g, g ≠ func → decoration_attr r1 !! g = decoration_attr r !! g) ∧
    (∀ l, l ≠ dec → heap r1 !! l = heap r !! l) ∧
    (∀ g dec', decoration_attr r !! g = Some dec' →
               g ≠ func → dec' ≠ dec ∧ heap r1 !! dec' = heap r !! dec') ∧
    (decoration_attr r !! func = None →
     heap r !! dec = None ∧ heap r1 !! dec = Some (__init__ func)).
Proof.
  intros [Hheap Hinj].
  destruct (decoration_attr r !! func) as [dec|] eqn:Hattr.
  - exists dec, r. rewrite (get_decoration_known r func dec Hattr).
    split; [done|]. split; [done|]. split; [done|]. split; [done|]. split; [done|].
    split; [|done]. intros g dec' Hg Hne. split; [|done].
    intros ->. by apply Hne, (Hinj g func dec).
  - eexists _, _. rewrite (get_decoration_new r func Hattr). simpl.
    pose proof (fresh_not_allocated r) as Hfresh.
    set (dec := fresh (dom (heap r))) in *.
    assert (Hother : ∀ g dec', decoration_attr r !! g = Some dec' → dec' ≠ dec).
    { intros g dec' Hg ->. destruct (Hheap g dec Hg) as [d Hd]. congruence. }
    split; [done|]. split; [split; simpl|].
    + intros g l. rewrite lookup_insert. case_decide; simplify_eq.
      * intros [= <-]. rewrite lookup_insert_eq. by eexists.
      * intros Hg. rewrite lookup_insert_ne; [by eapply Hheap|].
        intros <-. by eapply Hother.
    + intros f g l. rewrite !lookup_insert.
      repeat case_decide; simplify_eq; try done.
      * intros [= <-] Hg. by destruct (Hother g dec Hg).
      * intros Hf [= <-]. by destruct (Hother f dec Hf).
      * apply Hinj.
    + simpl. fold dec.
      split; [by rewrite lookup_insert_eq|].
      split; [by intros g Hg; rewrite lookup_insert_ne|].
      split; [by intros l Hl; rewrite lookup_insert_ne|].
      split; [|by rewrite lookup_insert_eq].
      intros g dec' Hg Hne. split; [by eapply Hother|].
      rewrite lookup_insert_ne; [done|]. intros <-. by eapply Hother.
Qed.

Lemma on_decoration_spec (r : Registry) dec method res r' :
  on_decoration dec method r = (res, r') →
  decoration_attr r' = decoration_attr r ∧
  (∀ l, l ≠ dec → heap r' !! l = heap r !! l) ∧
  (registry_wf r → registry_wf r') ∧
  (res = Ok tt →
   ∃ d d', heap r !! dec = Some d ∧ method d = Ok d' ∧ heap r' !! dec = Some d').
Proof.
  unfold on_decoration. destruct (heap r !! dec) as [d|] eqn:Hd.
  2: { intros [= <- <-]. split; [done|split; [done|split; done]]. }
  destruct (method d) as [d'|e] eqn:Hm; intros [= <- <-]; simpl.
  2: { split; [done|split; [done|split; done]]. }
  split; [done|]. split; [by intros l Hl; rewrite lookup_insert_ne|].
  split.
  - intros [Hheap Hinj]. split; [|done]. simpl. intros func l Hl.
    rewrite lookup_insert. case_decide; [by eexists|by eapply Hheap].
  - intros _. exists d, d'. by rewrite lookup_insert_eq.
Qed.

Lemma run_ops_wf (ops : list RegistryOp) : registry_wf (run_ops ops).
Proof.
  unfold run_ops. induction ops as [|op ops IH] using rev_ind.
  - apply empty_registry_wf.
  - rewrite foldl_snoc. destruct op as [func|dec method]; simpl.
    + destruct (get_decoration_spec _ func IH) as (dec & r1 & Hget & Hwf & _).
      by rewrite Hget.
    + destruct (on_decoration dec method _) as [res r'] eqn:Hon.
      by apply (on_decoration_spec _ _ _ _ _ Hon).
Qed.


End registry_facts.


(** ** validate *)

Section validate_facts.
Import Decorators.

(** C5, amended: [validate(validators, error_handler, form)] applied
    to a function, in the registry left by any sequence of decorator
    operations, returns the function itself and sets the [validation] of
    its decoration to the [validate] object, whose [error_handler]
    attribute is the given handler and whose [validators] attribute is the
    [validators] argument when that argument is true in a boolean
    context, and the [form] argument when [validators] is not but [form]
    is. *)
Theorem validate_sets_validation (validators error_handler form : PyVal)
    (func : positive) (ops : list RegistryOp) :
  let r := run_ops ops in
  let self := validate_init validators error_handler form in
  (truthy validators = true → Decorators.validators self = Some validators) ∧
  (truthy validators = false → truthy form = true →
   Decorators.validators self = Some form) ∧
  validate_error_handler self = error_handler ∧
  ∃ dec d r',
    validate_call self func r = (Ok func, r') ∧
    decoration_attr r' !! func = Some dec ∧
    heap r' !! dec = Some d ∧
    validation d = Some self.
Proof.
  intros r self. pose proof (run_ops_wf ops) as Hwf. fold r in Hwf.
  split; [|split; [|split]].
  - unfold self, validate_init. simpl. by intros ->.
  - unfold self, validate_init. simpl. by intros -> ->.
  - done.
  - destruct (get_decoration_spec r func Hwf)
      as (dec & r1 & Hget & [Hheap1 _] & Hattr1 & _).
    destruct (Hheap1 func dec Hattr1) as [d Hd].
    exists dec, (set_validation d self).
    eexists. unfold validate_call, bind. rewrite Hget.
    unfold on_decoration. rewrite Hd. simpl.
    split; [reflexivity|]. simpl. split; [done|].
    by rewrite lookup_insert_eq.
Qed.

End validate_facts.

Lemma validate_sets_validation_witness :
  Decorators.validators
    (Decorators.validate_init (PyObj "schema") (PyObj "index") PyNone)
    = Some (PyObj "schema") ∧
  ∃ dec d r',
    Decorators.validate_call
      (Decorators.validate_init (PyObj "schema") (PyObj "index") PyNone)
      1%positive Decorators.empty_registry = (Ok 1%positive, r') ∧
    Decorators.decoration_attr r' !! 1%positive = Some dec ∧
    Decorators.heap r' !! dec = Some d ∧
    Decorators.validation d
      = Some (Decorators.validate_init (PyObj "schema") (PyObj "index") PyNone).
Proof.
  destruct (validate_sets_validation (PyObj "schema") (PyObj "index") PyNone
              1%positive []) as (Hv & _ & _ & Hcall).
  split; [apply Hv; reflexivity|exact Hcall].
Defined.

(** C5 as stated fails: with [validators={}] and a form, the
    [validators] attribute is the form, not the [validators] argument. *)
Lemma validate_empty_validators_uses_form :
  Decorators.validators
    (Decorators.validate_init (PyDict ∅) (PyObj "index") (PyObj "form"))
    = Some (PyObj "form") ∧
  Some (PyObj "form") ≠ Some (PyDict ∅).
Proof. split; [reflexivity|discriminate]. Qed.


(** ** The hook pipeline *)

Section hooks_facts.
Import Decorators.

Lemma syswide_hooks_raise config_hooks hook e :
  syswide_hooks config_hooks hook = Raise e → e = KeyError.
Proof.
  unfold syswide_hooks, getitem. destruct config_hooks as [hs|]; [|congruence].
  destruct (hs !! hook); congruence.
Qed.

Lemma register_hook_appends (self : Decoration) hook func own :
  hooks self !! hook = Some own →
  ∃ self', register_hook self hook func = Ok self' ∧
           hooks self' !! hook = Some (own ++ [func]) ∧
           ∀ other, other ≠ hook → hooks self' !! other = hooks self !! other.
Proof.
  intros Hown. unfold register_hook, getitem. rewrite Hown.
  eexists. split; [done|]. simpl. rewrite lookup_insert_eq. split; [done|].
  intros other Hne. by rewrite lookup_insert_ne.
Qed.

Lemma call_each_all_return (funcs : list Callable) l kw w w' :
  all_return l kw funcs w w' →
  call_each funcs l kw w = ((fun f => (f, l, kw)) <$> funcs, (Ok tt, w')).
Proof.
  induction 1 as [w|func rest v w w1 w2 Hcall _ IH]; simpl; [done|].
  by rewrite Hcall, IH.
Qed.

Lemma call_each_first_raise (before after : list Callable) (f : Callable)
    l kw w w1 w2 e :
  all_return l kw before w w1 →
  f l kw w1 = (Raise e, w2) →
  call_each (before ++ f :: after) l kw w
  = ((fun g => (g, l, kw)) <$> before ++ [f], (Raise e, w2)).
Proof.
  induction 1 as [w|func rest v w w1 w3 Hcall _ IH]; simpl; intros Hf.
  - by rewrite Hf.
  - by rewrite Hcall, (IH Hf).
Qed.

(** C3, amended: for a hook name the decoration has a list for (the
    four core hooks of every decoration), [run_hooks] calls the
    system-wide hooks of [tgl.config['hooks'][hook]] in list order (none
    when either key is absent) and then the hooks registered on the
    decoration in list order, each with the arguments given to
    [run_hooks] and in the world the hook before it left, up to and
    including the first one that raises: the calls are exactly these, the
    exception of that hook is the outcome, and all are called and
    [run_hooks] returns when none raises.  The one exception is a
    [KeyError] raised by a system-wide hook, which ends the system-wide
    hooks only: the hooks of the decoration are called after it in the
    same way.  [register_hook] appends to the list of its hook name and
    leaves the other lists alone. *)
Theorem run_hooks_order (self : Decoration)
    (config_hooks : option (gmap string (list Callable)))
    (hook : string) (l : list PyVal) (kw : gmap string PyVal) (w : World)
    (own : list Callable) :
  hooks self !! hook = Some own →
  let tag := fun f : Callable => (f, l, kw) in
  let sys := match syswide_hooks config_hooks hook with
             | Ok funcs => funcs
             | Raise _ => []
             end in
  let run := run_hooks self config_hooks hook l kw w in
  let then_own := fun (called : list Callable) (w1 : World) =>
    (∀ w2, all_return l kw own w1 w2 →
           run = (tag <$> called ++ own, (Ok tt, w2))) ∧
    (∀ before f after e w2 w3,
       own = before ++ f :: after →
       all_return l kw before w1 w2 →
       f l kw w2 = (Raise e, w3) →
       run = (tag <$> called ++ before ++ [f], (Raise e, w3))) in
  (config_hooks = None → sys = []) ∧
  (∀ hs, config_hooks = Some hs → hs !! hook = None → sys = []) ∧
  (∀ hs funcs, config_hooks = Some hs → hs !! hook = Some funcs → sys = funcs) ∧
  (∀ w1, all_return l kw sys w w1 → then_own sys w1) ∧
  (∀ before f after e w1 w2,
     sys = before ++ f :: after →
     all_return l kw before w w1 →
     f l kw w1 = (Raise e, w2) →
     (e = KeyError → then_own (before ++ [f]) w2) ∧
     (e ≠ KeyError → run = (tag <$> before ++ [f], (Raise e, w2)))) ∧
  (∀ func, ∃ self', register_hook self hook func = Ok self' ∧
                    hooks self' !! hook = Some (own ++ [func]) ∧
                    ∀ other, other ≠ hook →
                             hooks self' !! other = hooks self !! other).
Proof.
  intros Hown tag sys run then_own.
  assert (Hthen : ∀ called w1,
            (run = let '(calls2, out) := call_each own l kw w1 in
                   (((tag <$> called) ++ calls2)%list, out)) →
            then_own called w1).
  { intros called w1 Hrun. split.
    - intros w2 Hall. rewrite Hrun, (call_each_all_return own l kw w1 w2 Hall).
      by rewrite fmap_app.
    - intros before f after e w2 w3 -> Hall Hf.
      rewrite Hrun, (call_each_first_raise before after f l kw w1 w2 w3 e Hall Hf).
      by rewrite !fmap_app. }
  split; [by intros ->|].
  split; [intros hs -> Hnone; unfold sys, syswide_hooks, getitem; by rewrite Hnone|].
  split; [intros hs funcs -> Hsome; unfold sys, syswide_hooks, getitem; by rewrite Hsome|].
  split; [|split; [|intros func; by apply register_hook_appends]].
  - intros w1 Hall. apply (Hthen sys w1).
    unfold run, run_hooks, getitem. rewrite Hown.
    destruct (syswide_hooks config_hooks hook) as [funcs|e] eqn:Hsw; subst sys.
    + by rewrite (call_each_all_return funcs l kw w w1 Hall).
    + apply syswide_hooks_raise in Hsw as ->. inversion Hall; subst. done.
  - intros before f after e w1 w2 Hsys Hall Hf.
    assert (Hcalls : syswide_hooks config_hooks hook = Ok (before ++ f :: after)).
    { unfold sys in Hsys. destruct (syswide_hooks config_hooks hook); [congruence|].
      by destruct before. }
    split.
    + intros ->. apply (Hthen (before ++ [f]) w2).
      unfold run, run_hooks, getitem. rewrite Hown, Hcalls.
      by rewrite (call_each_first_raise before after f l kw w w1 w2 KeyError Hall Hf).
    + intros Hne. unfold run, run_hooks. rewrite Hcalls.
      rewrite (call_each_first_raise before after f l kw w w1 w2 e Hall Hf).
      by destruct e.
Qed.

End hooks_facts.

Lemma run_hooks_order_witness :
  Decorators.hooks
    (Decorators.set_hooks (Decorators.__init__ 1%positive)
       (<["before_call" := [Decorators.hook_pass; Decorators.hook_not_allowed;
                            Decorators.hook_pass]]>
          (Decorators.hooks (Decorators.__init__ 1%positive))))
    !! "before_call"
  = Some [Decorators.hook_pass; Decorators.hook_not_allowed; Decorators.hook_pass] ∧
  Decorators.run_hooks
    (Decorators.set_hooks (Decorators.__init__ 1%positive)
       (<["before_call" := [Decorators.hook_pass; Decorators.hook_not_allowed;
                            Decorators.hook_pass]]>
          (Decorators.hooks (Decorators.__init__ 1%positive))))
    (Some (<["before_call" := [Decorators.hook_pass]]> ∅))
    "before_call" [PyStr "remainder"] ∅ Decorators.example_world
  = ([(Decorators.hook_pass, [PyStr "remainder"], ∅);
      (Decorators.hook_pass, [PyStr "remainder"], ∅);
      (Decorators.hook_not_allowed, [PyStr "remainder"], ∅)],
     (Raise (HTTPError 405 "" ""), Decorators.example_world)).
Proof.
  split; [reflexivity|].
  destruct (run_hooks_order
              (Decorators.set_hooks (Decorators.__init__ 1%positive)
                 (<["before_call" := [Decorators.hook_pass; Decorators.hook_not_allowed;
                                      Decorators.hook_pass]]>
                    (Decorators.hooks (Decorators.__init__ 1%positive))))
              (Some (<["before_call" := [Decorators.hook_pass]]> ∅))
              "before_call" [PyStr "remainder"] ∅ Decorators.example_world
              [Decorators.hook_pass; Decorators.hook_not_allowed; Decorators.hook_pass]
              (lookup_insert_eq _ _ _)) as (_ & _ & _ & Hrun & _).
  destruct (Hrun Decorators.example_world) as [_ Hraise].
  - eapply Decorators.all_return_cons; [reflexivity|apply Decorators.all_return_nil].
  - apply (Hraise [Decorators.hook_pass] Decorators.hook_not_allowed
             [Decorators.hook_pass] (HTTPError 405 "" "")
             Decorators.example_world Decorators.example_world).
    + reflexivity.
    + eapply Decorators.all_return_cons; [reflexivity|apply Decorators.all_return_nil].
    + reflexivity.
Defined.

(** C3 as stated fails: the first of two registered hooks raises (as
    [https] does to refuse a request), and the second is never called. *)
Lemma run_hooks_stops_at_raise :
  ∃ d1 d2,
    Decorators.register_hook (Decorators.__init__ 1%positive) "before_validate"
      Decorators.hook_not_allowed = Ok d1 ∧
    Decorators.register_hook d1 "before_validate" Decorators.hook_pass = Ok d2 ∧
    Decorators.hooks d2 !! "before_validate"
      = Some [Decorators.hook_not_allowed; Decorators.hook_pass] ∧
    Decorators.run_hooks d2 None "before_validate" [] ∅ Decorators.example_world =
      ([(Decorators.hook_not_allowed, [], ∅)],
       (Raise (HTTPError 405 "" ""), Decorators.example_world)).
Proof.
  eexists _, _. split; [reflexivity|]. split; [reflexivity|].
  split; [reflexivity|]. reflexivity.
Qed.


(** ** require *)

Section require_facts.
Import Decorators.

Lemma default_denial_handler_aborts (reason : string) (w : World) :
  default_denial_handler reason w =
    (Raise (HTTPError (status_int (response w)) reason ""),
     {| request := request w;
        response := response w;
        flashed := flashed w ++
                   [(reason, if status_int (response w) =? 401
                             then "warning" else "error")];
        store := store w |}).
Proof. reflexivity. Qed.

(** C1, amended: when the predicate raises [NotAuthorizedError], the
    status code is 403 if [environ.get('repoze.who.identity')] is true in
    a boolean context and 401 otherwise, in particular when the key is
    absent; with a denial handler the response status is set to the code
    and then the handler is called with the reason, its outcome being the
    outcome of the call; without one [abort] is called with the code and
    the reason; in both cases the action is not called.  When the
    predicate returns, the action is called with the original arguments
    and its outcome is the outcome of the call.  The denial handler of a
    [require] built without one is [default_denial_handler], which flashes
    the reason and aborts with the response status. *)
Theorem wrap_action_denial (self : Require) (action_ : Callable)
    (args : list PyVal) (kwargs : gmap string PyVal) (w : World) :
  (∀ reason w1,
     predicate self w = (Raise (NotAuthorizedError reason), w1) →
     let code :=
       if truthy (dict_get (environ (request w1)) "repoze.who.identity")
       then 403 else 401 in
     (environ (request w1) !! "repoze.who.identity" = None → code = 401) ∧
     (∀ a k, CallAction a k ∉ trace (wrap_action self action_ args kwargs (start w)).2) ∧
     match denial_handler self with
     | Some handler =>
         let w2 := (set_status code w1).2 in
         status_int (response w2) = code ∧
         wrap_action self action_ args kwargs (start w) =
           ((handler reason w2).1,
            {| world := (handler reason w2).2;
               trace := [CheckAuthorization; SetStatus code;
                         CallDenialHandler reason] |})
     | None =>
         wrap_action self action_ args kwargs (start w) =
           (Raise (HTTPError code "" reason),
            {| world := w1;
               trace := [CheckAuthorization; CallAbort code reason] |})
     end) ∧
  (∀ w1,
     predicate self w = (Ok tt, w1) →
     wrap_action self action_ args kwargs (start w) =
       ((action_ args kwargs w1).1,
        {| world := (action_ args kwargs w1).2;
           trace := [CheckAuthorization; CallAction args kwargs] |})) ∧
  (∀ predicate handler,
     denial_handler (require_init predicate handler)
       = Some (default default_denial_handler handler)) ∧
  (∀ reason w0,
     (default_denial_handler reason w0).1
       = Raise (HTTPError (status_int (response w0)) reason "")).
Proof.
  split; [|split; [|split; [done|done]]].
  - intros reason w1 Hpred code. split.
    { intros Hnone. unfold code, dict_get. by rewrite Hnone. }
    assert (Hcheck : step CheckAuthorization (predicate self) (start w) =
              (Raise (NotAuthorizedError reason),
               {| world := w1; trace := [CheckAuthorization] |})).
    { unfold step. simpl. by rewrite Hpred. }
    unfold wrap_action. rewrite Hcheck. simpl. fold code.
    unfold authenticated. simpl. fold code.
    destruct (denial_handler self) as [handler|].
    + unfold bind, step. simpl.
      destruct (handler reason _) as [r w3] eqn:Hh. simpl.
      split; [|done].
      intros a k Hin. repeat (apply elem_of_cons in Hin as [?|Hin]; [done|]).
      by apply elem_of_nil in Hin.
    + unfold bind, step. simpl. split; [|done].
      intros a k Hin. repeat (apply elem_of_cons in Hin as [?|Hin]; [done|]).
      by apply elem_of_nil in Hin.
  - intros w1 Hpred. unfold wrap_action, step. simpl. rewrite Hpred. simpl.
    by destruct (action_ args kwargs w1).
Qed.

End require_facts.

(** C1 as stated fails: the environ contains ['repoze.who.identity'],
    with an empty identity, and the status code is 401. *)
Lemma wrap_action_empty_identity :
  Decorators.environ (Decorators.request (Decorators.world_with_identity (PyDict ∅)))
    !! "repoze.who.identity" = Some (PyDict ∅) ∧
  Decorators.wrap_action
    (Decorators.require_init (Decorators.not_met "denied") None)
    Decorators.action_index [] ∅
    (Decorators.start (Decorators.world_with_identity (PyDict ∅))) =
  (Raise (HTTPError 401 "denied" ""),
   {| Decorators.world :=
        {| Decorators.request :=
             Decorators.request (Decorators.world_with_identity (PyDict ∅));
           Decorators.response :=
             {| Decorators.status_int := 401; Decorators.response_headers := ∅ |};
           Decorators.flashed := [("denied", "warning")];
           Decorators.store := ∅ |};
      Decorators.trace :=
        [Decorators.CheckAuthorization; Decorators.SetStatus 401;
         Decorators.CallDenialHandler "denied"] |}).
Proof. split; reflexivity. Qed.

Lemma wrap_action_denial_witness :
  Decorators.predicate (Decorators.require_init (Decorators.not_met "denied") None)
    (Decorators.world_with_identity (PyStr "alice"))
  = (Raise (NotAuthorizedError "denied"),
     Decorators.world_with_identity (PyStr "alice")) ∧
  (Decorators.wrap_action
     (Decorators.require_init (Decorators.not_met "denied") None)
     Decorators.action_index [] ∅
     (Decorators.start (Decorators.world_with_identity (PyStr "alice")))).1
  = Raise (HTTPError 403 "denied" "").
Proof.
  split; [reflexivity|].
  destruct (wrap_action_denial
              (Decorators.require_init (Decorators.not_met "denied") None)
              Decorators.action_index [] ∅
              (Decorators.world_with_identity (PyStr "alice"))) as (Hdeny & _).
  destruct (Hdeny "denied" (Decorators.world_with_identity (PyStr "alice")) eq_refl)
    as (_ & _ & _ & Hrun).
  rewrite Hrun. reflexivity.
Defined.


(** ** Template engine lookup *)

Section lookup_facts.
Import Decorators.

Variable best_match : list string → string → Result string.

Lemma registered_nil (d : Decoration) : registered d = [] ↔ engines d = ∅.
Proof.
  unfold registered. rewrite <- map_to_list_empty_iff. split.
  - apply fmap_nil_inv.
  - by intros ->.
Qed.

(** No header of that name, under any spelling. *)
Lemma header_get_None (h : gmap string string) (name : string) :
  header_get h name = None ↔ ∀ k v, h !! k = Some v → lower k ≠ lower name.
Proof.
  unfold header_get. rewrite fmap_None. split.
  - intros Hfind k v Hkv Heq.
    apply elem_of_map_to_list, list_elem_of_In in Hkv.
    pose proof (find_none _ _ Hfind (k, v) Hkv) as Hno. simpl in Hno.
    by rewrite Heq, String.eqb_refl in Hno.
  - intros Hno. destruct (find _ _) as [[k v]|] eqn:Hfind; [|done].
    apply find_some in Hfind as [Hin Heq]. simpl in Heq.
    apply String.eqb_eq in Heq.
    apply list_elem_of_In, elem_of_map_to_list in Hin. by destruct (Hno k v Hin).
Qed.

Lemma lookup_plain (d : Decoration) (req : Request) (resp : Response) :
  nonempty (render_custom_format_of d req) = false →
  header_get (response_headers resp) "Content-Type" = None →
  (∀ mapping, _override_mapping req = Some mapping → mapping !! controller d = None) →
  lookup_template_engine best_match d req resp =
    match select_content_type best_match d (accept_types_of d req) with
    | Ok content_type =>
        Ok (with_charset content_type,
            (engines_get d content_type).1.1,
            (engines_get d content_type).1.2,
            (engines_get d content_type).2)
    | Raise e => Raise e
    end.
Proof.
  intros Hcustom Hheader Hoverride. unfold lookup_template_engine.
  rewrite Hcustom, Hheader.
  destruct (select_content_type _ _ _) as [ct|e]; [|done].
  destruct (_override_mapping req) as [mapping|] eqn:Hmap.
  - rewrite (Hoverride mapping eq_refl). by destruct (engines_get d ct) as [[? ?] ?].
  - by destruct (engines_get d ct) as [[? ?] ?].
Qed.

(** C2, amended: for a decoration kept by [register_template_engine],
    with no custom format in force, no [Content-Type] header on the
    response under any spelling of the name, and no template override
    for the controller:
    [accept_types] is the request's [response_type] when that is a
    registered content type and the [Accept] header, ["*/*"] by default,
    otherwise; with exactly one registered content type, not the empty
    string, that content type is used without matching and its engine,
    template and excluded names are returned; with more than one the
    content type is [best_match] of the registered content types, in
    descending order, against [accept_types], and the entry registered for
    it is returned, [None] three times if there is none; with no engine
    the content type is ['text/html'] and the three are [None].  The
    content type is returned with its charset added. *)
Theorem lookup_template_engine_selects (d : Decoration) (req : Request)
    (resp : Response) :
  engines_invariant d →
  nonempty (render_custom_format_of d req) = false →
  header_get (response_headers resp) "Content-Type" = None →
  (∀ mapping, _override_mapping req = Some mapping → mapping !! controller d = None) →
  let accept_types := accept_types_of d req in
  (∀ rt, response_type req = Some rt → rt ≠ "" → is_Some (engines d !! rt) →
         accept_types = rt) ∧
  ((∀ rt, response_type req = Some rt → rt ≠ "" → engines d !! rt = None) →
   accept_types = default "*/*" (header_get (headers req) "accept")) ∧
  (∀ ct, registered d = [ct] → ct ≠ "" →
     ∃ engine template exclude_names,
       engines d !! ct = Some (engine, template, exclude_names) ∧
       lookup_template_engine best_match d req resp =
         Ok (with_charset ct, engine, template, exclude_names)) ∧
  ((1 < length (registered d))%nat →
   engines_keys d = sorted_reverse (registered d) ∧
   lookup_template_engine best_match d req resp =
     match best_match (engines_keys d) accept_types with
     | Ok ct =>
         Ok (with_charset ct,
             (engines_get d ct).1.1, (engines_get d ct).1.2, (engines_get d ct).2)
     | Raise e => Raise e
     end) ∧
  (registered d = [] →
   lookup_template_engine best_match d req resp =
     Ok ("text/html; charset=utf-8", PyNone, PyNone, PyNone)).
Proof.
  intros [Hdef Hkeys] Hcustom Hheader Hoverride accept_types.
  rewrite (lookup_plain d req resp Hcustom Hheader Hoverride).
  fold accept_types. unfold select_content_type. rewrite Hdef.
  split; [|split; [|split; [|split]]].
  - intros rt Hrt Hne Hreg. unfold accept_types, accept_types_of.
    rewrite Hrt. simpl. apply String.eqb_neq in Hne. rewrite Hne. simpl.
    by rewrite bool_decide_eq_true_2.
  - intros Hnot. unfold accept_types, accept_types_of.
    destruct (response_type req) as [rt|] eqn:Hrt; simpl; [|done].
    destruct (String.eqb rt "") eqn:Hrte; simpl; [done|].
    apply String.eqb_neq in Hrte. rewrite (Hnot rt eq_refl Hrte).
    rewrite bool_decide_eq_false_2; [done|]. by intros [? ?].
  - intros ct Hreg Hne. rewrite Hreg. simpl.
    apply String.eqb_neq in Hne. rewrite Hne. simpl.
    assert (is_Some (engines d !! ct)) as [[[engine template] exclude_names] Hct].
    { apply registered_elem_of. rewrite Hreg. by left. }
    exists engine, template, exclude_names. split; [done|].
    unfold engines_get. by rewrite Hct.
  - intros Hlen. split; [done|].
    destruct (registered d) as [|k [|k' rest]] eqn:Hreg; simpl in Hlen; try lia.
    simpl. rewrite bool_decide_eq_false_2; [done|].
    intros Hempty%registered_nil. congruence.
  - intros Hreg. rewrite Hreg. simpl.
    apply registered_nil in Hreg. rewrite bool_decide_eq_true_2 by done. simpl.
    unfold engines_get. rewrite Hreg, lookup_empty. simpl. done.
Qed.

End lookup_facts.

Lemma lookup_template_engine_selects_witness :
  Decorators.engines_invariant Decorators.html_json_controller ∧
  Decorators.nonempty
    (Decorators.render_custom_format_of Decorators.html_json_controller
       Decorators.plain_request) = false ∧
  Decorators.header_get (Decorators.response_headers Decorators.plain_response)
    "Content-Type" = None ∧
  Decorators.lookup_template_engine (fun supported _ => Ok (hd "" supported))
    Decorators.html_json_controller Decorators.plain_request Decorators.plain_response
  = Ok ("text/html; charset=utf-8", PyStr "genshi", PyStr "pkg.templates.index",
        PyList []).
Proof.
  split; [apply register_all_invariant|].
  split; [reflexivity|]. split; [reflexivity|].
  destruct (lookup_template_engine_selects (fun supported _ => Ok (hd "" supported))
              Decorators.html_json_controller Decorators.plain_request
              Decorators.plain_response)
    as (_ & _ & _ & Hmany & _).
  - apply register_all_invariant.
  - reflexivity.
  - reflexivity.
  - intros mapping Hmap. discriminate Hmap.
  - destruct Hmany as [_ Hrun]; [vm_compute; lia|].
    rewrite Hrun. vm_compute. reflexivity.
Defined.

(** C2 as stated fails: one engine is registered, for ['text/html'],
    no custom format is in force, and the action has set the response's
    [Content-Type] to ['application/json']: the lookup returns no engine
    instead of the one registered for ['text/html']. *)
Lemma lookup_content_type_header_overrides :
  Decorators.registered Decorators.html_controller = ["text/html"] ∧
  Decorators.engines Decorators.html_controller !! "text/html"
    = Some (PyStr "genshi", PyStr "pkg.templates.index", PyList []) ∧
  Decorators.nonempty
    (Decorators.render_custom_format_of Decorators.html_controller
       Decorators.plain_request) = false ∧
  ∀ best_match,
    Decorators.lookup_template_engine best_match Decorators.html_controller
      Decorators.plain_request Decorators.json_response
    = Ok ("application/json; charset=utf-8", PyNone, PyNone, PyNone).
Proof.
  split; [vm_compute; reflexivity|]. split; [vm_compute; reflexivity|].
  split; [reflexivity|]. intros best_match. vm_compute. reflexivity.
Qed.


(** ** Behaviour outside the properties above *)

Section slips.
Import Decorators.

Lemma call_each_app (before after : list Callable) l kw w w1 :
  (call_each before l kw w).2 = (Ok tt, w1) →
  call_each (before ++ after) l kw w =
    (((fun f => (f, l, kw)) <$> before) ++ (call_each after l kw w1).1,
     (call_each after l kw w1).2).
Proof.
  revert w. induction before as [|f before IH]; intros w; simpl.
  - intros [= ->]. by destruct (call_each after l kw w1).
  - destruct (f l kw w) as [[v|e] w'] eqn:Hf; [|done].
    intros Hrest. specialize (IH w').
    destruct (call_each before l kw w') as [calls out]. simpl in *.
    by rewrite (IH Hrest).
Qed.

(** X1: when a system-wide hook raises [KeyError] after the hooks before it
    returned, [run_hooks] skips the system-wide hooks after it, calls the
    hooks of the decoration, and has their outcome: the [KeyError] is
    lost. *)
Theorem run_hooks_key_error (self : Decoration) (hs : gmap string (list Callable))
    (hook : string) (l : list PyVal) (kw : gmap string PyVal) (w w1 w2 : World)
    (before after own : list Callable) (f : Callable) :
  hooks self !! hook = Some own →
  hs !! hook = Some (before ++ f :: after) →
  (call_each before l kw w).2 = (Ok tt, w1) →
  f l kw w1 = (Raise KeyError, w2) →
  run_hooks self (Some hs) hook l kw w =
    (((fun g => (g, l, kw)) <$> before ++ [f]) ++ (call_each own l kw w2).1,
     (call_each own l kw w2).2).
Proof.
  intros Hown Hhs Hbefore Hf. unfold run_hooks, syswide_hooks, getitem.
  rewrite Hhs, Hown, (call_each_app before (f :: after) l kw w w1 Hbefore).
  simpl. rewrite Hf. simpl.
  destruct (call_each own l kw w2) as [calls2 out]. simpl.
  by rewrite fmap_app.
Qed.

(** X2: a page parameter that is true in a boolean context and neither a
    string nor a number, such as the list of a repeated parameter, makes
    [before_validate] raise [TypeError] right after the parameter was
    popped. *)
Theorem before_validate_type_error (self : Paginate) (s : PagState) :
  truthy (dict_get (params s) (page_param self)) = true →
  scalar (dict_get (params s) (page_param self)) = false →
  before_validate self s =
    (Raise TypeError,
     {| params := delete (page_param self) (params s);
        request_paginators := request_paginators s |}).
Proof.
  intros Htruthy Hscalar. unfold before_validate, bind at 1, params_pop.
  unfold bind at 1.
  destruct (page_of_cases (dict_get (params s) (page_param self)))
    as [(page & Hpage & Hge & Hfalsy & _)|[Hraise _]].
  - exfalso. revert Hpage. unfold page_of. rewrite Htruthy.
    unfold try_except, bind, lift.
    destruct (dict_get (params s) (page_param self)); try done.
    all: intros H; specialize (H s); simpl in H; done.
  - by rewrite Hraise.
Qed.

End slips.

Lemma run_hooks_key_error_witness :
  Decorators.run_hooks (Decorators.__init__ 1%positive)
    (Some (<["before_call" := [Decorators.hook_key_error; Decorators.hook_pass]]> ∅))
    "before_call" [] ∅ Decorators.example_world
  = ([(Decorators.hook_key_error, [], ∅)], (Ok tt, Decorators.example_world)).
Proof.
  apply (run_hooks_key_error (Decorators.__init__ 1%positive)
           (<["before_call" := [Decorators.hook_key_error; Decorators.hook_pass]]> ∅)
           "before_call" [] ∅ Decorators.example_world Decorators.example_world
           Decorators.example_world [] [Decorators.hook_pass] []
           Decorators.hook_key_error); reflexivity.
Defined.

Lemma before_validate_type_error_witness :
  Decorators.before_validate (Decorators.paginate_init "movies" false 10 0)
    Decorators.repeated_page_state
  = (Raise TypeError,
     {| Decorators.params :=
          delete "page" (Decorators.params Decorators.repeated_page_state);
        Decorators.request_paginators := None |}).
Proof.
  apply (before_validate_type_error (Decorators.paginate_init "movies" false 10 0)
           Decorators.repeated_page_state); reflexivity.
Defined.

(** ** Further properties of the configuration steps *)

(** X3: whenever the before-config action of the error-pages step
    returns a configuration, running it again on that configuration
    returns it unchanged: 401 is added at most once. *)
Theorem configure_error_pages_idempotent (conf conf' : gmap string PyVal) :
  ErrorPages._configure_error_pages conf = Ok conf' →
  ErrorPages._configure_error_pages conf' = Ok conf'.
Proof.
  unfold ErrorPages._configure_error_pages at 1.
  destruct (ErrorPages.no_auth_backend conf) eqn:Hauth.
  2: { intros [= <-]. unfold ErrorPages._configure_error_pages. by rewrite Hauth. }
  destruct (getitem conf "errorpage.status_codes") as [codes|e] eqn:Hcodes; [|done].
  destruct (ErrorPages.contains_401 codes) as [[|]|e] eqn:Hin; [| |done].
  { intros [= <-]. unfold ErrorPages._configure_error_pages.
    by rewrite Hauth, Hcodes, Hin. }
  destruct (py_list codes) as [l|e] eqn:Hl; [|done].
  intros [= <-]. unfold ErrorPages._configure_error_pages.
  assert (ErrorPages.no_auth_backend
            (<["errorpage.status_codes" := PyList (l ++ [PyInt 401])]> conf) = true)
    as ->.
  { revert Hauth. unfold ErrorPages.no_auth_backend, dict_get.
    by rewrite lookup_insert_ne. }
  unfold getitem. rewrite lookup_insert_eq. simpl.
  rewrite existsb_app. simpl. by rewrite orb_true_r.
Qed.

Lemma configure_error_pages_idempotent_witness :
  ErrorPages._configure_error_pages ErrorPages.get_defaults =
    Ok (<["errorpage.status_codes" := PyList [PyInt 403; PyInt 404; PyInt 401]]>
          ErrorPages.get_defaults) ∧
  ErrorPages._configure_error_pages
    (<["errorpage.status_codes" := PyList [PyInt 403; PyInt 404; PyInt 401]]>
       ErrorPages.get_defaults) =
    Ok (<["errorpage.status_codes" := PyList [PyInt 403; PyInt 404; PyInt 401]]>
          ErrorPages.get_defaults).
Proof.
  split; [reflexivity|].
  apply (configure_error_pages_idempotent ErrorPages.get_defaults). reflexivity.
Defined.

Section tw2_config_facts.
Import ToscaWidgets2.

Variable preferred_rendering_engines : list string.
Variable set_order : gset string → list string.
Hypothesis set_order_elem_of : ∀ (s : gset string) x, x ∈ set_order s ↔ x ∈ s.

(** X4: when [_add_middleware] succeeds and [custom_tw2_config] is a
    dictionary, every entry of [custom_tw2_config] is in the middleware's
    configuration, and where it has none the configuration has the fixed
    prefixes and the [debug] flag of the application; unless overridden,
    the preferred rendering engines are a list of strings that names
    every engine both configured and preferred by ToscaWidgets2, and no
    other engine. *)
Theorem add_middleware_config (conf : gmap string PyVal) (app : App)
    (config custom : gmap string PyVal) (available : gset string) :
  str_set (default (PyList []) (conf !! "renderers")) = Ok available →
  default (PyDict ∅) (conf !! "custom_tw2_config") = PyDict custom →
  _add_middleware preferred_rendering_engines set_order conf app
    = Ok (TwMiddleware app config) →
  (∀ k v, custom !! k = Some v → config !! k = Some v) ∧
  (custom !! "controller_prefix" = None →
   config !! "controller_prefix" = Some (PyStr "/tw2/controllers/")) ∧
  (custom !! "res_prefix" = None →
   config !! "res_prefix" = Some (PyStr "/tw2/resources/")) ∧
  (custom !! "debug" = None → config !! "debug" = conf !! "debug") ∧
  (custom !! "preferred_rendering_engines" = None →
   ∃ engines,
     config !! "preferred_rendering_engines" = Some (PyList engines) ∧
     (∀ v, v ∈ engines →
           ∃ s, v = PyStr s ∧ s ∈ available ∧ s ∈ preferred_rendering_engines) ∧
     (∀ s, s ∈ available → s ∈ preferred_rendering_engines → PyStr s ∈ engines)).
Proof using set_order_elem_of.
  intros Hren Hcustom. unfold ToscaWidgets2._add_middleware. rewrite Hren.
  set (shared := shared_with preferred_rendering_engines set_order available).
  assert (Hshared : ∀ s, s ∈ shared ↔ s ∈ available ∧ s ∈ preferred_rendering_engines).
  { intros s. unfold shared, ToscaWidgets2.shared_with.
    rewrite set_order_elem_of, elem_of_intersection, elem_of_list_to_set. done. }
  destruct shared as [|first rest] eqn:Hsh; [done|].
  unfold getitem. destruct (conf !! "debug") as [debug|] eqn:Hdebug; [|by destruct (existsb _ _)].
  rewrite Hcustom.
  assert (Hstrs : ∀ v, v ∈ PyStr <$> (first :: rest) →
            ∃ s, v = PyStr s ∧ s ∈ available ∧ s ∈ preferred_rendering_engines).
  { intros v (s & -> & Hin)%list_elem_of_fmap. exists s. split; [done|]. by apply Hshared. }
  assert (Hall : ∀ s, s ∈ available → s ∈ preferred_rendering_engines →
            PyStr s ∈ PyStr <$> (first :: rest)).
  { intros s Ha Hp. apply list_elem_of_fmap. exists s. split; [done|]. by apply Hshared. }
  destruct (existsb _ _) eqn:Hex; simpl; intros [= <-].
  all: split; [by intros k v Hk; apply lookup_union_Some_l|].
  all: split; [by intros Hk; rewrite lookup_union_r by done|].
  all: split; [by intros Hk; rewrite lookup_union_r by done|].
  all: split; [by intros Hk; rewrite lookup_union_r by done|].
  all: intros Hk; rewrite lookup_union_r by done; simpl.
  - apply existsb_py_eq_str in Hex as (s & Hs & Hin).
    eexists. split; [reflexivity|]. split.
    + intros v [->|Hv]%elem_of_cons; [|by apply Hstrs].
      exists s. split; [done|]. by apply Hshared.
    + intros s' Ha Hp. right. by apply Hall.
  - eexists. split; [reflexivity|]. split; [apply Hstrs|apply Hall].
Qed.

End tw2_config_facts.

Lemma add_middleware_config_witness :
  (∀ (s : gset string) x, x ∈ elements s ↔ x ∈ s) ∧
  match ToscaWidgets2._add_middleware ToscaWidgets2.tw2_preferred elements
          ToscaWidgets2.conf_custom_engine (ToscaWidgets2.WsgiApp "app") with
  | Ok (ToscaWidgets2.TwMiddleware _ config) =>
      config !! "default_engine" = Some (PyStr "mako") ∧
      config !! "res_prefix" = Some (PyStr "/tw2/resources/")
  | _ => False
  end.
Proof.
  split; [intros s x; apply elem_of_elements|].
  destruct (ToscaWidgets2._add_middleware ToscaWidgets2.tw2_preferred elements
              ToscaWidgets2.conf_custom_engine (ToscaWidgets2.WsgiApp "app"))
    as [r|e] eqn:Hrun; [|vm_compute in Hrun; discriminate].
  destruct (add_middleware_wraps _ _ _ _ _ Hrun) as [config ->].
  destruct (add_middleware_config ToscaWidgets2.tw2_preferred elements
              (fun s x => elem_of_elements s x) ToscaWidgets2.conf_custom_engine
              (ToscaWidgets2.WsgiApp "app") config
              (<["default_engine" := PyStr "mako"]> ∅)
              (list_to_set ["json"; "genshi"; "mako"]) eq_refl eq_refl Hrun)
    as (Hcustom & _ & Hres & _).
  split; [apply Hcustom; reflexivity|apply Hres; reflexivity].
Defined.

(** ** Further properties of the decorators *)

Section wrap_controller_facts.
Import Decorators.

(** A wrapper that only builds the wrapped callable. *)
Local Abbreviation pure_wrapper f := (fun (d : Decoration) (c : Callable) => ret (f d c) : Eff World Callable).

Lemma wrap_each_in_order (self : Decoration) (before after : list Wrapper)
    (controller c : Callable) (w w1 : World) :
  wrapped_in_order self before controller w c w1 →
  wrap_each self (before ++ after) controller w = wrap_each self after c w1.
Proof.
  induction 1 as [c w|wrapper rest c c1 c2 w w1 w2 Hwrap _ IH]; simpl; [done|].
  by rewrite Hwrap.
Qed.

Lemma pure_wrappers_in_order (self : Decoration)
    (before : list (Decoration → Callable → Callable)) (controller : Callable)
    (w : World) :
  wrapped_in_order self ((fun f => pure_wrapper f) <$> before) controller w
    (foldl (fun c f => f self c) controller before) w.
Proof.
  revert controller. induction before as [|f before IH]; intros controller; simpl.
  - constructor.
  - econstructor; [reflexivity|apply IH].
Qed.

(** X5: without a ['controller_wrappers'] entry [wrap_controller]
    returns the controller itself and leaves the world alone; wrappers
    that return are applied in list order, each to the callable the one
    before returned and in the world it left, and the last callable and
    world are the result; when a wrapper raises, the wrappers after it
    are skipped: for a [KeyError] the callable wrapped so far is returned,
    in the world the raising wrapper left, and any other exception
    propagates; so [wrap_controller] never raises [KeyError]. *)
Theorem wrap_controller_composes (self : Decoration) (controller : Callable)
    (w : World) :
  wrap_controller self None controller w = (Ok controller, w) ∧
  (∀ wrappers c w1,
     wrapped_in_order self wrappers controller w c w1 →
     wrap_controller self (Some wrappers) controller w = (Ok c, w1)) ∧
  (∀ before (failing : Wrapper) after c w1 e w2,
     wrapped_in_order self before controller w c w1 →
     failing self c w1 = (Raise e, w2) →
     (e = KeyError →
      wrap_controller self (Some (before ++ failing :: after)) controller w
      = (Ok c, w2)) ∧
     (e ≠ KeyError →
      wrap_controller self (Some (before ++ failing :: after)) controller w
      = (Raise e, w2))) ∧
  (∀ before : list (Decoration → Callable → Callable),
     wrap_controller self (Some ((fun f => pure_wrapper f) <$> before)) controller w
     = (Ok (foldl (fun c f => f self c) controller before), w)) ∧
  (∀ wrappers w', wrap_controller self wrappers controller w ≠ (Raise KeyError, w')).
Proof.
  assert (Hall : ∀ wrappers c w1,
            wrapped_in_order self wrappers controller w c w1 →
            wrap_controller self (Some wrappers) controller w = (Ok c, w1)).
  { intros wrappers c w1 Horder. unfold wrap_controller.
    rewrite <- (app_nil_r wrappers).
    by rewrite (wrap_each_in_order self wrappers [] controller c w w1 Horder). }
  split; [done|]. split; [done|]. split; [|split].
  - intros before failing after c w1 e w2 Horder Hfail. unfold wrap_controller.
    rewrite (wrap_each_in_order self before _ controller c w w1 Horder).
    simpl. rewrite Hfail. split; [by intros ->|]. intros Hne. by destruct e.
  - intros before. apply Hall, pure_wrappers_in_order.
  - intros wrappers w'. unfold wrap_controller.
    destruct wrappers as [wrappers|]; [|done].
    destruct (wrap_each self wrappers controller w) as [c [[u|e] w'']]; [done|].
    destruct e; simpl; congruence.
Qed.

End wrap_controller_facts.

Section caching_facts.
Import Decorators.

(** X6: once [cached_property.__get__] has returned a value for an
    instance, the value is in the instance's [__dict__] under the
    property's name, the other attributes are as the function left them
    (untouched when the value was already stored), and every later
    access returns the same value without calling the function, whatever
    the function would do by then; when the function raises, the
    exception propagates and nothing is stored. *)
Theorem cached_property_computes_once (name : string)
    (func func' : Eff (gmap string PyVal) PyVal)
    (obj obj' : gmap string PyVal) (value : PyVal) :
  cached_property_get name func obj = (Ok value, obj') →
  cached_property_get name func' obj' = (Ok value, obj') ∧
  obj' !! name = Some value ∧
  (is_Some (obj !! name) → obj' = obj) ∧
  (obj !! name = None →
   ∃ obj1, func obj = (Ok value, obj1) ∧ obj' = <[name := value]> obj1) ∧
  (∀ e obj'', cached_property_get name func' obj' ≠ (Raise e, obj'')) ∧
  (∀ other other' e, other !! name = None → func other = (Raise e, other') →
                     cached_property_get name func other = (Raise e, other')).
Proof.
  unfold cached_property_get. intros Hget.
  assert (obj' !! name = Some value) as Hv.
  { destruct (obj !! name) as [v|] eqn:Hname; [by simplify_eq|].
    destruct (func obj) as [[v|e] obj1]; simplify_eq. apply lookup_insert_eq. }
  rewrite Hv. split; [done|]. split; [done|]. split; [|split; [|split; [done|]]].
  - intros [v Hname]. rewrite Hname in Hget. by simplify_eq.
  - intros Hname. rewrite Hname in Hget.
    destruct (func obj) as [[v|e] obj1]; simplify_eq. by eexists.
  - intros other other' e -> ->. done.
Qed.

(** X7: [postpone_commits] runs the function with the session's
    [commit] replaced by its [flush].  When the function returns, its
    value is returned and [commit] is the original one again, the other
    attributes being as the function left them; when the function raises,
    the exception propagates and [commit] is not restored; without a
    session or a [commit] attribute the assertion fails and the function
    is not run. *)
Theorem postpone_commits_restores (func : Eff (gmap string PyVal) PyVal)
    (s : gmap string PyVal) (old_commit flush : PyVal) :
  s !! "commit" = Some old_commit →
  s !! "flush" = Some flush →
  (∀ retval s', func (<["commit" := flush]> s) = (Ok retval, s') →
     ∃ final, postpone_commits func (Some s) = (Ok retval, Some final) ∧
              final !! "commit" = Some old_commit ∧
              ∀ k, k ≠ "commit" → final !! k = s' !! k) ∧
  (∀ e s', func (<["commit" := flush]> s) = (Raise e, s') →
     postpone_commits func (Some s) = (Raise e, Some s')) ∧
  (∀ e, func (<["commit" := flush]> s) = (Raise e, <["commit" := flush]> s) →
     ∃ final, postpone_commits func (Some s) = (Raise e, Some final) ∧
              final !! "commit" = Some flush) ∧
  postpone_commits func None = (Raise (OtherError "AssertionError"), None) ∧
  postpone_commits func (Some (delete "commit" s))
    = (Raise (OtherError "AssertionError"), Some (delete "commit" s)).
Proof.
  intros Hcommit Hflush. unfold postpone_commits. rewrite Hcommit, Hflush.
  split; [|split; [|split; [|split]]].
  - intros retval s' ->. eexists. split; [done|]. rewrite lookup_insert_eq.
    split; [done|]. intros k Hk. by rewrite lookup_insert_ne.
  - by intros e s' ->.
  - intros e ->. eexists. split; [done|]. by rewrite lookup_insert_eq.
  - done.
  - by rewrite lookup_delete_eq.
Qed.

End caching_facts.

Lemma cached_property_computes_once_witness :
  Decorators.cached_property_get "total" (ret (PyInt 3)) ∅
    = (Ok (PyInt 3), <["total" := PyInt 3]> ∅) ∧
  Decorators.cached_property_get "total" (ret (PyInt 4))
    (<["total" := PyInt 3]> ∅) = (Ok (PyInt 3), <["total" := PyInt 3]> ∅).
Proof.
  split; [reflexivity|].
  apply (cached_property_computes_once "total" (ret (PyInt 3))
           (ret (PyInt 4)) ∅ _ (PyInt 3)).
  reflexivity.
Defined.

Lemma postpone_commits_restores_witness :
  (<["commit" := PyObj "commit"]> (<["flush" := PyObj "flush"]> ∅) : gmap string PyVal)
    !! "commit" = Some (PyObj "commit") ∧
  Decorators.postpone_commits (fun s => (Raise ValueError, s))
    (Some (<["commit" := PyObj "commit"]> (<["flush" := PyObj "flush"]> ∅)))
  = (Raise ValueError,
     Some (<["commit" := PyObj "flush"]>
           (<["commit" := PyObj "commit"]> (<["flush" := PyObj "flush"]> ∅)))).
Proof.
  split; [reflexivity|].
  apply (postpone_commits_restores (fun s => (Raise ValueError, s))
           (<["commit" := PyObj "commit"]> (<["flush" := PyObj "flush"]> ∅))
           (PyObj "commit") (PyObj "flush")); reflexivity.
Defined.

Section custom_format_facts.
Import Decorators.

Variable best_match : list string → string → Result string.

(** X8: [use_custom_format] succeeds exactly for a custom format that
    an [expose] registered on the controller, and then changes nothing of
    the request (response type, headers, environ, paginators, template
    overrides, the formats chosen for other controllers) but the format
    chosen for this controller; for a format that is not the empty
    string, [lookup_template_engine] afterwards returns the content type,
    engine, template and excluded names registered for that format,
    whatever engines are registered, whatever the request accepts and
    whatever [Content-Type] or template override is in place.  For an
    unregistered format it raises [ValueError] and leaves the request as
    it was. *)
Theorem use_custom_format_selects (d : Decoration) (custom_format : string)
    (req : Request) (resp : Response) :
  (∀ content_type engine template exclude_names,
     custom_engines d !! custom_format
       = Some (content_type, engine, template, exclude_names) →
     ∃ req',
       use_custom_format (Some d) (controller d) custom_format req = (Ok tt, req') ∧
       response_type req' = response_type req ∧
       headers req' = headers req ∧
       environ req' = environ req ∧
       paginators req' = paginators req ∧
       _override_mapping req' = _override_mapping req ∧
       (∃ chosen', _render_custom_format req' = Some chosen' ∧
                   chosen' !! controller d = Some custom_format ∧
                   ∀ other, other ≠ controller d →
                            chosen' !! other
                            = default ∅ (_render_custom_format req) !! other) ∧
       (∀ chosen other, _render_custom_format req = Some chosen →
                        other ≠ controller d →
                        ∃ chosen', _render_custom_format req' = Some chosen' ∧
                                   chosen' !! other = chosen !! other) ∧
       (custom_format ≠ "" →
        lookup_template_engine best_match d req' resp
          = Ok (with_charset content_type, engine, template, exclude_names))) ∧
  (custom_engines d !! custom_format = None →
   use_custom_format (Some d) (controller d) custom_format req
     = (Raise ValueError, req)).
Proof.
  split.
  - intros content_type engine template exclude_names Hreg.
    unfold use_custom_format. rewrite bool_decide_eq_true_2 by (by eexists).
    eexists. split; [reflexivity|]. simpl.
    split; [done|]. split; [done|]. split; [done|]. split; [done|].
    split; [done|]. split; [|split].
    + eexists. split; [done|]. rewrite lookup_insert_eq. split; [done|].
      intros other Hne. by rewrite lookup_insert_ne.
    + intros chosen other -> Hne. eexists. split; [done|]. simpl.
      by rewrite lookup_insert_ne.
    + intros Hne. unfold lookup_template_engine, render_custom_format_of. simpl.
      rewrite lookup_insert_eq. simpl.
      apply String.eqb_neq in Hne. rewrite Hne. simpl.
      unfold getitem. by rewrite Hreg.
  - intros Hnone. unfold use_custom_format.
    rewrite bool_decide_eq_false_2; [done|]. rewrite Hnone. by intros [? ?].
Qed.

Lemma override_fold (func : positive) (template : string) (req : Request)
    (items : list (string * (PyVal * PyVal * PyVal))) :
  NoDup items.*1 →
  let req' := foldl (override_one func template) req items in
  response_type req' = response_type req ∧
  headers req' = headers req ∧
  _render_custom_format req' = _render_custom_format req ∧
  (items = [] → req' = req) ∧
  (items ≠ [] →
   ∃ mapping for_controller,
     _override_mapping req' = Some mapping ∧
     mapping !! func = Some for_controller ∧
     ∀ content_type engine template0 exclude_names,
       (content_type, (engine, template0, exclude_names)) ∈ items →
       for_controller !! content_type
         = Some (split_template template ++ [exclude_names])).
Proof.
  induction items as [|[ct [[e t] x]] items IH] using rev_ind; intros Hdup.
  - simpl. by repeat split.
  - rewrite fmap_app in Hdup. apply NoDup_app in Hdup as (Hdup & Hnot & _).
    specialize (IH Hdup). simpl in IH.
    destruct IH as (Hrt & Hh & Hrc & _ & Hmap).
    intros req'. unfold req'. rewrite foldl_snoc.
    set (prev := foldl (override_one func template) req items) in *.
    simpl. split; [done|]. split; [done|]. split; [done|].
    split; [intros Hnil; apply app_eq_nil in Hnil as [_ Hnil]; discriminate Hnil|].
    intros _. eexists _, _. split; [reflexivity|]. rewrite lookup_insert_eq.
    split; [reflexivity|].
    intros ct' e' t' x' [Hin|Hin]%elem_of_app.
    + assert (ct' ≠ ct) as Hne.
      { intros ->. eapply Hnot; [|by left]. simpl.
        apply list_elem_of_fmap. by exists (ct, (e', t', x')). }
      rewrite lookup_insert_ne by done.
      destruct items as [|item items']; [by apply elem_of_nil in Hin|].
      destruct Hmap as (mapping & for_controller & Hm & Hf & Hall); [done|].
      rewrite Hm. simpl. rewrite Hf. simpl. by eapply Hall.
    + apply list_elem_of_singleton in Hin. simplify_eq. by rewrite lookup_insert_eq.
Qed.

Lemma lookup_after_override (d : Decoration) (template : string) (req : Request)
    (resp : Response) (ct : string) (engine template0 exclude_names : PyVal) :
  nonempty (render_custom_format_of d req) = false →
  header_get (response_headers resp) "Content-Type" = None →
  select_content_type best_match d (accept_types_of d req) = Ok ct →
  engines d !! ct = Some (engine, template0, exclude_names) →
  before_semicolon ct = ct →
  lookup_template_engine best_match d
    (override_template (Some d) (controller d) template req) resp =
  match unpack3 (split_template template ++ [exclude_names]) with
  | Ok (engine', template', exclude_names') =>
      Ok (with_charset ct, engine', template', exclude_names')
  | Raise e => Raise e
  end.
Proof.
  intros Hcustom Hheader Hselect Hreg Hplain.
  pose proof (override_fold (controller d) template req (map_to_list (engines d))
                (NoDup_fst_map_to_list _)) as Hfold.
  simpl in Hfold. destruct Hfold as (Hrt & Hh & Hrc & _ & Hmap).
  destruct Hmap as (mapping & for_controller & Hm & Hf & Hall).
  { intros Hnil%map_to_list_empty_iff. by rewrite Hnil, lookup_empty in Hreg. }
  unfold override_template, lookup_template_engine.
  set (req' := foldl (override_one (controller d) template) req
                 (map_to_list (engines d))) in *.
  assert (render_custom_format_of d req' = render_custom_format_of d req) as ->.
  { unfold render_custom_format_of. by rewrite Hrc. }
  assert (accept_types_of d req' = accept_types_of d req) as ->.
  { unfold accept_types_of. by rewrite Hrt, Hh. }
  rewrite Hcustom, Hselect, Hheader, Hm, Hf, Hplain.
  rewrite (Hall ct engine template0 exclude_names); [|by apply elem_of_map_to_list].
  by destruct (unpack3 _) as [[[? ?] ?]|].
Qed.

Lemma split_once_colon (engine name : string) :
  (split_once ":" engine).2 = None →
  split_once ":" (engine ++ String ":" name) = (engine, Some name).
Proof.
  induction engine as [|c engine IH]; simpl; [done|].
  destruct (Ascii.eqb c ":"); [done|].
  destruct (split_once ":" engine) as [before after] eqn:Hs. simpl.
  intros ->. by rewrite IH.
Qed.

(** X9: after [override_template(controller, 'engine:name')], for a
    controller with no custom format in force and no [Content-Type]
    header on the response under any spelling of the name,
    [lookup_template_engine] returns the overriding
    engine and template name together with the excluded names registered
    for the selected content type, provided that content type is
    registered and carries no parameter after a semicolon. *)
Theorem override_template_round_trip (d : Decoration) (engine_name name : string)
    (req : Request) (resp : Response) (ct : string)
    (engine template0 exclude_names : PyVal) :
  (split_once ":" engine_name).2 = None →
  nonempty (render_custom_format_of d req) = false →
  header_get (response_headers resp) "Content-Type" = None →
  select_content_type best_match d (accept_types_of d req) = Ok ct →
  engines d !! ct = Some (engine, template0, exclude_names) →
  before_semicolon ct = ct →
  lookup_template_engine best_match d
    (override_template (Some d) (controller d)
       (engine_name ++ String ":" name) req) resp
  = Ok (with_charset ct, PyStr engine_name, PyStr name, exclude_names).
Proof.
  intros Hengine Hcustom Hheader Hselect Hreg Hplain.
  rewrite (lookup_after_override d _ req resp ct engine template0 exclude_names)
    by done.
  unfold split_template. by rewrite split_once_colon.
Qed.

Lemma split_once_none (template : string) :
  (split_once ":" template).2 = None → split_template template = [PyStr template].
Proof.
  unfold split_template. induction template as [|c template IH]; simpl; [done|].
  destruct (Ascii.eqb c ":"); [done|].
  destruct (split_once ":" template) as [before [after|]]; simpl; [done|].
  intros _. specialize (IH eq_refl). by simplify_eq.
Qed.

(** X10: after [override_template] with a template that names no
    engine (no colon), the override stored for every registered content
    type has two items, the template and the excluded names, instead of
    three, and with no custom format in force and no [Content-Type]
    header on the response under any spelling of the name,
    [lookup_template_engine] raises [ValueError] when it unpacks the
    override of the selected content type. *)
Theorem override_template_without_engine (d : Decoration) (template : string)
    (req : Request) (resp : Response) (ct : string)
    (engine template0 exclude_names : PyVal) :
  (split_once ":" template).2 = None →
  nonempty (render_custom_format_of d req) = false →
  header_get (response_headers resp) "Content-Type" = None →
  select_content_type best_match d (accept_types_of d req) = Ok ct →
  engines d !! ct = Some (engine, template0, exclude_names) →
  before_semicolon ct = ct →
  let req' := override_template (Some d) (controller d) template req in
  (∃ mapping for_controller,
     _override_mapping req' = Some mapping ∧
     mapping !! controller d = Some for_controller ∧
     ∀ content_type engine1 template1 excluded,
       engines d !! content_type = Some (engine1, template1, excluded) →
       for_controller !! content_type = Some [PyStr template; excluded]) ∧
  lookup_template_engine best_match d req' resp = Raise ValueError.
Proof.
  intros Htemplate Hcustom Hheader Hselect Hreg Hplain req'. split.
  - pose proof (override_fold (controller d) template req (map_to_list (engines d))
                  (NoDup_fst_map_to_list _)) as Hfold.
    simpl in Hfold. destruct Hfold as (_ & _ & _ & _ & Hmap).
    destruct Hmap as (mapping & for_controller & Hm & Hf & Hall).
    { intros Hnil%map_to_list_empty_iff. by rewrite Hnil, lookup_empty in Hreg. }
    exists mapping, for_controller. split; [done|]. split; [done|].
    intros content_type engine1 template1 excluded Hentry.
    rewrite (Hall content_type engine1 template1 excluded);
      [|by apply elem_of_map_to_list].
    by rewrite (split_once_none template Htemplate).
  - unfold req'.
    rewrite (lookup_after_override d _ req resp ct engine template0 exclude_names)
      by done.
    by rewrite (split_once_none template Htemplate).
Qed.

End custom_format_facts.

Lemma override_template_round_trip_witness :
  Decorators.engines Decorators.html_controller !! "text/html"
    = Some (PyStr "genshi", PyStr "pkg.templates.index", PyList []) ∧
  Decorators.lookup_template_engine (fun _ _ => Ok "")
    Decorators.html_controller
    (Decorators.override_template (Some Decorators.html_controller) 1%positive
       "mako:pkg.templates.other" Decorators.plain_request)
    Decorators.plain_response
  = Ok ("text/html; charset=utf-8", PyStr "mako", PyStr "pkg.templates.other",
        PyList []).
Proof.
  split; [vm_compute; reflexivity|].
  apply (override_template_round_trip (fun _ _ => Ok "") Decorators.html_controller
           "mako" "pkg.templates.other" Decorators.plain_request
           Decorators.plain_response "text/html"
           (PyStr "genshi") (PyStr "pkg.templates.index") (PyList []));
    vm_compute; reflexivity.
Defined.

Lemma override_template_without_engine_witness :
  (Decorators.split_once ":" "pkg.templates.other").2 = None ∧
  Decorators.lookup_template_engine (fun _ _ => Ok "")
    Decorators.html_controller
    (Decorators.override_template (Some Decorators.html_controller) 1%positive
       "pkg.templates.other" Decorators.plain_request)
    Decorators.plain_response
  = Raise ValueError.
Proof.
  split; [reflexivity|].
  refine (proj2 (override_template_without_engine (fun _ _ => Ok "")
                   Decorators.html_controller "pkg.templates.other"
                   Decorators.plain_request Decorators.plain_response "text/html"
                   (PyStr "genshi") (PyStr "pkg.templates.index") (PyList [])
                   _ _ _ _ _ _));
    vm_compute; reflexivity.
Defined.

Section expose_facts.
Import Decorators.

Lemma existsb_py_eq_str_elem (s : string) (l : list PyVal) :
  existsb (py_eq_str s) l = true ↔ PyStr s ∈ l.
Proof.
  rewrite existsb_exists. split.
  - intros (x & Hin & Hx). destruct x; try discriminate.
    apply String.eqb_eq in Hx. subst. by apply list_elem_of_In.
  - intros Hin. exists (PyStr s). split; [by apply list_elem_of_In|].
    simpl. apply String.eqb_refl.
Qed.

(** X11: when [expose.__init__] succeeds with a list of excluded names,
    the resulting excluded names keep every given name in order; for the
    engines ['json'] and ['amf'] they contain ['tmpl_context'], appended
    only when it was not given, and for every other engine they are the
    given list.  The content type is the given one, and by default
    ['application/json'] for the engine ['json'] and ['text/html'] for
    every other engine. *)
Theorem expose_init_excludes_tmpl_context (config : gmap string PyVal)
    (template : string) (content_type : option string) (names : list PyVal)
    (custom_format : option string) (self : Expose) :
  expose_init config template content_type (PyList names) custom_format = Ok self →
  let special := py_eq_str "json" (expose_engine self)
                 || py_eq_str "amf" (expose_engine self) in
  (special = true →
   PyStr "tmpl_context" ∈ names → expose_exclude_names self = PyList names) ∧
  (special = true →
   PyStr "tmpl_context" ∉ names →
   expose_exclude_names self = PyList (names ++ [PyStr "tmpl_context"])) ∧
  (special = false → expose_exclude_names self = PyList names) ∧
  (∀ given, content_type = Some given → expose_content_type self = given) ∧
  (content_type = None →
   expose_content_type self =
     if py_eq_str "json" (expose_engine self) then "application/json"
     else "text/html") ∧
  expose_custom_format self = custom_format.
Proof.
  unfold expose_init.
  destruct (py_in template _) as [is_renderer|e]; [|done].
  match goal with |- context [match ?c with Ok _ => _ | Raise _ => _ end] =>
    destruct c as [[engine template']|e] end; [|done].
  destruct (py_eq_str "json" engine || py_eq_str "amf" engine) eqn:Hspecial.
  - simpl. destruct (existsb (py_eq_str "tmpl_context") names) eqn:Hin; simpl.
    + intros [= <-]. simpl. rewrite Hspecial.
      apply existsb_py_eq_str_elem in Hin.
      split; [done|]. split; [by intros _ Hnot|]. split; [done|].
      split; [by intros given ->|]. split; [by intros ->|done].
    + intros [= <-]. simpl. rewrite Hspecial.
      apply not_true_iff_false in Hin. rewrite existsb_py_eq_str_elem in Hin.
      split; [by intros _ Helem|]. split; [done|]. split; [done|].
      split; [by intros given ->|]. split; [by intros ->|done].
  - intros [= <-]. simpl. rewrite Hspecial.
    split; [done|]. split; [done|]. split; [done|].
    split; [by intros given ->|]. split; [by intros ->|done].
Qed.

(** X12: excluded names given as a string, as in
    [@expose('json', exclude_names='d')], make [expose.__init__] raise
    [AttributeError] for the renderers ['json'] and ['amf'] whenever the
    string does not contain ['tmpl_context']: the name cannot be
    appended to a string. *)
Theorem expose_init_string_exclude_names (config : gmap string PyVal)
    (template names : string) (content_type custom_format : option string) :
  py_in template (default (PyList []) (config !! "renderers")) = Ok true →
  template = "json" ∨ template = "amf" →
  contains "tmpl_context" names = false →
  expose_init config template content_type (PyStr names) custom_format
    = Raise AttributeError.
Proof.
  intros Hin Htemplate Hnames. unfold expose_init. rewrite Hin.
  destruct Htemplate as [-> | ->]; simpl; by rewrite Hnames.
Qed.


End expose_facts.

Lemma expose_init_excludes_tmpl_context_witness :
  Decorators.expose_init (<["renderers" := PyList [PyStr "json"; PyStr "genshi"]]> ∅)
    "json" None (PyList [PyStr "d"]) None
  = Ok {| Decorators.expose_engine := PyStr "json";
          Decorators.expose_template := PyStr "";
          Decorators.expose_content_type := "application/json";
          Decorators.expose_exclude_names := PyList [PyStr "d"; PyStr "tmpl_context"];
          Decorators.expose_custom_format := None |} ∧
  Decorators.expose_exclude_names
    {| Decorators.expose_engine := PyStr "json";
       Decorators.expose_template := PyStr "";
       Decorators.expose_content_type := "application/json";
       Decorators.expose_exclude_names := PyList [PyStr "d"; PyStr "tmpl_context"];
       Decorators.expose_custom_format := None |}
  = PyList ([PyStr "d"] ++ [PyStr "tmpl_context"]).
Proof.
  split; [reflexivity|].
  apply (expose_init_excludes_tmpl_context
           (<["renderers" := PyList [PyStr "json"; PyStr "genshi"]]> ∅)
           "json" None [PyStr "d"] None).
  - reflexivity.
  - reflexivity.
  - intros Hin. apply elem_of_cons in Hin as [Hin|Hin]; [discriminate Hin|].
    by apply elem_of_nil in Hin.
Defined.

Lemma expose_init_string_exclude_names_witness :
  Decorators.py_in "json"
    (default (PyList [])
       ((<["renderers" := PyList [PyStr "json"; PyStr "genshi"]]> ∅
         : gmap string PyVal) !! "renderers")) = Ok true ∧
  Decorators.expose_init (<["renderers" := PyList [PyStr "json"; PyStr "genshi"]]> ∅)
    "json" None (PyStr "d") None = Raise AttributeError.
Proof.
  split; [reflexivity|].
  apply (expose_init_string_exclude_names
           (<["renderers" := PyList [PyStr "json"; PyStr "genshi"]]> ∅)
           "json" "d" None None); [reflexivity|by left|reflexivity].
Defined.

Section decorator_facts.
Import Decorators.

(** A decorator that looks up the decoration of a function and calls
    one method on it. *)
Lemma decorator_run (r r1 : Registry) (func dec : positive) (d0 d' : Decoration)
    (method : Decoration → Result Decoration) :
  get_decoration func r = (Ok dec, r1) →
  heap r1 !! dec = Some d0 →
  method d0 = Ok d' →
  (let! deco := get_decoration func in
   do! on_decoration deco method in
   ret func)%eff r
  = (Ok func, {| decoration_attr := decoration_attr r1;
                 heap := <[dec := d']> (heap r1) |}).
Proof.
  intros Hget Hd0 Hm. unfold bind, on_decoration. by rewrite Hget, Hd0, Hm.
Qed.

Lemma decorator_run_twice (r r1 : Registry) (func dec : positive)
    (d0 d1 d2 : Decoration) (first second : Decoration → Result Decoration) :
  get_decoration func r = (Ok dec, r1) →
  decoration_attr r1 !! func = Some dec →
  heap r1 !! dec = Some d0 →
  first d0 = Ok d1 →
  second d1 = Ok d2 →
  (do! (let! deco := get_decoration func in
        do! on_decoration deco first in
        ret func) in
   let! deco := get_decoration func in
   do! on_decoration deco second in
   ret func)%eff r
  = (Ok func, {| decoration_attr := decoration_attr r1;
                 heap := <[dec := d2]> (heap r1) |}).
Proof.
  intros Hget Hattr Hd0 Hfirst Hsecond. unfold bind at 1.
  rewrite (decorator_run r r1 func dec d0 d1 first Hget Hd0 Hfirst).
  cbv beta iota.
  set (r2 := {| decoration_attr := decoration_attr r1;
                heap := <[dec := d1]> (heap r1) |}).
  rewrite (decorator_run r2 r2 func dec d1 d2 second
             (get_decoration_known r2 func dec Hattr)
             (lookup_insert_eq _ _ _) Hsecond).
  simpl. by rewrite insert_insert_eq.
Qed.


(** X15: the order in which [validate] and another decorator are
    stacked on a function does not matter.  In the registry left by any
    sequence of decorator operations, applying a [validate] and an
    [expose] in either order gives the same registry, and so does
    applying a [validate] and a hook decorator whose hook name the
    decoration of the function has a list for. *)
Theorem validate_commutes (ops : list RegistryOp) (func : positive) (v : Validate) :
  let r := run_ops ops in
  (∀ e : Expose,
     (do! validate_call v func in expose_call e func)%eff r
     = (do! expose_call e func in validate_call v func)%eff r) ∧
  (∀ hook_name hook_func dec r1 d0 own,
     get_decoration func r = (Ok dec, r1) →
     heap r1 !! dec = Some d0 →
     hooks d0 !! hook_name = Some own →
     (do! validate_call v func in hook_decorator_call hook_name hook_func func)%eff r
     = (do! hook_decorator_call hook_name hook_func func in validate_call v func)%eff r).
Proof.
  intros r. pose proof (run_ops_wf ops) as Hwf. fold r in Hwf.
  destruct (get_decoration_spec r func Hwf)
    as (dec & r1 & Hget & [Hheap1 _] & Hattr1 & _).
  destruct (Hheap1 func dec Hattr1) as [d0 Hd0].
  split.
  - intros e. unfold validate_call, expose_call.
    erewrite (decorator_run_twice r r1 func dec d0); [|done..].
    erewrite (decorator_run_twice r r1 func dec d0); [|done..].
    by destruct (nonempty (expose_custom_format e)).
  - intros hook_name hook_func dec' r1' d0' own Hget' Hd0' Hown.
    rewrite Hget in Hget'. injection Hget' as <- <-.
    rewrite Hd0 in Hd0'. injection Hd0' as <-.
    unfold validate_call, hook_decorator_call.
    erewrite (decorator_run_twice r r1 func dec d0); [|try done..].
    2: { unfold register_hook, getitem. simpl. by rewrite Hown. }
    erewrite (decorator_run_twice r r1 func dec d0); [|try done..].
    2: { unfold register_hook, getitem. by rewrite Hown. }
    done.
Qed.

End decorator_facts.

(** ** The hooks https, without_trailing_slash and with_trailing_slash *)

Section redirect_facts.
Import Decorators.

Lemma string_drop_app (s rest : string) :
  string_drop (String.length s) (s ++ rest)%string = rest.
Proof. induction s as [|c s IH]; simpl; [by destruct rest|done]. Qed.

Lemma ends_with_slash_app (s : string) : ends_with_slash (s ++ "/")%string = true.
Proof.
  induction s as [|c s IH]; simpl; [done|].
  destruct (s ++ "/")%string eqn:Hs; [by destruct s|done].
Qed.

Lemma drop_last_app (s : string) : drop_last (s ++ "/")%string = s.
Proof.
  induction s as [|c s IH]; simpl; [done|].
  destruct (s ++ "/")%string eqn:Hs; [by destruct s|]. by rewrite IH.
Qed.

Variable redirect : string → Eff World PyVal.

(** X16: for a request whose scheme is not [https] in any letter case,
    the hook [https] never returns, whatever [redirect] does: for a
    method other than [GET] in any letter case it raises the 405 error
    allowing [GET] and leaves the world alone, without calling
    [redirect]; for [GET] it calls [redirect] once, with ['https'] in
    place of the scheme at the start of the URL, and raises what
    [redirect] raises, or the 405 error in case [redirect] returns. *)
Theorem https_never_returns (req : RequestLine) (w : World) :
  String.eqb (lower (scheme req)) "https" = false →
  (∃ e w', https redirect req w = (Raise e, w')) ∧
  (String.eqb (upper (method req)) "GET" = false →
   https redirect req w = (Raise method_not_allowed, w)) ∧
  (∀ rest, String.eqb (upper (method req)) "GET" = true →
     url req = (scheme req ++ rest)%string →
     https redirect req w =
       match redirect ("https" ++ rest)%string w with
       | (Ok _, w') => (Raise method_not_allowed, w')
       | (Raise e, w') => (Raise e, w')
       end).
Proof.
  intros Hscheme. unfold https. rewrite Hscheme. unfold bind, raise.
  destruct (String.eqb (upper (method req)) "GET") eqn:Hmethod.
  - split; [|split; [done|]].
    + destruct (redirect _ w) as [[v|e] w']; eauto.
    + intros rest _ Hurl. by rewrite Hurl, string_drop_app.
  - split; [by eexists _, _|]. split; [done|]. intros rest Hget. done.
Qed.

(** X17: [with_trailing_slash] and [without_trailing_slash] never both
    redirect the same request: one of them returns [None] and leaves the
    world alone.  Neither redirects a request that is not a [GET], that
    has parameters or that has a response type; every other request is
    redirected by exactly one of them, to the URL without its last
    character when the path ends in a slash and to the URL followed by a
    slash otherwise. *)
Theorem trailing_slash_exclusive (req : RequestLine) (w : World) :
  (with_trailing_slash redirect req w = (Ok PyNone, w) ∨
   without_trailing_slash redirect req w = (Ok PyNone, w)) ∧
  (String.eqb (method req) "GET" = false ∨
   nonempty (line_response_type req) = true ∨
   request_params req ≠ ∅ →
   with_trailing_slash redirect req w = (Ok PyNone, w) ∧
   without_trailing_slash redirect req w = (Ok PyNone, w)) ∧
  (String.eqb (method req) "GET" = true →
   nonempty (line_response_type req) = false →
   request_params req = ∅ →
   if ends_with_slash (path req)
   then without_trailing_slash redirect req w
        = (do! redirect (drop_last (url req)) in ret PyNone)%eff w
   else with_trailing_slash redirect req w
        = (do! redirect (url req ++ "/")%string in ret PyNone)%eff w).
Proof.
  unfold with_trailing_slash, without_trailing_slash.
  destruct (String.eqb (method req) "GET") eqn:Hmethod; simpl.
  2: { split; [by left|]. split; [done|]. intros [=]. }
  destruct (nonempty (line_response_type req)) eqn:Htype; simpl.
  { rewrite !andb_false_r. simpl. split; [by left|]. split; [done|]. intros _ [=]. }
  rewrite !andb_true_r.
  destruct (decide (request_params req = ∅)) as [Hparams|Hparams].
  - rewrite Hparams, map_size_empty. simpl. rewrite !andb_true_r.
    destruct (ends_with_slash (path req)); simpl.
    + split; [by left|]. split; [|done]. intros [[=]|[[=]|Hne]]. done.
    + split; [by right|]. split; [|done]. intros [[=]|[[=]|Hne]]. done.
  - rewrite (bool_decide_eq_false_2 (size (request_params req) = 0%nat)).
    2: { intros Hsize. by apply Hparams, map_size_empty_iff. }
    rewrite !andb_false_r. split; [by left|]. split; [done|]. done.
Qed.

(** X18: the request [with_trailing_slash] redirects to is settled: for
    a [GET] request without parameters and response type whose path
    does not end in a slash, the hook calls [redirect] with the URL
    followed by a slash, and the same request for that URL and path
    is not redirected by it again; [without_trailing_slash] sends this
    second request back to the first URL. *)
Theorem with_trailing_slash_settles (req : RequestLine) (w : World) :
  String.eqb (method req) "GET" = true →
  nonempty (line_response_type req) = false →
  request_params req = ∅ →
  ends_with_slash (path req) = false →
  let req' := {| scheme := scheme req; method := method req;
                 path := (path req ++ "/")%string; url := (url req ++ "/")%string;
                 request_params := request_params req;
                 line_response_type := line_response_type req |} in
  with_trailing_slash redirect req w
    = (do! redirect (url req') in ret PyNone)%eff w ∧
  with_trailing_slash redirect req' w = (Ok PyNone, w) ∧
  without_trailing_slash redirect req' w
    = (do! redirect (url req) in ret PyNone)%eff w.
Proof.
  intros Hmethod Htype Hparams Hpath req'.
  unfold with_trailing_slash, without_trailing_slash. simpl.
  rewrite Hmethod, Htype, Hparams, Hpath, map_size_empty, ends_with_slash_app.
  simpl. by rewrite drop_last_app.
Qed.

End redirect_facts.

Lemma https_never_returns_witness :
  String.eqb (lower "HTTP") "https" = false ∧
  Decorators.https Decorators.redirect_found
    {| Decorators.scheme := "HTTP"; Decorators.method := "get";
       Decorators.path := "/login"; Decorators.url := "HTTP://localhost:8080/login";
       Decorators.request_params := ∅; Decorators.line_response_type := None |}
    Decorators.example_world
  = (Raise (HTTPError 302 "https://localhost:8080/login" ""), Decorators.example_world).
Proof.
  split; [reflexivity|].
  destruct (https_never_returns Decorators.redirect_found
           {| Decorators.scheme := "HTTP"; Decorators.method := "get";
              Decorators.path := "/login"; Decorators.url := "HTTP://localhost:8080/login";
              Decorators.request_params := ∅; Decorators.line_response_type := None |}
           Decorators.example_world eq_refl) as (_ & _ & Hget).
  apply (Hget "://localhost:8080/login" eq_refl eq_refl).
Defined.

Lemma with_trailing_slash_settles_witness :
  Decorators.with_trailing_slash Decorators.redirect_found
    {| Decorators.scheme := "http"; Decorators.method := "GET";
       Decorators.path := "/sample/"; Decorators.url := "http://localhost:8080/sample/";
       Decorators.request_params := ∅; Decorators.line_response_type := None |}
    Decorators.example_world
  = (Ok PyNone, Decorators.example_world).
Proof.
  destruct (with_trailing_slash_settles Decorators.redirect_found
           {| Decorators.scheme := "http"; Decorators.method := "GET";
              Decorators.path := "/sample"; Decorators.url := "http://localhost:8080/sample";
              Decorators.request_params := ∅; Decorators.line_response_type := None |}
           Decorators.example_world eq_refl eq_refl eq_refl eq_refl)
    as (_ & Hsettled & _).
  exact Hsettled.
Defined.

(** ** Several paginate decorators on one action *)

Section paginate_stacking.
Import Decorators.

(** X19: when two [paginate] decorators of one action read the same
    request parameters (as two decorators without [use_prefix] do), the
    [before_validate] that runs first removes them, and the one that runs
    second always shows page 1 with its configured number of items,
    whatever the request asked for. *)
Theorem paginate_shared_parameters (first second : Paginate) (s s1 s2 : PagState) :
  page_param second = page_param first →
  items_per_page_param second = items_per_page_param first →
  before_validate first s = (Ok tt, s1) →
  before_validate second s1 = (Ok tt, s2) →
  paginator_attr s2 (name second) "paginate_page" = Some (PyInt 1) ∧
  paginator_attr s2 (name second) "paginate_items_per_page"
    = Some (PyInt (items_per_page second)).
Proof.
  intros Hpage Hitems Hfirst Hsecond.
  pose proof (before_validate_wp first s) as Hwp1. simpl in Hwp1.
  eapply wp_result in Hwp1; [|done]. destruct Hwp1 as [Hparams1 _].
  pose proof (before_validate_wp second s1) as Hwp2. simpl in Hwp2.
  eapply wp_result in Hwp2; [|done].
  destruct Hwp2 as (_ & page & items & Hp & Hi & -> & ->).
  rewrite Hpage, Hparams1 in Hp. rewrite Hpage, Hitems, Hparams1 in Hi.
  assert (Hnone_page :
    dict_get (delete (items_per_page_param first)
                (delete (page_param first) (params s))) (page_param first) = PyNone).
  { unfold dict_get.
    destruct (decide (items_per_page_param first = page_param first)) as [->|Hne].
    - by rewrite lookup_delete_eq.
    - by rewrite lookup_delete_ne, lookup_delete_eq. }
  assert (Hnone_items :
    dict_get (delete (page_param first)
                (delete (items_per_page_param first)
                   (delete (page_param first) (params s))))
      (items_per_page_param first) = PyNone).
  { unfold dict_get.
    destruct (decide (page_param first = items_per_page_param first)) as [Heq|Hne].
    - rewrite <- Heq. by rewrite lookup_delete_eq.
    - by rewrite lookup_delete_ne, lookup_delete_eq. }
  rewrite Hnone_page in Hp. rewrite Hnone_items in Hi.
  specialize (Hp s). specialize (Hi s).
  unfold page_of, items_per_page_of, ret in Hp, Hi. simpl in Hp, Hi.
  by simplify_eq.
Qed.

(** X20: when the parameters of a second [paginate] differ from the
    parameters of the first (as with [use_prefix] and suitable names),
    the [before_validate] of the second, run after the first, computes its
    page and its number of items from the parameters of the original
    request, and afterwards the parameters of both decorators are gone
    from [params] while every other parameter is untouched. *)
Theorem paginate_independent_parameters (first second : Paginate) (s s1 s2 : PagState) :
  page_param second ≠ page_param first →
  page_param second ≠ items_per_page_param first →
  items_per_page_param second ≠ page_param first →
  items_per_page_param second ≠ items_per_page_param first →
  before_validate first s = (Ok tt, s1) →
  before_validate second s1 = (Ok tt, s2) →
  (∃ page items,
     page_of (dict_get (params s) (page_param second)) s = (Ok page, s) ∧
     items_per_page_of second
       (dict_get (delete (page_param second) (params s)) (items_per_page_param second)) s
       = (Ok items, s) ∧
     paginator_attr s2 (name second) "paginate_page" = Some (PyInt page) ∧
     paginator_attr s2 (name second) "paginate_items_per_page" = Some (PyInt items)) ∧
  (∀ k, k ∈ [page_param first; items_per_page_param first;
             page_param second; items_per_page_param second] →
        params s2 !! k = None) ∧
  (∀ k, k ∉ [page_param first; items_per_page_param first;
             page_param second; items_per_page_param second] →
        params s2 !! k = params s !! k).
Proof.
  intros Hpp Hpi Hip Hii Hfirst Hsecond.
  pose proof (before_validate_wp first s) as Hwp1. simpl in Hwp1.
  eapply wp_result in Hwp1; [|done]. destruct Hwp1 as [Hparams1 _].
  pose proof (before_validate_wp second s1) as Hwp2. simpl in Hwp2.
  eapply wp_result in Hwp2; [|done].
  destruct Hwp2 as (Hparams2 & page & items & Hp & Hi & Hattr_page & Hattr_items).
  split; [|split].
  - exists page, items. rewrite <- (Hp s), <- (Hi s), Hparams1.
    split; [|split; [|done]].
    + f_equal. unfold dict_get. by rewrite !lookup_delete_ne.
    + f_equal. unfold dict_get.
      destruct (decide (page_param second = items_per_page_param second)) as [Heq|Hne].
      * rewrite <- Heq. by rewrite !lookup_delete_eq.
      * by rewrite !(lookup_delete_ne _ (page_param second)),
                   !(lookup_delete_ne _ (items_per_page_param first)),
                   !(lookup_delete_ne _ (page_param first)).
  - intros k Hk. rewrite Hparams2, Hparams1.
    repeat (apply elem_of_cons in Hk as [->|Hk]); [..|by apply elem_of_nil in Hk].
    all: rewrite !lookup_delete_Some || apply lookup_delete_None.
    all: rewrite ?lookup_delete_None; tauto.
  - intros k Hk. rewrite Hparams2, Hparams1.
    rewrite !lookup_delete_ne; [done|..].
    all: intros <-; apply Hk; repeat constructor.
Qed.

End paginate_stacking.

Lemma paginate_shared_parameters_witness :
  (Decorators.before_validate (Decorators.paginate_init "users" false 10 0)
     Decorators.example_state).1 = Ok tt ∧
  (Decorators.before_validate (Decorators.paginate_init "posts" false 20 0)
     (Decorators.before_validate (Decorators.paginate_init "users" false 10 0)
        Decorators.example_state).2).1 = Ok tt ∧
  Decorators.paginator_attr
    (Decorators.before_validate (Decorators.paginate_init "posts" false 20 0)
       (Decorators.before_validate (Decorators.paginate_init "users" false 10 0)
          Decorators.example_state).2).2
    "posts" "paginate_page" = Some (PyInt 1).
Proof.
  split; [vm_compute; reflexivity|]. split; [vm_compute; reflexivity|].
  refine (proj1 (paginate_shared_parameters
                   (Decorators.paginate_init "users" false 10 0)
                   (Decorators.paginate_init "posts" false 20 0)
                   Decorators.example_state _ _ eq_refl eq_refl _ _)).
  - vm_compute; reflexivity.
  - vm_compute; reflexivity.
Defined.

Lemma paginate_independent_parameters_witness :
  (Decorators.before_validate (Decorators.paginate_init "users" true 10 50)
     Decorators.two_collections_state).1 = Ok tt ∧
  (Decorators.before_validate (Decorators.paginate_init "posts" true 20 50)
     (Decorators.before_validate (Decorators.paginate_init "users" true 10 50)
        Decorators.two_collections_state).2).1 = Ok tt ∧
  Decorators.params
    (Decorators.before_validate (Decorators.paginate_init "posts" true 20 50)
       (Decorators.before_validate (Decorators.paginate_init "users" true 10 50)
          Decorators.two_collections_state).2).2 !! "q"
  = Decorators.params Decorators.two_collections_state !! "q".
Proof.
  split; [vm_compute; reflexivity|]. split; [vm_compute; reflexivity|].
  refine (proj2 (proj2 (paginate_independent_parameters
                   (Decorators.paginate_init "users" true 10 50)
                   (Decorators.paginate_init "posts" true 20 50)
                   Decorators.two_collections_state _ _ _ _ _ _ _ _)) "q" _).
  - intros Heq. vm_compute in Heq. discriminate Heq.
  - intros Heq. vm_compute in Heq. discriminate Heq.
  - intros Heq. vm_compute in Heq. discriminate Heq.
  - intros Heq. vm_compute in Heq. discriminate Heq.
  - vm_compute; reflexivity.
  - vm_compute; reflexivity.
  - intros Hin. vm_compute in Hin.
    repeat (apply elem_of_cons in Hin as [Hin|Hin]; [discriminate Hin|]).
    by apply elem_of_nil in Hin.
Defined.

(** ** The ToscaWidgets2 step, before configuration and when the
    application is ready *)

Section tw2_step_facts.
Import ToscaWidgets2.

Variable preferred_rendering_engines : list string.
Variable set_order : gset string → list string.

(** X21: the before-config action of the ToscaWidgets2 step changes
    nothing of the configuration but ['tw2.enabled'], never turns an
    enabled ToscaWidgets2 off, sets ['tw2.enabled'] to [True] exactly
    when one of the two legacy options is true, and running it twice is
    running it once. *)
Theorem configure_tw2_enabled (conf : gmap string PyVal) :
  (∀ k, k ≠ "tw2.enabled" → _configure conf !! k = conf !! k) ∧
  (truthy (dict_get conf "tw2.enabled") = true →
   truthy (dict_get (_configure conf) "tw2.enabled") = true) ∧
  (truthy (dict_get conf "prefer_toscawidgets2") = true ∨
   truthy (dict_get conf "use_toscawidgets2") = true →
   _configure conf !! "tw2.enabled" = Some (PyBool true)) ∧
  (truthy (dict_get conf "prefer_toscawidgets2") = false →
   truthy (dict_get conf "use_toscawidgets2") = false →
   _configure conf = conf) ∧
  _configure (_configure conf) = _configure conf.
Proof.
  unfold _configure.
  destruct (truthy (dict_get conf "prefer_toscawidgets2")) eqn:Hprefer;
    destruct (truthy (dict_get conf "use_toscawidgets2")) eqn:Huse; simpl.
  4: { rewrite Hprefer, Huse. simpl. repeat split; try done. by intros [[=]|[=]]. }
  all: split; [by intros k Hk; rewrite lookup_insert_ne|].
  all: split; [by unfold dict_get; rewrite lookup_insert_eq|].
  all: split; [by rewrite lookup_insert_eq|].
  all: split; [done|].
  all: unfold dict_get; repeat (rewrite lookup_insert_ne by done).
  all: unfold dict_get in Hprefer, Huse; rewrite Hprefer, Huse; simpl.
  all: by rewrite insert_insert_eq.
Qed.

(** X22: [_add_middleware] never reads ['tw2.enabled']: it builds the
    same middleware, or raises the same error, whatever that option is,
    and so whether or not the before-config action of the step has run
    before it. *)
Theorem add_middleware_ignores_enabled (conf : gmap string PyVal) (app : App) :
  (∀ v, _add_middleware preferred_rendering_engines set_order
          (<["tw2.enabled" := v]> conf) app
        = _add_middleware preferred_rendering_engines set_order conf app) ∧
  _add_middleware preferred_rendering_engines set_order (_configure conf) app
  = _add_middleware preferred_rendering_engines set_order conf app.
Proof.
  assert (Hany : ∀ v, _add_middleware preferred_rendering_engines set_order
                        (<["tw2.enabled" := v]> conf) app
                      = _add_middleware preferred_rendering_engines set_order conf app).
  { intros v. unfold _add_middleware, dict_get, getitem.
    by repeat (rewrite lookup_insert_ne by done). }
  split; [done|]. unfold _configure. by destruct (_ || _).
Qed.

(** X23: without a ['debug'] entry in the configuration
    [_add_middleware] never builds a middleware: when the renderers can
    be made a set that shares an engine with the engines ToscaWidgets2
    prefers, it raises [KeyError], and otherwise the error of the earlier
    step. *)
Theorem add_middleware_requires_debug (conf : gmap string PyVal) (app : App) :
  conf !! "debug" = None →
  (∃ e, _add_middleware preferred_rendering_engines set_order conf app = Raise e) ∧
  (∀ available,
     str_set (default (PyList []) (conf !! "renderers")) = Ok available →
     shared_with preferred_rendering_engines set_order available ≠ [] →
     _add_middleware preferred_rendering_engines set_order conf app = Raise KeyError).
Proof.
  intros Hdebug. unfold _add_middleware, getitem. rewrite Hdebug.
  destruct (str_set _) as [available|e]; [|split; [by eexists|done]].
  destruct (shared_with _ _ available) as [|first rest] eqn:Hshared.
  - split; [by eexists|]. by intros available' [= <-] Hne.
  - assert (∀ (p : list PyVal * PyVal),
              (let '(tw2_engines, tw2_default_engine) := p in
               @Raise App KeyError) = Raise KeyError) as Hpair by (by intros [? ?]).
    split; [eexists; apply Hpair|].
    intros available' [= <-] _. apply Hpair.
Qed.

End tw2_step_facts.

Lemma configure_tw2_enabled_witness :
  truthy (dict_get (<["use_toscawidgets2" := PyBool true]> ToscaWidgets2.get_defaults)
            "use_toscawidgets2") = true ∧
  ToscaWidgets2._configure
    (<["use_toscawidgets2" := PyBool true]> ToscaWidgets2.get_defaults)
    !! "tw2.enabled" = Some (PyBool true).
Proof.
  split; [reflexivity|].
  destruct (configure_tw2_enabled
              (<["use_toscawidgets2" := PyBool true]> ToscaWidgets2.get_defaults))
    as (_ & _ & Henabled & _).
  apply Henabled. right. reflexivity.
Defined.

Lemma add_middleware_requires_debug_witness :
  (delete "debug" ToscaWidgets2.conf_plain : gmap string PyVal) !! "debug" = None ∧
  ToscaWidgets2._add_middleware ToscaWidgets2.tw2_preferred elements
    (delete "debug" ToscaWidgets2.conf_plain) (ToscaWidgets2.WsgiApp "app")
  = Raise KeyError.
Proof.
  assert (Hdebug : (delete "debug" ToscaWidgets2.conf_plain : gmap string PyVal)
                     !! "debug" = None) by apply lookup_delete_eq.
  split; [exact Hdebug|].
  destruct (add_middleware_requires_debug ToscaWidgets2.tw2_preferred elements
              (delete "debug" ToscaWidgets2.conf_plain) (ToscaWidgets2.WsgiApp "app")
              Hdebug) as [_ Hkey].
  apply (Hkey (list_to_set ["json"; "genshi"; "mako"])).
  - reflexivity.
  - intros Hnil. vm_compute in Hnil. discriminate Hnil.
Defined.

(** ** A require with its default denial handler *)

Section require_default_facts.
Import Decorators.

(** X24: for a [require] built without a denial handler, a predicate
    that raises [NotAuthorizedError] ends the call with the HTTP error of
    the status code (403 for an authenticated user, 401 otherwise)
    carrying the reason: the response status is set to the code, the
    reason is flashed once, as an error for 403 and as a warning for 401,
    the request is left alone and the action is not called.  Whatever
    denial handler a [require] is built with, [wrap_action] never reaches
    its own call of [abort]; and an exception of the predicate other than
    [NotAuthorizedError] propagates before anything else is done. *)
Theorem require_default_denial (check : Eff World unit) (action_ : Callable)
    (args : list PyVal) (kwargs : gmap string PyVal) (w w1 : World) (reason : string) :
  check w = (Raise (NotAuthorizedError reason), w1) →
  let code := if authenticated w1 then 403 else 401 in
  (∃ w2,
     wrap_action (require_init check None) action_ args kwargs (start w)
     = (Raise (HTTPError code reason ""),
        {| world := w2;
           trace := [CheckAuthorization; SetStatus code; CallDenialHandler reason] |}) ∧
     status_int (response w2) = code ∧
     flashed w2 = flashed w1 ++ [(reason, if authenticated w1 then "error" else "warning")] ∧
     request w2 = request w1 ∧
     store w2 = store w1) ∧
  (∀ handler other_check w0 c r,
     CallAbort c r ∉
       trace (wrap_action (require_init other_check handler) action_ args kwargs
                (start w0)).2) ∧
  (∀ handler other_check w0 e w',
     other_check w0 = (Raise e, w') →
     (∀ r, e ≠ NotAuthorizedError r) →
     wrap_action (require_init other_check handler) action_ args kwargs (start w0)
     = (Raise e, {| world := w'; trace := [CheckAuthorization] |})).
Proof.
  intros Hcheck code. split; [|split].
  - unfold wrap_action, step, require_init. simpl. rewrite Hcheck. simpl.
    unfold bind. simpl. eexists. split; [reflexivity|]. simpl.
    split; [done|]. split; [|done]. by destruct (authenticated w1).
  - intros handler other_check w0 c r. unfold wrap_action, step, require_init. simpl.
    destruct (other_check w0) as [[u|e] w'] eqn:Hother; simpl.
    + destruct (action_ args kwargs w') as [res w'']. simpl.
      intros Hin. repeat (apply elem_of_cons in Hin as [Hin|Hin]; [discriminate Hin|]).
      by apply elem_of_nil in Hin.
    + destruct e; simpl.
      all: try (intros Hin; apply elem_of_cons in Hin as [Hin|Hin];
                [discriminate Hin|by apply elem_of_nil in Hin]).
      unfold bind. simpl.
      destruct (default default_denial_handler handler _ _) as [res w'']. simpl.
      intros Hin. repeat (apply elem_of_cons in Hin as [Hin|Hin]; [discriminate Hin|]).
      by apply elem_of_nil in Hin.
  - intros handler other_check w0 e w' Hother Hne.
    unfold wrap_action, step. simpl. rewrite Hother.
    destruct e as [| | | |denied| | |]; try done. by destruct (Hne denied).
Qed.

End require_default_facts.

Lemma require_default_denial_witness :
  Decorators.not_met "denied" (Decorators.world_with_identity (PyStr "alice"))
  = (Raise (NotAuthorizedError "denied"),
     Decorators.world_with_identity (PyStr "alice")) ∧
  ∃ w2,
    Decorators.wrap_action
      (Decorators.require_init (Decorators.not_met "denied") None)
      Decorators.action_index [] ∅
      (Decorators.start (Decorators.world_with_identity (PyStr "alice")))
    = (Raise (HTTPError 403 "denied" ""),
       {| Decorators.world := w2;
          Decorators.trace :=
            [Decorators.CheckAuthorization; Decorators.SetStatus 403;
             Decorators.CallDenialHandler "denied"] |}) ∧
    Decorators.flashed w2 = [("denied", "error")].
Proof.
  split; [reflexivity|].
  destruct (require_default_denial (Decorators.not_met "denied")
              Decorators.action_index [] ∅
              (Decorators.world_with_identity (PyStr "alice"))
              (Decorators.world_with_identity (PyStr "alice")) "denied" eq_refl)
    as [(w2 & Hrun & _ & Hflash & _) _].
  exists w2. split; [exact Hrun|exact Hflash].
Defined.

Lemma validate_commutes_witness :
  (do! Decorators.validate_call (Decorators.validate_init PyNone PyNone PyNone) 1%positive
   in Decorators.hook_decorator_call "before_render" Decorators.hook_pass 1%positive)%eff
    Decorators.empty_registry
  = (do! Decorators.hook_decorator_call "before_render" Decorators.hook_pass 1%positive
     in Decorators.validate_call (Decorators.validate_init PyNone PyNone PyNone) 1%positive)%eff
      Decorators.empty_registry.
Proof.
  destruct (validate_commutes [] 1%positive
              (Decorators.validate_init PyNone PyNone PyNone)) as [_ Hhook].
  eapply (Hhook "before_render" Decorators.hook_pass _ _ _ []).
  - reflexivity.
  - apply lookup_insert_eq.
  - reflexivity.
Defined.

(** ** What before_validate leaves in request.paginators *)

Section paginate_final_state.
Import Decorators.

(** The state [before_validate] ends in when the page and the number
    of items can be computed. *)
Lemma before_validate_final (self : Paginate) (s : PagState)
    (pd0 d : gmap string PyVal) (page items : Z) :
  name self ≠ "_tg_paginators_params" →
  default (<["_tg_paginators_params" := PyDict ∅]> ∅) (request_paginators s) = pd0 →
  pd0 !! "_tg_paginators_params" = Some (PyDict d) →
  let v_page := dict_get (params s) (page_param self) in
  let params1 := delete (page_param self) (params s) in
  let v_items := dict_get params1 (items_per_page_param self) in
  let params2 := delete (items_per_page_param self) params1 in
  (∀ s0, page_of v_page s0 = (Ok page, s0)) →
  (∀ s0, items_per_page_of self v_items s0 = (Ok items, s0)) →
  1 ≤ page →
  let tg := <[page_param self := v_page]> d in
  let paginate_params :=
    if negb (items =? items_per_page self)
    then <[items_per_page_param self := PyInt items]> (tg ∪ params2)
    else tg ∪ params2 in
  let bunch : gmap string PyVal :=
    <["paginate_params" := PyDict paginate_params]>
    (<["paginate_items_per_page" := PyInt items]>
    (<["paginate_page" := PyInt page]> ∅)) in
  before_validate self s
  = (Ok tt,
     {| params := params2;
        request_paginators :=
          Some (<[name self := PyDict bunch]>
                (<["_tg_paginators_params" := PyDict tg]> pd0)) |}).
Proof.
  intros Hname Hpd0 Htg v_page params1 v_items params2 Hpage Hitems Hge
         tg paginate_params bunch.
  match goal with |- _ = (Ok tt, ?final) =>
    assert (Hwp : wp (before_validate self) (fun _ s' => s' = final)
                     (fun _ _ => False) s)
  end.
  { unfold before_validate.
    apply wp_bind, wp_params_pop. fold v_page params1.
    apply wp_bind. unfold wp at 1. rewrite Hpage.
    assert (Hor : (if page =? 0 then 1 else page) = page).
    { destruct (page =? 0) eqn:H0; [|done]. apply Z.eqb_eq in H0. lia. }
    rewrite Hor.
    apply wp_bind, wp_paginators_data.
    match goal with
    | |- context [wp ?m ?Q ?E] =>
        assert (Htail : ∀ s1 : PagState,
          params s1 = params1 → request_paginators s1 = Some pd0 → wp m Q E s1)
    end.
    { intros s1 Hp1 Hrp1.
      apply wp_bind. eapply wp_paginators_setitem; [done..|]. fold tg.
      apply wp_bind, wp_paginators_data. simpl.
      apply wp_bind, wp_put_paginators. simpl.
      apply wp_bind. eapply wp_paginators_setitem; [done|apply lookup_insert_eq|].
      simpl. apply wp_bind, wp_params_pop. simpl. rewrite Hp1. fold v_items params2.
      apply wp_bind. unfold wp at 1. rewrite Hitems.
      apply wp_bind. eapply wp_paginators_setitem; [done|apply lookup_insert_eq|].
      simpl. apply wp_bind, wp_get. simpl.
      apply wp_bind. eapply wp_paginators_setitem; [done|apply lookup_insert_eq|].
      simpl. apply wp_bind. eapply (wp_paginators_dict _ _ _ _ _ tg); [done| |].
      { repeat (rewrite lookup_insert_ne by done). apply lookup_insert_eq. }
      eapply wp_paginators_setitem; [done|apply lookup_insert_eq|].
      unfold update_items. rewrite (proj2 (String.eqb_neq _ _) Hname).
      simpl. fold paginate_params. unfold bunch.
      by rewrite !insert_insert_eq. }
    destruct (request_paginators s) as [pd|] eqn:Hrp; simpl in Hpd0; subst pd0.
    - by apply Htail.
    - by apply Htail. }
  unfold wp in Hwp. destruct (before_validate self s) as [[[]|e] s']; [|done].
  by subst.
Qed.

(** The same, read off a call that returned. *)
Lemma before_validate_returned (self : Paginate) (s s' : PagState) :
  name self ≠ "_tg_paginators_params" →
  paginators_ready s →
  before_validate self s = (Ok tt, s') →
  ∃ pd0 d bunch,
    default (<["_tg_paginators_params" := PyDict ∅]> ∅) (request_paginators s) = pd0 ∧
    pd0 !! "_tg_paginators_params" = Some (PyDict d) ∧
    request_paginators s'
      = Some (<[name self := PyDict bunch]>
              (<["_tg_paginators_params" :=
                   PyDict (<[page_param self := dict_get (params s) (page_param self)]> d)]>
               pd0)) ∧
    ∃ paginate_params,
      bunch !! "paginate_params" = Some (PyDict paginate_params) ∧
      ∀ k, k ≠ items_per_page_param self →
           paginate_params !! k
           = (<[page_param self := dict_get (params s) (page_param self)]> d
              ∪ params s') !! k.
Proof.
  intros Hname Hready Hrun.
  pose proof (before_validate_wp self s) as Hwp. simpl in Hwp.
  eapply wp_result in Hwp; [|done].
  destruct Hwp as (Hparams & page & items & Hpage & Hitems & _).
  assert (Hge : 1 ≤ page).
  { destruct (page_of_cases (dict_get (params s) (page_param self)))
      as [(page' & Hpage' & Hge & _)|[Hraise _]].
    - specialize (Hpage s). rewrite Hpage' in Hpage. by simplify_eq.
    - specialize (Hpage s). rewrite Hraise in Hpage. done. }
  assert (∃ d, default (<["_tg_paginators_params" := PyDict ∅]> ∅) (request_paginators s)
               !! "_tg_paginators_params" = Some (PyDict d)) as [d Hd].
  { unfold paginators_ready in Hready.
    destruct (request_paginators s) as [pd|]; simpl; [done|].
    exists ∅. apply lookup_insert_eq. }
  pose proof (before_validate_final self s _ d page items Hname eq_refl Hd
                Hpage Hitems Hge) as Hfinal.
  simpl in Hfinal. rewrite Hrun in Hfinal. injection Hfinal as ->.
  eexists _, d, _. split; [done|]. split; [done|]. split; [done|]. simpl.
  eexists. split; [apply lookup_insert_eq|].
  intros k Hk. destruct (negb _); [by rewrite lookup_insert_ne|done].
Qed.

(** X25: two [paginate] decorators with different names (neither being
    ['_tg_paginators_params']) paginate independently: when both
    [before_validate] calls return on a request whose paginators are
    unset or hold the parameter dictionary, the second call leaves the
    attributes of the first paginator, and of every other entry of
    [request.paginators], as they were, and its own [paginate_params]
    carries the page parameter of the first paginator with the value the
    request gave it, provided the parameters of the second differ from
    it. *)
Theorem paginate_two_collections (first second : Paginate) (s s1 s2 : PagState) :
  name first ≠ "_tg_paginators_params" →
  name second ≠ "_tg_paginators_params" →
  name second ≠ name first →
  paginators_ready s →
  before_validate first s = (Ok tt, s1) →
  before_validate second s1 = (Ok tt, s2) →
  (∀ attr, paginator_attr s2 (name first) attr = paginator_attr s1 (name first) attr) ∧
  (∀ other attr,
     other ≠ name first → other ≠ name second → other ≠ "_tg_paginators_params" →
     paginator_attr s2 other attr = paginator_attr s other attr) ∧
  (page_param second ≠ page_param first →
   items_per_page_param second ≠ page_param first →
   ∃ paginate_params,
     paginator_attr s2 (name second) "paginate_params" = Some (PyDict paginate_params) ∧
     paginate_params !! page_param first
       = Some (dict_get (params s) (page_param first))).
Proof.
  intros Hfirst Hsecond Hnames Hready Hrun1 Hrun2.
  destruct (before_validate_returned first s s1 Hfirst Hready Hrun1)
    as (pd0 & d & bunch1 & Hpd0 & Hd & Hs1 & _).
  assert (Hready1 : paginators_ready s1).
  { unfold paginators_ready. rewrite Hs1. eexists.
    rewrite lookup_insert_ne by done. apply lookup_insert_eq. }
  destruct (before_validate_returned second s1 s2 Hsecond Hready1 Hrun2)
    as (pd1 & d1 & bunch2 & Hpd1 & Hd1 & Hs2 & pp & Hpp & Hlookup).
  rewrite Hs1 in Hpd1. simpl in Hpd1. subst pd1.
  rewrite lookup_insert_ne, lookup_insert_eq in Hd1 by done.
  injection Hd1 as <-.
  split; [|split].
  - intros attr. unfold paginator_attr. rewrite Hs2, Hs1.
    rewrite lookup_insert_ne by done. rewrite lookup_insert_ne by done.
    done.
  - intros other attr Ho1 Ho2 Ho3. unfold paginator_attr. rewrite Hs2.
    repeat (rewrite lookup_insert_ne by done).
    destruct (request_paginators s) as [pd|]; simpl in Hpd0; subst pd0; [done|].
    by rewrite lookup_insert_ne, lookup_empty.
  - intros Hpage Hitems. exists pp. split.
    + unfold paginator_attr. rewrite Hs2. by rewrite lookup_insert_eq.
    + rewrite Hlookup by done.
      apply lookup_union_Some_l. rewrite lookup_insert_ne by done.
      apply lookup_insert_eq.
Qed.

End paginate_final_state.

Lemma paginate_two_collections_witness :
  (Decorators.before_validate (Decorators.paginate_init "users" true 10 50)
     Decorators.two_collections_state).1 = Ok tt ∧
  (Decorators.before_validate (Decorators.paginate_init "posts" true 20 50)
     (Decorators.before_validate (Decorators.paginate_init "users" true 10 50)
        Decorators.two_collections_state).2).1 = Ok tt ∧
  ∃ paginate_params,
    Decorators.paginator_attr
      (Decorators.before_validate (Decorators.paginate_init "posts" true 20 50)
         (Decorators.before_validate (Decorators.paginate_init "users" true 10 50)
            Decorators.two_collections_state).2).2
      "posts" "paginate_params" = Some (PyDict paginate_params) ∧
    paginate_params !! "users_page" = Some (PyStr "2").
Proof.
  split; [vm_compute; reflexivity|]. split; [vm_compute; reflexivity|].
  refine (proj2 (proj2 (paginate_two_collections
                   (Decorators.paginate_init "users" true 10 50)
                   (Decorators.paginate_init "posts" true 20 50)
                   Decorators.two_collections_state _ _ _ _ _ I _ _)) _ _).
  - intros Heq. vm_compute in Heq. discriminate Heq.
  - intros Heq. vm_compute in Heq. discriminate Heq.
  - intros Heq. vm_compute in Heq. discriminate Heq.
  - vm_compute; reflexivity.
  - vm_compute; reflexivity.
  - intros Heq. vm_compute in Heq. discriminate Heq.
  - intros Heq. vm_compute in Heq. discriminate Heq.
Defined.

(** ** From expose to the template engine lookup *)

Section expose_lookup.
Import Decorators.

Variable best_match : list string → string → Result string.

(** X26: the first [expose] applied to a function decides its
    rendering: for a function without a decoration, an [expose] without
    custom format and with a content type other than the empty string
    makes [lookup_template_engine] return that content type (with its
    charset), engine, template and excluded names, whatever the request
    accepts, as long as no custom format and no template override is in
    force for the function and the response has no [Content-Type] header
    under any spelling of the name. *)
Theorem expose_then_lookup (ops : list RegistryOp) (self : Expose) (func : positive)
    (req : Request) (resp : Response) :
  decoration_attr (run_ops ops) !! func = None →
  nonempty (expose_custom_format self) = false →
  expose_content_type self ≠ "" →
  (∀ chosen, _render_custom_format req = Some chosen → chosen !! func = None) →
  header_get (response_headers resp) "Content-Type" = None →
  (∀ mapping, _override_mapping req = Some mapping → mapping !! func = None) →
  ∃ dec d' r',
    expose_call self func (run_ops ops) = (Ok func, r') ∧
    decoration_attr r' !! func = Some dec ∧
    heap r' !! dec = Some d' ∧
    lookup_template_engine best_match d' req resp
    = Ok (with_charset (expose_content_type self), expose_engine self,
          expose_template self, expose_exclude_names self).
Proof.
  intros Hfresh Hcustom Hct Hchosen Hheader Hoverride.
  pose proof (run_ops_wf ops) as Hwf.
  destruct (get_decoration_spec (run_ops ops) func Hwf)
    as (dec & r1 & Hget & _ & Hattr1 & _ & _ & _ & Hnew).
  destruct (Hnew Hfresh) as [_ Hd0].
  exists dec. eexists _, _. split.
  { unfold expose_call. rewrite Hcustom.
    eapply (decorator_run _ r1 func dec (__init__ func)); [done|done|reflexivity]. }
  simpl. split; [done|]. split; [apply lookup_insert_eq|].
  rewrite lookup_plain.
  - unfold select_content_type, engines_get. simpl.
    rewrite insert_empty, map_size_singleton. simpl.
    apply String.eqb_neq in Hct. rewrite Hct. simpl.
    by rewrite lookup_singleton_eq.
  - unfold render_custom_format_of. simpl.
    destruct (_render_custom_format req) as [chosen|] eqn:Hc; [|done].
    by rewrite (Hchosen chosen eq_refl).
  - done.
  - done.
Qed.

End expose_lookup.

Lemma expose_then_lookup_witness :
  Decorators.decoration_attr (Decorators.run_ops []) !! 1%positive = None ∧
  ∃ dec d' r',
    Decorators.expose_call
      {| Decorators.expose_engine := PyStr "json";
         Decorators.expose_template := PyStr "";
         Decorators.expose_content_type := "application/json";
         Decorators.expose_exclude_names := PyList [PyStr "tmpl_context"];
         Decorators.expose_custom_format := None |}
      1%positive (Decorators.run_ops []) = (Ok 1%positive, r') ∧
    Decorators.decoration_attr r' !! 1%positive = Some dec ∧
    Decorators.heap r' !! dec = Some d' ∧
    Decorators.lookup_template_engine (fun _ _ => Ok "") d'
      Decorators.plain_request Decorators.plain_response
    = Ok ("application/json; charset=utf-8", PyStr "json", PyStr "",
          PyList [PyStr "tmpl_context"]).
Proof.
  split; [reflexivity|].
  apply (expose_then_lookup (fun _ _ => Ok "") []
           {| Decorators.expose_engine := PyStr "json";
              Decorators.expose_template := PyStr "";
              Decorators.expose_content_type := "application/json";
              Decorators.expose_exclude_names := PyList [PyStr "tmpl_context"];
              Decorators.expose_custom_format := None |}
           1%positive Decorators.plain_request Decorators.plain_response).
  - reflexivity.
  - reflexivity.
  - discriminate.
  - intros chosen Hchosen. discriminate Hchosen.
  - reflexivity.
  - intros mapping Hmapping. discriminate Hmapping.
Defined.

(** ** The charset of the content type *)

Section charset_facts.
Import Decorators.

Variable best_match : list string → string → Result string.

Lemma index_cons (sub : string) (c : ascii) (s : string) :
  String.index 0 sub (String c s)
  = if String.prefix sub (String c s) then Some 0%nat
    else match String.index 0 sub s with
         | Some n => Some (S n)
         | None => None
         end.
Proof. reflexivity. Qed.

Lemma contains_charset_app (ct : string) :
  contains "charset" (ct ++ "; charset=utf-8")%string = true.
Proof.
  unfold contains.
  assert (∃ n, String.index 0 "charset" (ct ++ "; charset=utf-8")%string = Some n)
    as [n ->]; [|done].
  induction ct as [|c ct [n IH]].
  - by exists 2%nat.
  - change (String c ct ++ "; charset=utf-8")%string
      with (String c (ct ++ "; charset=utf-8")%string).
    rewrite index_cons, IH. destruct (String.prefix _ _); eauto.
Qed.

Lemma append_charset_ne (ct : string) : (ct ++ "; charset=utf-8")%string ≠ ct.
Proof. induction ct as [|c ct IH]; simpl; [done|]. intros [= Heq]. by apply IH. Qed.

Lemma with_charset_cases (ct : string) :
  with_charset ct = ct ∨
  with_charset ct = (ct ++ "; charset=utf-8")%string ∧ contains "charset" ct = false.
Proof.
  unfold with_charset. destruct (contains "charset" ct); simpl; [by left|].
  destruct (_ || _); [by right|by left].
Qed.

(** X27: a content type that [lookup_template_engine] returns and that
    starts with ['text'], or is one of ['application/xhtml+xml'],
    ['application/xml'] and ['application/json'], always names a
    charset; the charset is appended to the selected content type only
    when that names none, so never twice. *)
Theorem lookup_content_type_charset (d : Decoration) (req : Request) (resp : Response)
    (content_type : string) (engine template exclude_names : PyVal) :
  lookup_template_engine best_match d req resp
    = Ok (content_type, engine, template, exclude_names) →
  (startswith "text" content_type = true ∨
   content_type ∈ ["application/xhtml+xml"; "application/xml"; "application/json"] →
   contains "charset" content_type = true) ∧
  with_charset content_type = content_type.
Proof.
  unfold lookup_template_engine.
  match goal with |- context [match ?found with Ok _ => _ | Raise _ => _ end] =>
    destruct found as [[[[ct0 e0] t0] x0]|e] end; [|done].
  intros [= <- _ _ _].
  assert (Hstable : with_charset (with_charset ct0) = with_charset ct0).
  { destruct (with_charset_cases ct0) as [Heq|[Heq _]]; [congruence|].
    rewrite Heq. unfold with_charset. by rewrite contains_charset_app. }
  split; [|done].
  revert Hstable. generalize (with_charset ct0). intros ct Hstable Hkind.
  revert Hstable. unfold with_charset.
  destruct (contains "charset" ct) eqn:Hcontains; [done|].
  simpl. destruct Hkind as [->|Hin]; simpl.
  - intros Heq. by apply append_charset_ne in Heq.
  - rewrite (bool_decide_eq_true_2 _ Hin), orb_true_r.
    intros Heq. by apply append_charset_ne in Heq.
Qed.

End charset_facts.

Lemma lookup_content_type_charset_witness :
  Decorators.lookup_template_engine (fun _ _ => Ok "") Decorators.html_controller
    Decorators.plain_request Decorators.plain_response
  = Ok ("text/html; charset=utf-8", PyStr "genshi", PyStr "pkg.templates.index",
        PyList []) ∧
  contains "charset" "text/html; charset=utf-8" = true.
Proof.
  split; [reflexivity|].
  refine (proj1 (lookup_content_type_charset (fun _ _ => Ok "")
                   Decorators.html_controller Decorators.plain_request
                   Decorators.plain_response "text/html; charset=utf-8"
                   (PyStr "genshi") (PyStr "pkg.templates.index") (PyList []) _) _).
  - reflexivity.
  - left. reflexivity.
Defined.
